(** * go-dctrack-client: the authenticated, paginated, retrying fetch pipeline

    A shallow embedding of the two client packages of the repository and
    of the tool that runs the first:

    - [Root]: the package at the repository root ([dctrack_client.go]);
    - [Sub]:  the package under [dctrack/] ([config.go], [client.go],
      [models.go]);
    - [FilterBuilder] and the presets, which both packages declare;
    - [Cmd]:  the command-line tool ([cmd/dctrackcheck/main.go]).

    Go values are modelled as they are in the source: [int] and
    [time.Duration] as [Z], strings as byte strings, [float64] as the
    kernel's binary64 floats, a [map[string]interface{}] as a [gmap], a
    function returning [(value, error)] as a pair whose second component is
    an [option error] ([None] is Go's [nil] error).  The network, the clock
    and the calls to [time.Sleep] are explicit: every call of
    [httpClient.Do] and of [time.Sleep] is appended to the log of a
    [World], and every call of [time.Now()] takes the next reading of a
    [Clock].  Logging through zap does not influence any result and is left
    out. *)

From Stdlib Require Import ZArith String Ascii List Bool Lia DecimalString.
From Stdlib Require Import Floats.PrimFloat Numbers.Cyclic.Int63.Uint63.
From stdpp Require Import base option list gmap strings.
Import ListNotations.

#[local] Set Warnings "-register-all".
#[local] Open Scope string_scope.
#[local] Open Scope list_scope.
#[local] Open Scope Z_scope.

(** ** Go basics *)

Module Go.

(** [int] is 64 bits wide on the platforms the client targets; arithmetic
    wraps around. *)
Definition maxInt : Z := 2 ^ 63 - 1.
Definition minInt : Z := - 2 ^ 63.
Definition wrapInt (z : Z) : Z := (z + 2 ^ 63) mod 2 ^ 64 - 2 ^ 63.

(** The verb [%d] of [fmt.Sprintf]. *)
Definition itoa (z : Z) : string := NilZero.string_of_int (Z.to_int z).

(** [len(s)], [s[:n]] and [s[n:]] on strings (bytes). *)
Definition len (s : string) : Z := Z.of_nat (String.length s).
Definition slice_to (n : nat) (s : string) : string := String.substring 0 n s.
Definition slice_from (n : nat) (s : string) : string :=
  String.substring n (String.length s - n) s.

Definition eqb (a b : string) : bool := String.eqb a b.

(** [time.Duration] constants, in nanoseconds. *)
Definition Second : Z := 1000000000.

(** [base64.StdEncoding.EncodeToString], on the bytes of a string: three
    bytes give four digits; one or two bytes at the end give two or three
    digits and the padding. *)
Definition base64Alphabet : string :=
  "ABCDEFGHIJKLMNOPQRSTUVWXYZabcdefghijklmnopqrstuvwxyz0123456789+/".

Definition base64Digit (n : N) : ascii :=
  match String.get (N.to_nat n) base64Alphabet with
  | Some digit => digit
  | None => "="%char
  end.

Fixpoint base64 (s : string) : string :=
  match s with
  | EmptyString => EmptyString
  | String a EmptyString =>
      let n := (N_of_ascii a * 16)%N in
      String (base64Digit (n / 64))
        (String (base64Digit (n mod 64)) "==")
  | String a (String b EmptyString) =>
      let n := ((N_of_ascii a * 256 + N_of_ascii b) * 4)%N in
      String (base64Digit (n / 4096))
        (String (base64Digit (n / 64 mod 64))
           (String (base64Digit (n mod 64)) "="))
  | String a (String b (String c rest)) =>
      let n := ((N_of_ascii a * 256 + N_of_ascii b) * 256
                + N_of_ascii c)%N in
      String (base64Digit (n / 262144))
        (String (base64Digit (n / 4096 mod 64))
           (String (base64Digit (n / 64 mod 64))
              (String (base64Digit (n mod 64)) (base64 rest))))
  end.

(** [http.StatusOK]. *)
Definition StatusOK : Z := 200.

End Go.

(** ** Errors

    Go's [error] values, by the way they are built in the source. *)

Inductive error : Type :=
| errorString (msg : string)
    (** [fmt.Errorf] without [%w]: the complete message. *)
| wrapError (msg : string) (cause : option error)
    (** [fmt.Errorf("msg: %w", cause)]: [msg] is the text before the verb;
        [cause] is [None] when the wrapped error is [nil]. *)
| urlError (op url : string) (cause : error)
    (** [*url.Error], what [http.Client.Do] returns. *)
| transportError (detail : string)
    (** Any failure below HTTP: dial, TLS, reset, client timeout. *)
| contextCanceled
| deadlineExceeded
| readError (detail : string)
    (** [io.ReadAll] on a body whose transfer breaks. *)
| jsonError
    (** A syntax or type error of [encoding/json]. *)
| invalidURL
    (** What [url.Parse] reports. *).

(** [errors.Is(err, target)] for the two context errors: follows the chain
    of wrapped causes. *)
Fixpoint errors_Is_context (e : error) : bool :=
  match e with
  | contextCanceled | deadlineExceeded => true
  | wrapError _ (Some c) => errors_Is_context c
  | urlError _ _ c => errors_Is_context c
  | _ => false
  end.

(** ** JSON documents and the values [encoding/json] decodes them to *)

Inductive json : Type :=
| JNull
| JBool (b : bool)
| JNumber (literal : string)
| JString (s : string)
| JArray (elems : list json)
| JObject (members : list (string * json)).

(** What a JSON value becomes in an [interface{}]: [nil], [bool],
    [float64], [string], [[]interface{}] or [map[string]interface{}].  The
    members of a nested map are kept in the order of the document; the
    client observes such a value only through [fmt.Sprintf("%v", _)]. *)
Inductive value : Type :=
| VNil
| VBool (b : bool)
| VNumber (f : float)
| VString (s : string)
| VArray (elems : list value)
| VMap (members : list (string * value)).

Definition is_nil (v : value) : bool :=
  match v with VNil => true | _ => false end.

(** A raw record: one element of the page, a [map[string]interface{}]. *)
Abbreviation record := (gmap string value).

(** An instant ([time.Time]), as nanoseconds on the clock of the [World]. *)
Definition Time : Type := Z.

(** ** Requests, and the world: clock and log *)

Module Request.
Record t : Type := {
  Method : string;
  URL : string;
  Header : gmap string string;
  (** The payload that [json.Marshal] rendered, if the request has one. *)
  Body : option json
}.
End Request.

(** The value that [req.SetBasicAuth(username, password)] gives the header
    [Authorization]. *)
Definition basicAuth (username password : string) : string :=
  "Basic " +:+ Go.base64 (username +:+ ":" +:+ password).

Inductive event : Type :=
| Sent (req : Request.t)   (** a call of [httpClient.Do] *)
| Slept (d : Z)            (** a call of [time.Sleep] *).

Record World : Type := { now : Time; log : list event }.

(** What the calls of [time.Now()] read, one after the other: call [n]
    from here on reads [timeNow n]. *)
Definition Clock : Type := nat -> Time.

(** The readings that are left after [calls] calls. *)
Definition later (calls : nat) (timeNow : Clock) : Clock :=
  fun n => timeNow (calls + n)%nat.

(** ** The parts of Go's standard library the client calls

    Formatting and parsing of numbers and dates, and URL parsing, are Go's
    and not the repository's: they are the fields of a [GoRuntime], and
    every definition and theorem below is stated for an arbitrary one. *)

Class GoRuntime : Type := {
  (** [fmt.Sprintf("%v", v)] for [v] a [float64], a slice or a map. *)
  fmt_Sprint_other : value -> string;
  (** [fmt.Sscanf(s, "%f", &f)]: [Some f] when [err == nil]. *)
  fmt_Sscanf_f : string -> option float;
  (** [fmt.Sscanf(s, "%d", &i)]: [Some i] when [err == nil]. *)
  fmt_Sscanf_d : string -> option Z;
  (** [strconv.ParseFloat(s, 64)]: [Some f] when [err == nil]. *)
  strconv_ParseFloat : string -> option float;
  (** [strconv.Atoi(s)]: [Some i] when [err == nil]. *)
  strconv_Atoi : string -> option Z;
  (** [time.Parse(layout, s)]: [Some t] when [err == nil]. *)
  time_Parse : string -> string -> option Time;
  (** [time.Now()]: what its calls read, one after the other, from the
      moment the world is [w]. *)
  time_Now : World -> Clock;
  (** Whether [url.Parse] accepts the string, which decides whether
      [http.NewRequestWithContext] returns a request. *)
  url_Parse_ok : string -> bool
}.

(** [fmt.Sprintf("%v", val)]. *)
Definition Sprint {rt : GoRuntime} (val : value) : string :=
  match val with
  | VNil => "<nil>"
  | VBool true => "true"
  | VBool false => "false"
  | VString s => s
  | _ => fmt_Sprint_other val
  end.

(** ** [encoding/json], for the targets the client decodes into *)

Module Json.

(** A number literal decoded into an [int] field: [strconv.ParseInt] in
    base 10 over 64 bits, so a fraction or an exponent is a type error. *)
Fixpoint digits (s : string) (acc : Z) : option Z :=
  match s with
  | EmptyString => Some acc
  | String c s' =>
      let n := Z.of_nat (nat_of_ascii c) in
      if (48 <=? n) && (n <=? 57) then digits s' (10 * acc + (n - 48))
      else None
  end.

Definition parseInt (literal : string) : option Z :=
  match literal with
  | EmptyString => None
  | String "-" EmptyString => None
  | String "-" ds =>
      z ← digits ds 0; if z <=? - Go.minInt then Some (- z) else None
  | _ => z ← digits literal 0; if z <=? Go.maxInt then Some z else None
  end.

(** An [int] field: [null] leaves it as it is. *)
Definition decodeInt (j : json) (old : Z) : option Z :=
  match j with
  | JNull => Some old
  | JNumber literal => parseInt literal
  | _ => None
  end.

(** Keys match field names exactly or, failing that, under Unicode's
    simple case folding: letters without regard to case, and the two
    characters beyond ASCII that fold to a letter, U+017F (long s, bytes
    197 191) to [s] and U+212A (Kelvin sign, bytes 226 132 170) to [k]. *)
Definition lower (c : ascii) : ascii :=
  let n := nat_of_ascii c in
  if ((65 <=? n) && (n <=? 90))%nat then ascii_of_nat (n + 32) else c.

Definition isByte (n : nat) (c : ascii) : bool := (nat_of_ascii c =? n)%nat.

Fixpoint fold (s : string) : string :=
  match s with
  | EmptyString => EmptyString
  | String c1 s1 =>
      match s1 with
      | String c2 s2 =>
          if isByte 197 c1 && isByte 191 c2 then String "s" (fold s2)
          else
            match s2 with
            | String c3 s3 =>
                if isByte 226 c1 && isByte 132 c2 && isByte 170 c3 then
                  String "k" (fold s3)
                else String (lower c1) (fold s1)
            | EmptyString => String (lower c1) (fold s1)
            end
      | EmptyString => String (lower c1) EmptyString
      end
  end.

Definition isField (name key : string) : bool :=
  String.eqb (fold name) (fold key).

(** A slice of maps as [Unmarshal] sees it: the elements of its backing
    array, of which the first [used] are the slice. *)
Record slice : Type := { backing : list record; used : nat }.

Definition nilSlice : slice := {| backing := []; used := 0 |}.

Definition elements (s : slice) : list record := take (used s) (backing s).

(** The members of an object decoded one after the other into a struct
    [a]; [field] decodes one member into the field its key names.  A
    type error is reported once the object is read: only whether one
    occurred matters to the caller. *)
Fixpoint decodeObject {A : Type} (field : A -> string -> json -> option A)
    (members : list (string * json)) (a : A) : option A :=
  match members with
  | [] => Some a
  | (k, x) :: rest => a' ← field a k x; decodeObject field rest a'
  end.

Section Decode.
Context {rt : GoRuntime}.

(** A JSON value decoded into an [interface{}].  A number is a
    [float64]; a literal outside its range is an error. *)
Fixpoint decodeInterface (j : json) : option value :=
  match j with
  | JNull => Some VNil
  | JBool b => Some (VBool b)
  | JNumber literal => VNumber <$> strconv_ParseFloat literal
  | JString s => Some (VString s)
  | JArray elems =>
      VArray <$>
        (fix each (l : list json) : option (list value) :=
           match l with
           | [] => Some []
           | x :: l' =>
               v ← decodeInterface x; vs ← each l'; Some (v :: vs)
           end) elems
  | JObject members =>
      VMap <$>
        (fix each (l : list (string * json))
           : option (list (string * value)) :=
           match l with
           | [] => Some []
           | (k, x) :: l' =>
               v ← decodeInterface x; vs ← each l'; Some ((k, v) :: vs)
           end) members
  end.

(** The members of an object stored one after the other into a
    [map[string]interface{}]: a repeated key keeps its last value. *)
Fixpoint decodeMembers (members : list (string * json)) (m : record)
  : option record :=
  match members with
  | [] => Some m
  | (k, x) :: rest =>
      v ← decodeInterface x; decodeMembers rest (<[k := v]> m)
  end.

(** A JSON value decoded into a [map[string]interface{}] that holds
    [old] ([∅] stands for the nil map, which reads the same). *)
Definition decodeMap (j : json) (old : record) : option record :=
  match j with
  | JNull => Some ∅
  | JObject members => decodeMembers members old
  | _ => None
  end.

(** An array is decoded element by element into the backing array, over
    what an earlier occurrence of the same key left there; [null] and
    the empty array leave a slice without elements. *)
Fixpoint decodeElems (elems : list json) (old : list record)
  : option (list record) :=
  match elems with
  | [] => Some []
  | j :: js =>
      r ← decodeMap j (default ∅ (head old));
      rs ← decodeElems js (tail old);
      Some (r :: rs)
  end.

Definition decodeSlice (j : json) (s : slice) : option slice :=
  match j with
  | JNull => Some nilSlice
  | JArray [] => Some nilSlice
  | JArray elems =>
      rs ← decodeElems elems (backing s);
      Some {| backing := rs ++ drop (length rs) (backing s);
              used := length rs |}
  | _ => None
  end.

End Decode.

End Json.

(** ** HTTP *)

(** The body of a response, by what reading and decoding it can observe. *)
Inductive Body : Type :=
| BrokenBody (detail : string)
    (** The transfer breaks before the body is complete. *)
| InvalidJSON
    (** Bytes that do not start with a JSON value. *)
| Document (j : json) (trailing : bool)
    (** One JSON value, followed or not by further non-blank bytes. *).

Module Response.
Record t : Type := {
  StatusCode : Z;
  Header : gmap string string;
  Body : Body
}.

(** [resp.Header.Get(key)]. *)
Definition Get (r : t) (key : string) : string := default "" (Header r !! key).
End Response.

(** What [httpClient.Do] gets from the network. *)
Inductive RoundTrip : Type :=
| Failed (err : error)
| Reply (resp : Response.t).

(** ** The network and the context *)

(** The remote endpoint: its answer to a request may depend on everything
    that happened before. *)
Definition Network : Type := list event -> Request.t -> RoundTrip.

(** [context.Context]: [Background], or a context whose [Done] channel is
    closed from instant [at] on, by [cancel()] or by its deadline. *)
Inductive Context : Type :=
| Background
| Cancelled (at_ : Time)
| Deadline (at_ : Time).

Definition ctxErr (ctx : Context) (t : Time) : option error :=
  match ctx with
  | Background => None
  | Cancelled a => if a <=? t then Some contextCanceled else None
  | Deadline a => if a <=? t then Some deadlineExceeded else None
  end.

(** [time.Sleep(d)]: returns after [d], whatever happens meanwhile; at once
    when [d <= 0]. *)
Definition Sleep (d : Z) (w : World) : World :=
  {| now := now w + Z.max 0 d; log := log w ++ [Slept d] |}.

(** [httpClient.Do(req)] for a request made with context [ctx]: the
    transport gives up at once, with the context's error, when the context
    is done; otherwise the network answers. *)
Definition Do (net : Network) (ctx : Context) (req : Request.t) (w : World)
  : RoundTrip * World :=
  let w' := {| now := now w; log := log w ++ [Sent req] |} in
  match ctxErr ctx (now w) with
  | Some e => (Failed (urlError "Post" (Request.URL req) e), w')
  | None => (net (log w) req, w')
  end.

(** ** The data model

    [Config], [ItemsParams] and [DCTrackItem] are declared field for field
    alike by both packages. *)

Module Config.
Record t : Type := {
  URL : string;
  Username : string;
  Password : string;
  PageSize : Z;
  MaxRetries : Z;
  RetryDelay : Z;
  VerifySSL : bool;
  RequestAllFields : bool
}.
End Config.

Module ItemsParams.
Record t : Type := {
  PageNumber : Z;
  PageSize : Z;
  Location : string;
  Status : string;
  ItemClass : string;
  Make : string;
  Model : string;
  SearchText : string
}.

(** [ItemsParams{}]. *)
Definition zero : t :=
  {| PageNumber := 0; PageSize := 0; Location := ""; Status := "";
     ItemClass := ""; Make := ""; Model := ""; SearchText := "" |}.
End ItemsParams.

Module DCTrackItem.
Record t : Type := {
  (* Core identification *)
  ID : string;
  Name : string;
  ItemClass : string;
  Type_ : string;
  Status : string;
  Location : string;
  Cabinet : string;
  Rack : string;
  Position : string;
  Height : Z;
  (* Basic asset information *)
  Make : string;
  Model : string;
  SerialNumber : string;
  OriginalPower : float;
  PowerConsumption : float;
  SystemAdminTeam : string;
  PrimaryContact : string;
  InstallDate : option Time;
  LastServiceDate : option Time;
  (* DCTrack-specific fields *)
  TiSubclass : string;
  TiSerialNumber : string;
  TiAssetTag : string;
  TiFormFactor : string;
  TiMounting : string;
  TiWidth : float;
  TiDepth : float;
  TiWeight : float;
  TiRuHeight : string;
  TiPotentialPower : float;
  TiEffectivePower : float;
  TiPowerCapacity : float;
  TiPsRedundancy : string;
  TiPurchasePrice : float;
  TiContractAmount : float;
  (* Infrastructure details *)
  CmbPlantBay : string;
  CmbCabinetID : string;
  CmbRowPosition : string;
  CmbRowLabel : string;
  TiFloorNodeCode : string;
  TiFloorName : string;
  TiRoomNodeCode : string;
  TiRoomName : string;
  (* Integration status *)
  TiIntegrationStatus : string;
  TiVmwareIntegrationStatus : string;
  TiCmdbIntegrationStatus : string;
  (* Budget and planning *)
  TiItemBudgetStatus : string;
  ChkItemAutoPowerBudget : bool;
  ChkDerateAmps : bool;
  (* Network configuration *)
  IPAddresses : string;
  IPAddressPortName : string;
  TifreeDataPortCount : Z;
  TifreePowerPortCount : Z;
  TiPxUsername : string;
  TiSnmpWriteCommString : string;
  (* Technical specifications *)
  TiUsers : Z;
  TiRam : Z;
  TiProcesses : Z;
  TiCpuQuantity : Z;
  TiCpuType : string;
  TiPartNumber : string;
  (* Important dates *)
  InstallationDate : option Time;
  ContractEndDate : option Time;
  PurchaseDate : option Time;
  TiPlannedDecommDate : option Time;
  (* Custom fields *)
  TiCustomFieldPrimaryContact : option string;
  TiCustomFieldContactTeamName : option string;
  TiCustomFieldAuditRemarks : option string;
  TiCustomFieldAuditDate : option Time;
  TiCustomFieldAuditBy : option string;
  TiCustomFieldWarrantyExpirationDate : option Time;
  TiCustomFieldAssetStatus : option string;
  TiCustomFieldPntIt : option string;
  (* Administrative data *)
  CmbSystemAdminTeam : string;
  CmbSystemAdmin : string;
  CmbCustomer : string;
  TiPoNumber : string;
  TiNotes : string;
  (* System timestamps *)
  LastUpdatedAt : Time;
  CreatedAt : Time;
  UpdatedAt : Time
}.
End DCTrackItem.

(** ** Filters

    [FilterBuilder] and the presets, which both packages declare alike;
    [ItemClass] and [PowerAssets] are declared under [dctrack/] only
    ([filters.go]). *)

Module FilterBuilder.

(** A [*FilterBuilder] is an address; the heap holds the field [params]
    of every builder that was allocated. *)
Definition ptr : Type := nat.
Definition Heap : Type := gmap nat ItemsParams.t.

(** [&FilterBuilder{params: ItemsParams{}}]: a builder of its own. *)
Definition NewFilterBuilder (h : Heap) : ptr * Heap :=
  let f := fresh (dom h) in (f, <[f := ItemsParams.zero]> h).

(** [f.params.field = value; return f].  An address that holds no builder
    is the [nil] pointer: the assignment panics, which is [None]. *)
Definition assign (f : ptr) (set : ItemsParams.t -> ItemsParams.t) (h : Heap)
  : option (ptr * Heap) :=
  params ← h !! f; Some (f, <[f := set params]> h).

Definition Location (f : ptr) (location : string) (h : Heap)
  : option (ptr * Heap) :=
  assign f (fun params =>
    {| ItemsParams.PageNumber := ItemsParams.PageNumber params;
       ItemsParams.PageSize := ItemsParams.PageSize params;
       ItemsParams.Location := location;
       ItemsParams.Status := ItemsParams.Status params;
       ItemsParams.ItemClass := ItemsParams.ItemClass params;
       ItemsParams.Make := ItemsParams.Make params;
       ItemsParams.Model := ItemsParams.Model params;
       ItemsParams.SearchText := ItemsParams.SearchText params |}) h.

Definition Status (f : ptr) (status : string) (h : Heap)
  : option (ptr * Heap) :=
  assign f (fun params =>
    {| ItemsParams.PageNumber := ItemsParams.PageNumber params;
       ItemsParams.PageSize := ItemsParams.PageSize params;
       ItemsParams.Location := ItemsParams.Location params;
       ItemsParams.Status := status;
       ItemsParams.ItemClass := ItemsParams.ItemClass params;
       ItemsParams.Make := ItemsParams.Make params;
       ItemsParams.Model := ItemsParams.Model params;
       ItemsParams.SearchText := ItemsParams.SearchText params |}) h.

Definition ItemClass (f : ptr) (itemClass : string) (h : Heap)
  : option (ptr * Heap) :=
  assign f (fun params =>
    {| ItemsParams.PageNumber := ItemsParams.PageNumber params;
       ItemsParams.PageSize := ItemsParams.PageSize params;
       ItemsParams.Location := ItemsParams.Location params;
       ItemsParams.Status := ItemsParams.Status params;
       ItemsParams.ItemClass := itemClass;
       ItemsParams.Make := ItemsParams.Make params;
       ItemsParams.Model := ItemsParams.Model params;
       ItemsParams.SearchText := ItemsParams.SearchText params |}) h.

Definition Make (f : ptr) (make : string) (h : Heap)
  : option (ptr * Heap) :=
  assign f (fun params =>
    {| ItemsParams.PageNumber := ItemsParams.PageNumber params;
       ItemsParams.PageSize := ItemsParams.PageSize params;
       ItemsParams.Location := ItemsParams.Location params;
       ItemsParams.Status := ItemsParams.Status params;
       ItemsParams.ItemClass := ItemsParams.ItemClass params;
       ItemsParams.Make := make;
       ItemsParams.Model := ItemsParams.Model params;
       ItemsParams.SearchText := ItemsParams.SearchText params |}) h.

Definition Model (f : ptr) (model : string) (h : Heap)
  : option (ptr * Heap) :=
  assign f (fun params =>
    {| ItemsParams.PageNumber := ItemsParams.PageNumber params;
       ItemsParams.PageSize := ItemsParams.PageSize params;
       ItemsParams.Location := ItemsParams.Location params;
       ItemsParams.Status := ItemsParams.Status params;
       ItemsParams.ItemClass := ItemsParams.ItemClass params;
       ItemsParams.Make := ItemsParams.Make params;
       ItemsParams.Model := model;
       ItemsParams.SearchText := ItemsParams.SearchText params |}) h.

Definition SearchText (f : ptr) (text : string) (h : Heap)
  : option (ptr * Heap) :=
  assign f (fun params =>
    {| ItemsParams.PageNumber := ItemsParams.PageNumber params;
       ItemsParams.PageSize := ItemsParams.PageSize params;
       ItemsParams.Location := ItemsParams.Location params;
       ItemsParams.Status := ItemsParams.Status params;
       ItemsParams.ItemClass := ItemsParams.ItemClass params;
       ItemsParams.Make := ItemsParams.Make params;
       ItemsParams.Model := ItemsParams.Model params;
       ItemsParams.SearchText := text |}) h.

Definition WithPagination (f : ptr) (page size : Z) (h : Heap)
  : option (ptr * Heap) :=
  assign f (fun params =>
    {| ItemsParams.PageNumber := page;
       ItemsParams.PageSize := size;
       ItemsParams.Location := ItemsParams.Location params;
       ItemsParams.Status := ItemsParams.Status params;
       ItemsParams.ItemClass := ItemsParams.ItemClass params;
       ItemsParams.Make := ItemsParams.Make params;
       ItemsParams.Model := ItemsParams.Model params;
       ItemsParams.SearchText := ItemsParams.SearchText params |}) h.

(** [return f.params]: a copy of the parameters as they are now. *)
Definition Build (f : ptr) (h : Heap) : option ItemsParams.t := h !! f.

End FilterBuilder.

(** The presets. *)
Definition InstalledOnly : ItemsParams.t :=
  {| ItemsParams.PageNumber := 0; ItemsParams.PageSize := 0;
     ItemsParams.Location := ""; ItemsParams.Status := "Installed";
     ItemsParams.ItemClass := ""; ItemsParams.Make := "";
     ItemsParams.Model := ""; ItemsParams.SearchText := "" |}.

Definition ByLocation (location : string) : ItemsParams.t :=
  {| ItemsParams.PageNumber := 0; ItemsParams.PageSize := 0;
     ItemsParams.Location := location; ItemsParams.Status := "Installed";
     ItemsParams.ItemClass := ""; ItemsParams.Make := "";
     ItemsParams.Model := ""; ItemsParams.SearchText := "" |}.

Definition ByVendor (make : string) : ItemsParams.t :=
  {| ItemsParams.PageNumber := 0; ItemsParams.PageSize := 0;
     ItemsParams.Location := ""; ItemsParams.Status := "Installed";
     ItemsParams.ItemClass := ""; ItemsParams.Make := make;
     ItemsParams.Model := ""; ItemsParams.SearchText := "" |}.

Definition PowerAssets : ItemsParams.t :=
  {| ItemsParams.PageNumber := 0; ItemsParams.PageSize := 0;
     ItemsParams.Location := ""; ItemsParams.Status := "Installed";
     ItemsParams.ItemClass := ""; ItemsParams.Make := "";
     ItemsParams.Model := ""; ItemsParams.SearchText := "" |}.

(** ** The package at the repository root ([dctrack_client.go]) *)

Module Root.

Definition Version : string := "v1.0.0".
Definition UserAgent : string := "go-dctrack-client/v1.0.0".

(** [Client]: the configuration and the token stored by [login]; the
    HTTP client is the [Network] the methods are run against. *)
Module Client.
Record t : Type := { config : Config.t; token : string }.
End Client.

(** [DCTrackResponse]; [SearchResults] is the struct with the single
    field [Items]. *)
Module DCTrackResponse.
Record t : Type := {
  TotalRows : Z;
  PageNumber : Z;
  PageSize : Z;
  SearchResults : Json.slice
}.

Definition zero : t :=
  {| TotalRows := 0; PageNumber := 0; PageSize := 0;
     SearchResults := Json.nilSlice |}.

Definition Items (r : t) : list record := Json.elements (SearchResults r).
End DCTrackResponse.

Definition validateConfig (config : Config.t) : option error :=
  if Go.eqb (Config.URL config) "" then Some (errorString "URL is required")
  else if Go.eqb (Config.Username config) "" then
    Some (errorString "Username is required")
  else if Go.eqb (Config.Password config) "" then
    Some (errorString "Password is required")
  else None.

Definition NewClient (config : Config.t) : option Client.t * option error :=
  match validateConfig config with
  | Some err => (None, Some (wrapError "invalid configuration: " (Some err)))
  | None =>
      let config :=
        {| Config.URL := Config.URL config;
           Config.Username := Config.Username config;
           Config.Password := Config.Password config;
           Config.PageSize :=
             if Config.PageSize config <=? 0 then 1000
             else Config.PageSize config;
           Config.MaxRetries :=
             if Config.MaxRetries config <=? 0 then 3
             else Config.MaxRetries config;
           Config.RetryDelay :=
             if Config.RetryDelay config <=? 0 then Go.Second
             else Config.RetryDelay config;
           Config.VerifySSL := Config.VerifySSL config;
           Config.RequestAllFields := Config.RequestAllFields config |} in
      (Some {| Client.config := config; Client.token := "" |}, None)
  end.

(** [New]: [NewClient] on the configuration it writes down. *)
Definition New (url username password : string)
  : option Client.t * option error :=
  let config :=
    {| Config.URL := url;
       Config.Username := username;
       Config.Password := password;
       Config.PageSize := 1000;
       Config.MaxRetries := 3;
       Config.RetryDelay := Go.Second;
       Config.VerifySSL := true;
       Config.RequestAllFields := true |} in
  NewClient config.

Section Code.
Context {rt : GoRuntime}.
Variable net : Network.

(** *** [login] *)

Definition loginRequest (c : Client.t) : Request.t :=
  {| Request.Method := "POST";
     Request.URL := Config.URL (Client.config c) +:+ "/authentication/login";
     Request.Header :=
       <["User-Agent" := UserAgent]>
         (<["Accept" := "application/json"]>
            (<["Content-Type" := "application/json"]>
               (<["Authorization" :=
                    basicAuth (Config.Username (Client.config c))
                      (Config.Password (Client.config c))]> ∅)));
     Request.Body := None |}.

Definition login (ctx : Context) (c : Client.t) (w : World)
  : option error * Client.t * World :=
  let loginURL := Config.URL (Client.config c) +:+ "/authentication/login" in
  if negb (url_Parse_ok loginURL) then
    (Some (wrapError "error creating login request: "
             (Some (urlError "parse" loginURL invalidURL))), c, w)
  else
    let '(trip, w) := Do net ctx (loginRequest c) w in
    match trip with
    | Failed err => (Some (wrapError "login request failed: " (Some err)), c, w)
    | Reply resp =>
        if negb (Response.StatusCode resp =? Go.StatusOK) then
          (Some (errorString ("login failed with status "
                              +:+ Go.itoa (Response.StatusCode resp))), c, w)
        else
          let authHeader := Response.Get resp "Authorization" in
          if Go.eqb authHeader "" then
            (Some (errorString "no Authorization header in login response"),
             c, w)
          else if (Go.len authHeader >? 7)
                  && (Go.eqb (Go.slice_to 7 authHeader) "Bearer ") then
            (None,
             {| Client.config := Client.config c;
                Client.token := Go.slice_from 7 authHeader |}, w)
          else
            (Some (errorString "invalid Authorization header format"), c, w)
    end.

(** *** [mapDCTrackRecord] *)

Definition getString (record : record) (key : string) : string :=
  match record !! key with
  | Some val => if is_nil val then "" else Sprint val
  | None => ""
  end.

Definition getFloat (record : record) (key : string) : float :=
  match record !! key with
  | Some val =>
      if is_nil val then 0%float
      else
        let str := Sprint val in
        if negb (Go.eqb str "") && negb (Go.eqb str "null") then
          match fmt_Sscanf_f str with
          | Some f => f
          | None => 0%float
          end
        else 0%float
  | None => 0%float
  end.

Definition getInt (record : record) (key : string) : Z :=
  match record !! key with
  | Some val =>
      if is_nil val then 0
      else
        let str := Sprint val in
        if negb (Go.eqb str "") && negb (Go.eqb str "null") then
          match fmt_Sscanf_d str with
          | Some i => i
          | None => 0
          end
        else 0
  | None => 0
  end.

Definition formats : list string :=
  [ "2006-01-02 15:04:05-07";
    "2006-01-02T15:04:05Z";
    "2006-01-02";
    "2006-01-02T15:04:05Z07:00" ].

(** The first format that parses. *)
Fixpoint tryFormats (formats : list string) (str : string) : option Time :=
  match formats with
  | [] => None
  | format :: rest =>
      match time_Parse format str with
      | Some t => Some t
      | None => tryFormats rest str
      end
  end.

Definition getTime (record : record) (key : string) : option Time :=
  match record !! key with
  | Some val =>
      if is_nil val then None
      else
        let str := Sprint val in
        if negb (Go.eqb str "") && negb (Go.eqb str "null") then
          tryFormats formats str
        else None
  | None => None
  end.

(** The calls of [time.Now()] in one mapping: one for [LastUpdatedAt]
    when [lastUpdatedOn] gives no instant, then one for [CreatedAt] and
    one for [UpdatedAt]. *)
Definition timeNowCalls (record : record) : nat :=
  match getTime record "lastUpdatedOn" with
  | Some _ => 2
  | None => 3
  end.

(** [timeNow] is what the calls of [time.Now()] read while the record is
    mapped, the first call [timeNow 0]. *)
Definition mapDCTrackRecord (timeNow : Clock) (record : record)
  : DCTrackItem.t * option error :=
  let item :=
    {| DCTrackItem.ID := getString record "id";
       DCTrackItem.Name := getString record "tiName";
       DCTrackItem.ItemClass := getString record "tiClass";
       DCTrackItem.Type_ := getString record "tiClass";
       DCTrackItem.Status := getString record "cmbStatus";
       DCTrackItem.Location := getString record "cmbLocation";
       DCTrackItem.Cabinet := getString record "cmbCabinet";
       DCTrackItem.Rack := getString record "cmbCabinet";
       DCTrackItem.Position := getString record "cmbUPosition";
       DCTrackItem.Height := getInt record "tiRUs";
       DCTrackItem.Make := getString record "cmbMake";
       DCTrackItem.Model := getString record "cmbModel";
       DCTrackItem.SerialNumber := getString record "tiSerialNumber";
       DCTrackItem.OriginalPower := getFloat record "tiItemOriginalPower";
       DCTrackItem.PowerConsumption := getFloat record "tiEffectivePower";
       DCTrackItem.SystemAdminTeam := getString record "cmbSystemAdminTeam";
       DCTrackItem.PrimaryContact :=
         getString record "tiCustomField_Primary Contact";
       DCTrackItem.InstallDate := getTime record "installationDate";
       DCTrackItem.LastServiceDate := getTime record "lastServiceDate";
       (* not assigned by this mapper: the zero values *)
       DCTrackItem.TiSubclass := "";
       DCTrackItem.TiSerialNumber := "";
       DCTrackItem.TiAssetTag := "";
       DCTrackItem.TiFormFactor := "";
       DCTrackItem.TiMounting := "";
       DCTrackItem.TiWidth := 0%float;
       DCTrackItem.TiDepth := 0%float;
       DCTrackItem.TiWeight := 0%float;
       DCTrackItem.TiRuHeight := "";
       DCTrackItem.TiPotentialPower := 0%float;
       DCTrackItem.TiEffectivePower := 0%float;
       DCTrackItem.TiPowerCapacity := 0%float;
       DCTrackItem.TiPsRedundancy := "";
       DCTrackItem.TiPurchasePrice := 0%float;
       DCTrackItem.TiContractAmount := 0%float;
       DCTrackItem.CmbPlantBay := "";
       DCTrackItem.CmbCabinetID := "";
       DCTrackItem.CmbRowPosition := "";
       DCTrackItem.CmbRowLabel := "";
       DCTrackItem.TiFloorNodeCode := "";
       DCTrackItem.TiFloorName := "";
       DCTrackItem.TiRoomNodeCode := "";
       DCTrackItem.TiRoomName := "";
       DCTrackItem.TiIntegrationStatus := "";
       DCTrackItem.TiVmwareIntegrationStatus := "";
       DCTrackItem.TiCmdbIntegrationStatus := "";
       DCTrackItem.TiItemBudgetStatus := "";
       DCTrackItem.ChkItemAutoPowerBudget := false;
       DCTrackItem.ChkDerateAmps := false;
       DCTrackItem.IPAddresses := "";
       DCTrackItem.IPAddressPortName := "";
       DCTrackItem.TifreeDataPortCount := 0;
       DCTrackItem.TifreePowerPortCount := 0;
       DCTrackItem.TiPxUsername := "";
       DCTrackItem.TiSnmpWriteCommString := "";
       DCTrackItem.TiUsers := 0;
       DCTrackItem.TiRam := 0;
       DCTrackItem.TiProcesses := 0;
       DCTrackItem.TiCpuQuantity := 0;
       DCTrackItem.TiCpuType := "";
       DCTrackItem.TiPartNumber := "";
       DCTrackItem.InstallationDate := None;
       DCTrackItem.ContractEndDate := None;
       DCTrackItem.PurchaseDate := None;
       DCTrackItem.TiPlannedDecommDate := None;
       DCTrackItem.TiCustomFieldPrimaryContact := None;
       DCTrackItem.TiCustomFieldContactTeamName := None;
       DCTrackItem.TiCustomFieldAuditRemarks := None;
       DCTrackItem.TiCustomFieldAuditDate := None;
       DCTrackItem.TiCustomFieldAuditBy := None;
       DCTrackItem.TiCustomFieldWarrantyExpirationDate := None;
       DCTrackItem.TiCustomFieldAssetStatus := None;
       DCTrackItem.TiCustomFieldPntIt := None;
       DCTrackItem.CmbSystemAdminTeam := "";
       DCTrackItem.CmbSystemAdmin := "";
       DCTrackItem.CmbCustomer := "";
       DCTrackItem.TiPoNumber := "";
       DCTrackItem.TiNotes := "";
       (* timestamps *)
       DCTrackItem.LastUpdatedAt :=
         match getTime record "lastUpdatedOn" with
         | Some lastUpdated => lastUpdated
         | None => timeNow 0%nat
         end;
       DCTrackItem.CreatedAt :=
         match getTime record "lastUpdatedOn" with
         | Some _ => timeNow 0%nat
         | None => timeNow 1%nat
         end;
       DCTrackItem.UpdatedAt :=
         match getTime record "lastUpdatedOn" with
         | Some _ => timeNow 1%nat
         | None => timeNow 2%nat
         end |} in
  (* required fields *)
  if Go.eqb (DCTrackItem.ID item) "" then
    (item, Some (errorString "missing required field: id"))
  else if Go.eqb (DCTrackItem.Name item) "" then
    (item, Some (errorString "missing required field: tiName"))
  else if Go.eqb (DCTrackItem.ItemClass item) "" then
    (item, Some (errorString "missing required field: tiClass"))
  else if Go.eqb (DCTrackItem.Status item) "" then
    (item, Some (errorString "missing required field: cmbStatus"))
  else if Go.eqb (DCTrackItem.Location item) "" then
    (item, Some (errorString "missing required field: cmbLocation"))
  else (item, None).

(** *** [json.Unmarshal] into a [DCTrackResponse] *)

Definition decodeSearchResults (j : json) (items : Json.slice)
  : option Json.slice :=
  match j with
  | JNull => Some items
  | JObject members =>
      Json.decodeObject
        (fun items k x =>
           if Json.isField "items" k then Json.decodeSlice x items
           else Some items)
        members items
  | _ => None
  end.

Definition decodeField (resp : DCTrackResponse.t) (k : string) (x : json)
  : option DCTrackResponse.t :=
  if Json.isField "totalRows" k then
    n ← Json.decodeInt x (DCTrackResponse.TotalRows resp);
    Some {| DCTrackResponse.TotalRows := n;
            DCTrackResponse.PageNumber := DCTrackResponse.PageNumber resp;
            DCTrackResponse.PageSize := DCTrackResponse.PageSize resp;
            DCTrackResponse.SearchResults :=
              DCTrackResponse.SearchResults resp |}
  else if Json.isField "pageNumber" k then
    n ← Json.decodeInt x (DCTrackResponse.PageNumber resp);
    Some {| DCTrackResponse.TotalRows := DCTrackResponse.TotalRows resp;
            DCTrackResponse.PageNumber := n;
            DCTrackResponse.PageSize := DCTrackResponse.PageSize resp;
            DCTrackResponse.SearchResults :=
              DCTrackResponse.SearchResults resp |}
  else if Json.isField "pageSize" k then
    n ← Json.decodeInt x (DCTrackResponse.PageSize resp);
    Some {| DCTrackResponse.TotalRows := DCTrackResponse.TotalRows resp;
            DCTrackResponse.PageNumber := DCTrackResponse.PageNumber resp;
            DCTrackResponse.PageSize := n;
            DCTrackResponse.SearchResults :=
              DCTrackResponse.SearchResults resp |}
  else if Json.isField "searchResults" k then
    items ← decodeSearchResults x (DCTrackResponse.SearchResults resp);
    Some {| DCTrackResponse.TotalRows := DCTrackResponse.TotalRows resp;
            DCTrackResponse.PageNumber := DCTrackResponse.PageNumber resp;
            DCTrackResponse.PageSize := DCTrackResponse.PageSize resp;
            DCTrackResponse.SearchResults := items |}
  else Some resp.

(** [json.Unmarshal(bodyBytes, &dctrackResp)] on a body that is the JSON
    value [j]: [None] when it returns an error. *)
Definition Unmarshal (j : json) : option DCTrackResponse.t :=
  match j with
  | JNull => Some DCTrackResponse.zero
  | JObject members =>
      Json.decodeObject decodeField members DCTrackResponse.zero
  | _ => None
  end.

(** *** [fetchPage] *)

(** The loop over [dctrackResp.SearchResults.Items]: a record whose
    mapping fails is passed over. *)
Fixpoint mapRecords (timeNow : Clock) (records : list record)
  : list DCTrackItem.t :=
  match records with
  | [] => []
  | record :: rest =>
      match mapDCTrackRecord timeNow record with
      | (_, Some _) => mapRecords (later (timeNowCalls record) timeNow) rest
      | (item, None) =>
          item :: mapRecords (later (timeNowCalls record) timeNow) rest
      end
  end.

(** Each record of the loop with the readings its mapping starts from. *)
Fixpoint schedule (timeNow : Clock) (records : list record)
  : list (Clock * record) :=
  match records with
  | [] => []
  | record :: rest =>
      (timeNow, record) :: schedule (later (timeNowCalls record) timeNow) rest
  end.

(** The readings that are left when the loop is through [records]. *)
Fixpoint clockAfter (timeNow : Clock) (records : list record) : Clock :=
  match records with
  | [] => timeNow
  | record :: rest => clockAfter (later (timeNowCalls record) timeNow) rest
  end.

(** What [fetchPage] does with a response of status 200. *)
Definition readPage (timeNow : Clock) (resp : Response.t)
  : list DCTrackItem.t * option error :=
  match Response.Body resp with
  | BrokenBody detail =>
      ([], Some (wrapError "error reading response body: "
                   (Some (readError detail))))
  | Document j false =>
      match Unmarshal j with
      | Some dctrackResp =>
          (mapRecords timeNow (DCTrackResponse.Items dctrackResp), None)
      | None =>
          ([], Some (wrapError "error decoding response: " (Some jsonError)))
      end
  | InvalidJSON | Document _ true =>
      ([], Some (wrapError "error decoding response: " (Some jsonError)))
  end.

Definition pageRequest (c : Client.t) (url : string) (payload : json)
  : Request.t :=
  {| Request.Method := "POST";
     Request.URL := url;
     Request.Header :=
       <["User-Agent" := UserAgent]>
         (<["Authorization" := "Bearer " +:+ Client.token c]>
            (<["Accept" := "application/json"]>
               (<["Content-Type" := "application/json"]> ∅)));
     Request.Body := Some payload |}.

(** The statement after the retry loop. *)
Definition allAttemptsFailed (lastErr : option error)
  : list DCTrackItem.t * option error :=
  ([], Some (wrapError "all retry attempts failed, last error: " lastErr)).

(** The retry loop, [for attempt := 1; attempt <= MaxRetries; attempt++]:
    [remaining] counts the iterations the loop condition still allows,
    [MaxRetries - attempt + 1]. *)
Fixpoint fetchPage_attempts (ctx : Context) (c : Client.t)
    (url : string) (payload : json)
    (remaining : nat) (attempt : Z) (lastErr : option error) (w : World)
  : list DCTrackItem.t * option error * World :=
  match remaining with
  | O => (allAttemptsFailed lastErr, w)
  | S remaining =>
      if negb (url_Parse_ok url) then
        ([], Some (wrapError "error creating request: "
                     (Some (urlError "parse" url invalidURL))), w)
      else
        let '(trip, w) := Do net ctx (pageRequest c url payload) w in
        match trip with
        | Failed err =>
            let lastErr := Some err in
            if attempt <? Config.MaxRetries (Client.config c) then
              fetchPage_attempts ctx c url payload remaining
                (attempt + 1) lastErr
                (Sleep (Config.RetryDelay (Client.config c)) w)
            else (allAttemptsFailed lastErr, w)
        | Reply resp =>
            if negb (Response.StatusCode resp =? Go.StatusOK) then
              let lastErr :=
                Some (errorString
                        ("request failed with status "
                         +:+ Go.itoa (Response.StatusCode resp))) in
              if attempt <? Config.MaxRetries (Client.config c) then
                fetchPage_attempts ctx c url payload remaining
                  (attempt + 1) lastErr
                  (Sleep (Config.RetryDelay (Client.config c)) w)
              else (allAttemptsFailed lastErr, w)
            else (readPage (time_Now w) resp, w)
        end
  end.

(** [json.Marshal(payload)] does not fail on the maps the client
    builds; the request carries the payload as the JSON value it
    renders. *)
Definition fetchPage (ctx : Context) (c : Client.t) (url : string)
    (payload : json) (w : World)
  : list DCTrackItem.t * option error * World :=
  fetchPage_attempts ctx c url payload
    (Z.to_nat (Config.MaxRetries (Client.config c))) 1 None w.

(** The empty map. *)
Definition buildFieldsPayload (c : Client.t) : json := JObject [].

(** *** [GetItemsWithParams] *)

Definition pageURL (c : Client.t) (params : ItemsParams.t)
    (page pageSize : Z) : string :=
  let url :=
    Config.URL (Client.config c) +:+ "/quicksearch/items?pageNumber="
    +:+ Go.itoa page +:+ "&pageSize=" +:+ Go.itoa pageSize in
  let url :=
    if negb (Go.eqb (ItemsParams.Location params) "") then
      url +:+ "&location=" +:+ ItemsParams.Location params
    else url in
  let url :=
    if negb (Go.eqb (ItemsParams.Status params) "") then
      url +:+ "&status=" +:+ ItemsParams.Status params
    else url in
  if negb (Go.eqb (ItemsParams.SearchText params) "") then
    url +:+ "&searchText=" +:+ ItemsParams.SearchText params
  else url.

(** The page loop [for { ... }].  It has no bound of its own: [fuel]
    bounds the number of iterations, and [None] is a run that needs
    more. *)
Fixpoint pageLoop (fuel : nat) (ctx : Context) (c : Client.t)
    (params : ItemsParams.t) (pageSize page : Z)
    (allItems : list DCTrackItem.t) (w : World)
  : option (list DCTrackItem.t * option error * World) :=
  match fuel with
  | O => None
  | S fuel =>
      let url := pageURL c params page pageSize in
      let payload := buildFieldsPayload c in
      match fetchPage ctx c url payload w with
      | (_, Some err, w) => Some ([], Some err, w)
      | (items, None, w) =>
          if (length items =? 0)%nat then Some (allItems, None, w)
          else
            let allItems := allItems ++ items in
            if Z.of_nat (length items) <? pageSize then
              Some (allItems, None, w)
            else if ItemsParams.PageNumber params >? 0 then
              Some (allItems, None, w)
            else
              pageLoop fuel ctx c params pageSize (Go.wrapInt (page + 1))
                allItems w
      end
  end.

Definition startPage (params : ItemsParams.t) : Z :=
  if ItemsParams.PageNumber params >? 0 then ItemsParams.PageNumber params
  else 1.

Definition effectivePageSize (c : Client.t) (params : ItemsParams.t) : Z :=
  if ItemsParams.PageSize params >? 0 then ItemsParams.PageSize params
  else Config.PageSize (Client.config c).

Definition GetItemsWithParams (fuel : nat) (ctx : Context) (c : Client.t)
    (params : ItemsParams.t) (w : World)
  : option (list DCTrackItem.t * option error * Client.t * World) :=
  match login ctx c w with
  | (Some err, c, w) =>
      Some ([], Some (wrapError "authentication failed: " (Some err)), c, w)
  | (None, c, w) =>
      let page := startPage params in
      let pageSize := effectivePageSize c params in
      match pageLoop fuel ctx c params pageSize page [] w with
      | Some (items, err, w) => Some (items, err, c, w)
      | None => None
      end
  end.

Definition GetItems (fuel : nat) (ctx : Context) (c : Client.t) (w : World)
  : option (list DCTrackItem.t * option error * Client.t * World) :=
  GetItemsWithParams fuel ctx c ItemsParams.zero w.

(** *** [GetItemByID] *)

(** [ItemsParams{SearchText: id, PageSize: 1}]. *)
Definition byIDParams (id : string) : ItemsParams.t :=
  {| ItemsParams.PageNumber := 0; ItemsParams.PageSize := 1;
     ItemsParams.Location := ""; ItemsParams.Status := "";
     ItemsParams.ItemClass := ""; ItemsParams.Make := "";
     ItemsParams.Model := ""; ItemsParams.SearchText := id |}.

(** The loop [for _, item := range items]: the first item whose [ID] is
    [id]. *)
Fixpoint firstByID (id : string) (items : list DCTrackItem.t)
  : option DCTrackItem.t :=
  match items with
  | [] => None
  | item :: rest =>
      if Go.eqb (DCTrackItem.ID item) id then Some item
      else firstByID id rest
  end.

(** The [*DCTrackItem] returned is [None] when it is [nil]. *)
Definition GetItemByID (fuel : nat) (ctx : Context) (c : Client.t)
    (id : string) (w : World)
  : option (option DCTrackItem.t * option error * Client.t * World) :=
  match GetItemsWithParams fuel ctx c (byIDParams id) w with
  | None => None
  | Some (_, Some err, c, w) => Some (None, Some err, c, w)
  | Some (items, None, c, w) =>
      match firstByID id items with
      | Some item => Some (Some item, None, c, w)
      | None =>
          Some (None,
                Some (errorString ("item with ID " +:+ id +:+ " not found")),
                c, w)
      end
  end.

(** *** [SearchItems] *)

(** [ItemsParams{SearchText: query}]. *)
Definition searchParams (query : string) : ItemsParams.t :=
  {| ItemsParams.PageNumber := 0; ItemsParams.PageSize := 0;
     ItemsParams.Location := ""; ItemsParams.Status := "";
     ItemsParams.ItemClass := ""; ItemsParams.Make := "";
     ItemsParams.Model := ""; ItemsParams.SearchText := query |}.

Definition SearchItems (fuel : nat) (ctx : Context) (c : Client.t)
    (query : string) (w : World)
  : option (list DCTrackItem.t * option error * Client.t * World) :=
  if Go.eqb query "" then
    Some ([], Some (errorString "search query cannot be empty"), c, w)
  else GetItemsWithParams fuel ctx c (searchParams query) w.

End Code.

End Root.

(** ** The package under [dctrack/] ([client.go], [models.go]) *)

Module Sub.

Module Client.
Record t : Type := { config : Config.t; token : string }.
End Client.

(** [DCTrackResponse], as [models.go] declares it. *)
Module DCTrackResponse.
Record t : Type := { Records : Json.slice }.

Definition zero : t := {| Records := Json.nilSlice |}.

Definition items (r : t) : list record := Json.elements (Records r).
End DCTrackResponse.

(** The columns [buildStandardFieldsPayload] selects. *)
Definition minimalColumns : list string :=
  [
      "id"; "tiName"; "cmbLocation"; "cmbStatus"; "tiClass"; "cmbMake";
      "cmbModel"; "tiItemOriginalPower"; "lastUpdatedOn" ].

Definition allColumns : list string :=
  [
      "id"; "cmbLocation"; "tiClass"; "cmbStatus"; "tiName"; "cmbMake";
      "cmbModel"; "cmbCabinet"; "tiSerialNumber"; "lastUpdatedOn";
      "tiItemOriginalPower"; "cmbSystemAdminTeam";
      "tiCustomField_Primary Contact"; "tiSubclass"; "tiAssetTag";
      "tiFormFactor"; "tiMounting"; "tiWidth"; "tiDepth"; "tiWeight";
      "tiRUs"; "tiPotentialPower"; "tiEffectivePower"; "tiPowerCapacity";
      "tiPSRedundancy"; "tiPurchasePrice"; "tiContractAmount";
      "cmbPlantBay"; "cmbCabinetId"; "cmbRowPosition"; "cmbRowLabel";
      "tiFloorNodeCode"; "tiFloorName"; "tiRoomNodeCode"; "tiRoomName";
      "tiIntegrationStatus"; "tiVMwareIntegrationStatus";
      "tiCmdbIntegrationStatus"; "tiItemBudgetStatus";
      "chkItemAutoPowerBudget"; "chkDerateAmps"; "ipAddresses";
      "ipAddressPortName"; "tifreeDataPortCount"; "tifreePowerPortCount";
      "tiPXUsername"; "tiSnmpWriteCommString"; "tiUsers"; "tiRAM";
      "tiProcesses"; "tiCpuQuantity"; "tiCpuType"; "tiPartNumber";
      "installationDate"; "contractEndDate"; "purchaseDate";
      "tiPlannedDecommDate"; "tiCustomField_Contact Team Name";
      "tiCustomField_Audit Remarks"; "tiCustomField_Audit Date";
      "tiCustomField_Audit By"; "tiCustomField_Warranty Expiration Date";
      "tiCustomField_Asset Status"; "tiCustomField_PNT/IT";
      "cmbSystemAdminTeam"; "cmbSystemAdmin"; "cmbCustomer"; "tiPONumber";
      "tiNotes" ].

Definition selectedColumns (names : list string) : json :=
  JObject
    [("selectedColumns",
      JArray (map (fun name => JObject [("name", JString name)]) names))].

Definition buildStandardFieldsPayload (c : Client.t) : json :=
  if negb (Config.RequestAllFields (Client.config c)) then
    selectedColumns minimalColumns
  else selectedColumns allColumns.

(** *** [config.go] *)

Definition DefaultConfig (url username password : string) : Config.t :=
  {| Config.URL := url;
     Config.Username := username;
     Config.Password := password;
     Config.PageSize := 1000;
     Config.MaxRetries := 3;
     Config.RetryDelay := Go.Second;
     Config.VerifySSL := true;
     Config.RequestAllFields := true |}.

(** [Option], a function on a pointer to the [Config]: what it makes of
    the configuration. *)
Definition Option : Type := Config.t -> Config.t.

Definition WithPageSize (size : Z) : Option := fun c =>
  {| Config.URL := Config.URL c;
     Config.Username := Config.Username c;
     Config.Password := Config.Password c;
     Config.PageSize := size;
     Config.MaxRetries := Config.MaxRetries c;
     Config.RetryDelay := Config.RetryDelay c;
     Config.VerifySSL := Config.VerifySSL c;
     Config.RequestAllFields := Config.RequestAllFields c |}.

Definition WithMaxRetries (retries : Z) : Option := fun c =>
  {| Config.URL := Config.URL c;
     Config.Username := Config.Username c;
     Config.Password := Config.Password c;
     Config.PageSize := Config.PageSize c;
     Config.MaxRetries := retries;
     Config.RetryDelay := Config.RetryDelay c;
     Config.VerifySSL := Config.VerifySSL c;
     Config.RequestAllFields := Config.RequestAllFields c |}.

Definition WithRetryDelay (delay : Z) : Option := fun c =>
  {| Config.URL := Config.URL c;
     Config.Username := Config.Username c;
     Config.Password := Config.Password c;
     Config.PageSize := Config.PageSize c;
     Config.MaxRetries := Config.MaxRetries c;
     Config.RetryDelay := delay;
     Config.VerifySSL := Config.VerifySSL c;
     Config.RequestAllFields := Config.RequestAllFields c |}.

Definition WithInsecureSSL : Option := fun c =>
  {| Config.URL := Config.URL c;
     Config.Username := Config.Username c;
     Config.Password := Config.Password c;
     Config.PageSize := Config.PageSize c;
     Config.MaxRetries := Config.MaxRetries c;
     Config.RetryDelay := Config.RetryDelay c;
     Config.VerifySSL := false;
     Config.RequestAllFields := Config.RequestAllFields c |}.

Definition WithLimitedFields : Option := fun c =>
  {| Config.URL := Config.URL c;
     Config.Username := Config.Username c;
     Config.Password := Config.Password c;
     Config.PageSize := Config.PageSize c;
     Config.MaxRetries := Config.MaxRetries c;
     Config.RetryDelay := Config.RetryDelay c;
     Config.VerifySSL := Config.VerifySSL c;
     Config.RequestAllFields := false |}.

(** [Validate] has a pointer receiver: it returns its error and the
    configuration as it leaves it. *)
Definition Validate (c : Config.t) : option error * Config.t :=
  if Go.eqb (Config.URL c) "" then (Some (errorString "URL is required"), c)
  else if Go.eqb (Config.Username c) "" then
    (Some (errorString "Username is required"), c)
  else if Go.eqb (Config.Password c) "" then
    (Some (errorString "Password is required"), c)
  else
    (None,
     {| Config.URL := Config.URL c;
        Config.Username := Config.Username c;
        Config.Password := Config.Password c;
        Config.PageSize :=
          if Config.PageSize c <=? 0 then 1000 else Config.PageSize c;
        Config.MaxRetries :=
          if Config.MaxRetries c <? 0 then 3 else Config.MaxRetries c;
        Config.RetryDelay :=
          if Config.RetryDelay c <=? 0 then Go.Second
          else Config.RetryDelay c;
        Config.VerifySSL := Config.VerifySSL c;
        Config.RequestAllFields := Config.RequestAllFields c |}).

(** *** [client.go] *)

Definition NewClient (cfg : Config.t) : Client.t :=
  {| Client.config := cfg; Client.token := "" |}.

(** The loop [for _, opt := range opts { opt(&config) }]. *)
Definition applyOptions (opts : list Option) (config : Config.t) : Config.t :=
  fold_left (fun config opt => opt config) opts config.

Definition New (url username password : string) (opts : list Option)
  : option Client.t * option error :=
  let config := applyOptions opts (DefaultConfig url username password) in
  match Validate config with
  | (Some err, _) =>
      (None, Some (wrapError "invalid configuration: " (Some err)))
  | (None, config) => (Some (NewClient config), None)
  end.

Section Code.
Context {rt : GoRuntime}.
Variable net : Network.

(** *** [mapDCTrackRecord] *)

Definition getString (record : record) (key : string) : string :=
  match record !! key with
  | Some val => if is_nil val then "" else Sprint val
  | None => ""
  end.

Definition getFloat (record : record) (key : string) : float :=
  match record !! key with
  | Some val =>
      if is_nil val then 0%float
      else
        let str := Sprint val in
        if negb (Go.eqb str "") && negb (Go.eqb str "null") then
          match strconv_ParseFloat str with
          | Some f => f
          | None => 0%float
          end
        else 0%float
  | None => 0%float
  end.

Definition getInt (record : record) (key : string) : Z :=
  match record !! key with
  | Some val =>
      if is_nil val then 0
      else
        let str := Sprint val in
        if negb (Go.eqb str "") && negb (Go.eqb str "null") then
          match strconv_Atoi str with
          | Some i => i
          | None => 0
          end
        else 0
  | None => 0
  end.

Definition getBool (record : record) (key : string) : bool :=
  match record !! key with
  | Some val =>
      if is_nil val then false
      else
        let str := Sprint val in
        if Go.eqb str "true" || Go.eqb str "1" then true else false
  | None => false
  end.

Definition formats : list string :=
  [ "2006-01-02 15:04:05-07";
    "2006-01-02T15:04:05Z";
    "2006-01-02";
    "2006-01-02T15:04:05Z07:00" ].

Fixpoint tryFormats (formats : list string) (str : string) : option Time :=
  match formats with
  | [] => None
  | format :: rest =>
      match time_Parse format str with
      | Some t => Some t
      | None => tryFormats rest str
      end
  end.

Definition getTime (record : record) (key : string) : option Time :=
  match record !! key with
  | Some val =>
      if is_nil val then None
      else
        let str := Sprint val in
        if negb (Go.eqb str "") && negb (Go.eqb str "null") then
          tryFormats formats str
        else None
  | None => None
  end.

(** [if val := getString(key); val != "" { item.F = &val }]. *)
Definition optString (val : string) : option string :=
  if negb (Go.eqb val "") then Some val else None.

(** The calls of [time.Now()] in one mapping: one for [LastUpdatedAt]
    when [lastUpdatedOn] gives no instant, then one for [CreatedAt] and
    one for [UpdatedAt]. *)
Definition timeNowCalls (record : record) : nat :=
  match getTime record "lastUpdatedOn" with
  | Some _ => 2
  | None => 3
  end.

(** [timeNow] is what the calls of [time.Now()] read while the record is
    mapped, the first call [timeNow 0]. *)
Definition mapDCTrackRecord (timeNow : Clock) (record : record)
  : DCTrackItem.t * option error :=
  let item :=
    {| DCTrackItem.ID := getString record "id";
       DCTrackItem.Name := getString record "tiName";
       DCTrackItem.ItemClass := getString record "tiClass";
       DCTrackItem.Type_ := getString record "tiClass";
       DCTrackItem.Status := getString record "cmbStatus";
       DCTrackItem.Location := getString record "cmbLocation";
       DCTrackItem.Cabinet := getString record "cmbCabinet";
       DCTrackItem.Rack := getString record "cmbCabinet";
       DCTrackItem.Position := getString record "cmbPosition";
       DCTrackItem.Height := getInt record "tiRUs";
       DCTrackItem.Make := getString record "cmbMake";
       DCTrackItem.Model := getString record "cmbModel";
       DCTrackItem.SerialNumber := getString record "tiSerialNumber";
       DCTrackItem.OriginalPower := getFloat record "tiItemOriginalPower";
       DCTrackItem.PowerConsumption := getFloat record "tiEffectivePower";
       DCTrackItem.SystemAdminTeam := getString record "cmbSystemAdminTeam";
       DCTrackItem.PrimaryContact :=
         getString record "tiCustomField_Primary Contact";
       DCTrackItem.InstallDate := getTime record "installationDate";
       DCTrackItem.LastServiceDate := getTime record "lastServiceDate";
       DCTrackItem.TiSubclass := getString record "tiSubclass";
       DCTrackItem.TiSerialNumber := getString record "tiSerialNumber";
       DCTrackItem.TiAssetTag := getString record "tiAssetTag";
       DCTrackItem.TiFormFactor := getString record "tiFormFactor";
       DCTrackItem.TiMounting := getString record "tiMounting";
       DCTrackItem.TiWidth := getFloat record "tiWidth";
       DCTrackItem.TiDepth := getFloat record "tiDepth";
       DCTrackItem.TiWeight := getFloat record "tiWeight";
       DCTrackItem.TiRuHeight := getString record "tiRUs";
       DCTrackItem.TiPotentialPower := getFloat record "tiPotentialPower";
       DCTrackItem.TiEffectivePower := getFloat record "tiEffectivePower";
       DCTrackItem.TiPowerCapacity := getFloat record "tiPowerCapacity";
       DCTrackItem.TiPsRedundancy := getString record "tiPSRedundancy";
       DCTrackItem.TiPurchasePrice := getFloat record "tiPurchasePrice";
       DCTrackItem.TiContractAmount := getFloat record "tiContractAmount";
       DCTrackItem.CmbPlantBay := getString record "cmbPlantBay";
       DCTrackItem.CmbCabinetID := getString record "cmbCabinetId";
       DCTrackItem.CmbRowPosition := getString record "cmbRowPosition";
       DCTrackItem.CmbRowLabel := getString record "cmbRowLabel";
       DCTrackItem.TiFloorNodeCode := getString record "tiFloorNodeCode";
       DCTrackItem.TiFloorName := getString record "tiFloorName";
       DCTrackItem.TiRoomNodeCode := getString record "tiRoomNodeCode";
       DCTrackItem.TiRoomName := getString record "tiRoomName";
       DCTrackItem.TiIntegrationStatus :=
         getString record "tiIntegrationStatus";
       DCTrackItem.TiVmwareIntegrationStatus :=
         getString record "tiVMwareIntegrationStatus";
       DCTrackItem.TiCmdbIntegrationStatus :=
         getString record "tiCmdbIntegrationStatus";
       DCTrackItem.TiItemBudgetStatus :=
         getString record "tiItemBudgetStatus";
       DCTrackItem.ChkItemAutoPowerBudget :=
         getBool record "chkItemAutoPowerBudget";
       DCTrackItem.ChkDerateAmps := getBool record "chkDerateAmps";
       DCTrackItem.IPAddresses := getString record "ipAddresses";
       DCTrackItem.IPAddressPortName :=
         getString record "ipAddressPortName";
       DCTrackItem.TifreeDataPortCount :=
         getInt record "tifreeDataPortCount";
       DCTrackItem.TifreePowerPortCount :=
         getInt record "tifreePowerPortCount";
       DCTrackItem.TiPxUsername := getString record "tiPXUsername";
       DCTrackItem.TiSnmpWriteCommString :=
         getString record "tiSnmpWriteCommString";
       DCTrackItem.TiUsers := getInt record "tiUsers";
       DCTrackItem.TiRam := getInt record "tiRAM";
       DCTrackItem.TiProcesses := getInt record "tiProcesses";
       DCTrackItem.TiCpuQuantity := getInt record "tiCpuQuantity";
       DCTrackItem.TiCpuType := getString record "tiCpuType";
       DCTrackItem.TiPartNumber := getString record "tiPartNumber";
       DCTrackItem.InstallationDate := getTime record "installationDate";
       DCTrackItem.ContractEndDate := getTime record "contractEndDate";
       DCTrackItem.PurchaseDate := getTime record "purchaseDate";
       DCTrackItem.TiPlannedDecommDate :=
         getTime record "tiPlannedDecommDate";
       DCTrackItem.TiCustomFieldPrimaryContact :=
         optString (getString record "tiCustomField_Primary Contact");
       DCTrackItem.TiCustomFieldContactTeamName :=
         optString (getString record "tiCustomField_Contact Team Name");
       DCTrackItem.TiCustomFieldAuditRemarks :=
         optString (getString record "tiCustomField_Audit Remarks");
       DCTrackItem.TiCustomFieldAuditDate :=
         getTime record "tiCustomField_Audit Date";
       DCTrackItem.TiCustomFieldAuditBy :=
         optString (getString record "tiCustomField_Audit By");
       DCTrackItem.TiCustomFieldWarrantyExpirationDate :=
         getTime record "tiCustomField_Warranty Expiration Date";
       DCTrackItem.TiCustomFieldAssetStatus :=
         optString (getString record "tiCustomField_Asset Status");
       DCTrackItem.TiCustomFieldPntIt :=
         optString (getString record "tiCustomField_PNT/IT");
       DCTrackItem.CmbSystemAdminTeam :=
         getString record "cmbSystemAdminTeam";
       DCTrackItem.CmbSystemAdmin := getString record "cmbSystemAdmin";
       DCTrackItem.CmbCustomer := getString record "cmbCustomer";
       DCTrackItem.TiPoNumber := getString record "tiPONumber";
       DCTrackItem.TiNotes := getString record "tiNotes";
       DCTrackItem.LastUpdatedAt :=
         match getTime record "lastUpdatedOn" with
         | Some lastUpdated => lastUpdated
         | None => timeNow 0%nat
         end;
       DCTrackItem.CreatedAt :=
         match getTime record "lastUpdatedOn" with
         | Some _ => timeNow 0%nat
         | None => timeNow 1%nat
         end;
       DCTrackItem.UpdatedAt :=
         match getTime record "lastUpdatedOn" with
         | Some _ => timeNow 1%nat
         | None => timeNow 2%nat
         end |} in
  (item, None).

(** *** [json.NewDecoder(resp.Body).Decode] into a [DCTrackResponse] *)

Definition decodeField (resp : DCTrackResponse.t) (k : string) (x : json)
  : option DCTrackResponse.t :=
  if Json.isField "records" k then
    records ← Json.decodeSlice x (DCTrackResponse.Records resp);
    Some {| DCTrackResponse.Records := records |}
  else Some resp.

Definition Decode (j : json) : option DCTrackResponse.t :=
  match j with
  | JNull => Some DCTrackResponse.zero
  | JObject members =>
      Json.decodeObject decodeField members DCTrackResponse.zero
  | _ => None
  end.

(** *** [fetchPage] *)

Fixpoint mapRecords (timeNow : Clock) (records : list record)
  : list DCTrackItem.t :=
  match records with
  | [] => []
  | record :: rest =>
      match mapDCTrackRecord timeNow record with
      | (_, Some _) => mapRecords (later (timeNowCalls record) timeNow) rest
      | (item, None) =>
          item :: mapRecords (later (timeNowCalls record) timeNow) rest
      end
  end.

(** Each record of the loop with the readings its mapping starts from. *)
Fixpoint schedule (timeNow : Clock) (records : list record)
  : list (Clock * record) :=
  match records with
  | [] => []
  | record :: rest =>
      (timeNow, record) :: schedule (later (timeNowCalls record) timeNow) rest
  end.

(** The readings that are left when the loop is through [records]. *)
Fixpoint clockAfter (timeNow : Clock) (records : list record) : Clock :=
  match records with
  | [] => timeNow
  | record :: rest => clockAfter (later (timeNowCalls record) timeNow) rest
  end.

(** What [fetchPage] does with a response of status 200.  The decoder
    reads the first JSON value of the body and no further. *)
Definition readPage (timeNow : Clock) (resp : Response.t)
  : list DCTrackItem.t * option error :=
  match Response.Body resp with
  | BrokenBody detail =>
      ([], Some (wrapError "error decoding response: "
                   (Some (readError detail))))
  | InvalidJSON =>
      ([], Some (wrapError "error decoding response: " (Some jsonError)))
  | Document j _ =>
      match Decode j with
      | Some dctrackResp =>
          (mapRecords timeNow (DCTrackResponse.items dctrackResp), None)
      | None =>
          ([], Some (wrapError "error decoding response: " (Some jsonError)))
      end
  end.

Definition pageRequest (c : Client.t) (url : string) (payload : json)
  : Request.t :=
  {| Request.Method := "POST";
     Request.URL := url;
     Request.Header :=
       <["Authorization" := "Bearer " +:+ Client.token c]>
         (<["Accept" := "application/json"]>
            (<["Content-Type" := "application/json"]> ∅));
     Request.Body := Some payload |}.

Definition allAttemptsFailed (lastErr : option error)
  : list DCTrackItem.t * option error :=
  ([], Some (wrapError "all retry attempts failed, last error: " lastErr)).

Fixpoint fetchPage_attempts (ctx : Context) (c : Client.t)
    (url : string) (payload : json)
    (remaining : nat) (attempt : Z) (lastErr : option error) (w : World)
  : list DCTrackItem.t * option error * World :=
  match remaining with
  | O => (allAttemptsFailed lastErr, w)
  | S remaining =>
      if negb (url_Parse_ok url) then
        ([], Some (wrapError "error creating request: "
                     (Some (urlError "parse" url invalidURL))), w)
      else
        let '(trip, w) := Do net ctx (pageRequest c url payload) w in
        match trip with
        | Failed err =>
            let lastErr := Some err in
            if attempt <? Config.MaxRetries (Client.config c) then
              fetchPage_attempts ctx c url payload remaining
                (attempt + 1) lastErr
                (Sleep (Config.RetryDelay (Client.config c)) w)
            else (allAttemptsFailed lastErr, w)
        | Reply resp =>
            if negb (Response.StatusCode resp =? Go.StatusOK) then
              let lastErr :=
                Some (errorString
                        ("request failed with status "
                         +:+ Go.itoa (Response.StatusCode resp))) in
              if attempt <? Config.MaxRetries (Client.config c) then
                fetchPage_attempts ctx c url payload remaining
                  (attempt + 1) lastErr
                  (Sleep (Config.RetryDelay (Client.config c)) w)
              else (allAttemptsFailed lastErr, w)
            else (readPage (time_Now w) resp, w)
        end
  end.

Definition fetchPage (ctx : Context) (c : Client.t) (url : string)
    (payload : json) (w : World)
  : list DCTrackItem.t * option error * World :=
  fetchPage_attempts ctx c url payload
    (Z.to_nat (Config.MaxRetries (Client.config c))) 1 None w.

(** *** [login] *)

Definition loginRequest (c : Client.t) : Request.t :=
  {| Request.Method := "POST";
     Request.URL := Config.URL (Client.config c) +:+ "/authentication/login";
     Request.Header :=
       <["Accept" := "application/json"]>
         (<["Content-Type" := "application/json"]>
            (<["Authorization" :=
                 basicAuth (Config.Username (Client.config c))
                   (Config.Password (Client.config c))]> ∅));
     Request.Body := None |}.

Definition login (ctx : Context) (c : Client.t) (w : World)
  : option error * Client.t * World :=
  let loginURL := Config.URL (Client.config c) +:+ "/authentication/login" in
  if negb (url_Parse_ok loginURL) then
    (Some (wrapError "error creating login request: "
             (Some (urlError "parse" loginURL invalidURL))), c, w)
  else
    let '(trip, w) := Do net ctx (loginRequest c) w in
    match trip with
    | Failed err =>
        (Some (wrapError "error making login request: " (Some err)), c, w)
    | Reply resp =>
        if negb (Response.StatusCode resp =? Go.StatusOK) then
          (Some (errorString ("login failed with status "
                              +:+ Go.itoa (Response.StatusCode resp))), c, w)
        else
          let authHeader := Response.Get resp "Authorization" in
          if Go.eqb authHeader "" then
            (Some (errorString "no Authorization header in login response"),
             c, w)
          else if (Go.len authHeader >? 7)
                  && (Go.eqb (Go.slice_to 7 authHeader) "Bearer ") then
            (None,
             {| Client.config := Client.config c;
                Client.token := Go.slice_from 7 authHeader |}, w)
          else
            (Some (errorString "invalid Authorization header format"), c, w)
    end.

(** *** [GetItemsWithParams] *)

Definition pageURL (c : Client.t) (params : ItemsParams.t)
    (page pageSize : Z) : string :=
  let url :=
    Config.URL (Client.config c) +:+ "/quicksearch/items?pageNumber="
    +:+ Go.itoa page +:+ "&pageSize=" +:+ Go.itoa pageSize in
  let url :=
    if negb (Go.eqb (ItemsParams.Location params) "") then
      url +:+ "&location=" +:+ ItemsParams.Location params
    else url in
  let url :=
    if negb (Go.eqb (ItemsParams.Status params) "") then
      url +:+ "&status=" +:+ ItemsParams.Status params
    else url in
  if negb (Go.eqb (ItemsParams.SearchText params) "") then
    url +:+ "&searchText=" +:+ ItemsParams.SearchText params
  else url.

(** The page loop; here [page++] comes before the test of
    [params.PageNumber].  [fuel] bounds the iterations, as for the root
    package. *)
Fixpoint pageLoop (fuel : nat) (ctx : Context) (c : Client.t)
    (params : ItemsParams.t) (pageSize page : Z)
    (allItems : list DCTrackItem.t) (w : World)
  : option (list DCTrackItem.t * option error * World) :=
  match fuel with
  | O => None
  | S fuel =>
      let url := pageURL c params page pageSize in
      let payload := buildStandardFieldsPayload c in
      match fetchPage ctx c url payload w with
      | (_, Some err, w) => Some ([], Some err, w)
      | (items, None, w) =>
          if (length items =? 0)%nat then Some (allItems, None, w)
          else
            let allItems := allItems ++ items in
            if Z.of_nat (length items) <? pageSize then
              Some (allItems, None, w)
            else
              let page := Go.wrapInt (page + 1) in
              if ItemsParams.PageNumber params >? 0 then
                Some (allItems, None, w)
              else pageLoop fuel ctx c params pageSize page allItems w
      end
  end.

Definition GetItemsWithParams (fuel : nat) (ctx : Context) (c : Client.t)
    (params : ItemsParams.t) (w : World)
  : option (list DCTrackItem.t * option error * Client.t * World) :=
  match login ctx c w with
  | (Some err, c, w) =>
      Some ([], Some (wrapError "error logging in to DCTrack: " (Some err)),
            c, w)
  | (None, c, w) =>
      let page :=
        if ItemsParams.PageNumber params >? 0 then
          ItemsParams.PageNumber params
        else 1 in
      let pageSize :=
        if ItemsParams.PageSize params >? 0 then ItemsParams.PageSize params
        else Config.PageSize (Client.config c) in
      match pageLoop fuel ctx c params pageSize page [] w with
      | Some (items, err, w) => Some (items, err, c, w)
      | None => None
      end
  end.

(** [ItemsParams{PageSize: c.config.PageSize}]. *)
Definition GetItems (fuel : nat) (ctx : Context) (c : Client.t) (w : World)
  : option (list DCTrackItem.t * option error * Client.t * World) :=
  GetItemsWithParams fuel ctx c
    {| ItemsParams.PageNumber := 0;
       ItemsParams.PageSize := Config.PageSize (Client.config c);
       ItemsParams.Location := ""; ItemsParams.Status := "";
       ItemsParams.ItemClass := ""; ItemsParams.Make := "";
       ItemsParams.Model := ""; ItemsParams.SearchText := "" |} w.

(** [ItemsParams{SearchText: query, PageSize: c.config.PageSize}]; the
    query is not tested. *)
Definition SearchItems (fuel : nat) (ctx : Context) (c : Client.t)
    (query : string) (w : World)
  : option (list DCTrackItem.t * option error * Client.t * World) :=
  GetItemsWithParams fuel ctx c
    {| ItemsParams.PageNumber := 0;
       ItemsParams.PageSize := Config.PageSize (Client.config c);
       ItemsParams.Location := ""; ItemsParams.Status := "";
       ItemsParams.ItemClass := ""; ItemsParams.Make := "";
       ItemsParams.Model := ""; ItemsParams.SearchText := query |} w.

Fixpoint firstByID (id : string) (items : list DCTrackItem.t)
  : option DCTrackItem.t :=
  match items with
  | [] => None
  | item :: rest =>
      if Go.eqb (DCTrackItem.ID item) id then Some item
      else firstByID id rest
  end.

Definition GetItemByID (fuel : nat) (ctx : Context) (c : Client.t)
    (id : string) (w : World)
  : option (option DCTrackItem.t * option error * Client.t * World) :=
  match GetItemsWithParams fuel ctx c
          {| ItemsParams.PageNumber := 0; ItemsParams.PageSize := 1;
             ItemsParams.Location := ""; ItemsParams.Status := "";
             ItemsParams.ItemClass := ""; ItemsParams.Make := "";
             ItemsParams.Model := ""; ItemsParams.SearchText := id |} w with
  | None => None
  | Some (_, Some err, c, w) => Some (None, Some err, c, w)
  | Some (items, None, c, w) =>
      match firstByID id items with
      | Some item => Some (Some item, None, c, w)
      | None =>
          Some (None,
                Some (errorString ("item with ID " +:+ id +:+ " not found")),
                c, w)
      end
  end.

End Code.

End Sub.

(** ** The command-line tool ([cmd/dctrackcheck/main.go])

    The tool runs the client of the root package.  What it prints is left
    out; what it computes before it prints is here. *)

Module Cmd.

Definition defaultPageSize : Z := 100.

(** The environment of the process; [os.Getenv] gives the empty string
    for a variable that is not set. *)
Definition Env : Type := gmap string string.

Definition Getenv (env : Env) (key : string) : string :=
  default "" (env !! key).

Definition getEnvOrDefault (env : Env) (key defaultValue : string) : string :=
  let value := Getenv env key in
  if negb (Go.eqb value "") then value else defaultValue.

(** [strconv.ParseBool]: [Some b] when [err == nil]. *)
Definition ParseBool (str : string) : option bool :=
  if Go.eqb str "1" || Go.eqb str "t" || Go.eqb str "T" || Go.eqb str "TRUE"
     || Go.eqb str "true" || Go.eqb str "True" then Some true
  else if Go.eqb str "0" || Go.eqb str "f" || Go.eqb str "F"
          || Go.eqb str "FALSE" || Go.eqb str "false" || Go.eqb str "False"
  then Some false
  else None.

Definition getEnvBoolOrDefault (env : Env) (key : string)
    (defaultValue : bool) : bool :=
  let value := Getenv env key in
  if negb (Go.eqb value "") then
    match ParseBool value with
    | Some b => b
    | None => defaultValue
    end
  else defaultValue.

Definition validateConfig (config : Config.t) : option error :=
  if Go.eqb (Config.URL config) "" then
    Some (errorString "DCTRACK_URL environment variable is required")
  else if Go.eqb (Config.Username config) "" then
    Some (errorString "DCTRACK_USERNAME environment variable is required")
  else if Go.eqb (Config.Password config) "" then
    Some (errorString "DCTRACK_PASSWORD environment variable is required")
  else None.

(** What [main] makes of [os.Args], whose first element is the name of
    the program: the handler it calls, once the client is made, and the
    argument it passes; or [None] when it prints the usage and exits. *)
Inductive handler : Type :=
| handleSearch (query : string)
| handleList (location : string)
| handleGetItem (itemID : string)
| handlePowerAnalysis (location : string).

Definition dispatch (args : list string) : option handler :=
  match args with
  | [] | [_] => None
  | _ :: arg1 :: rest =>
      let searchQuery := arg1 in
      let command := "search" in
      let '(command, searchQuery) :=
        match rest with
        | arg2 :: _ => (arg1, arg2)
        | [] => (command, searchQuery)
        end in
      if Go.eqb command "search" then Some (handleSearch searchQuery)
      else if Go.eqb command "list" then Some (handleList searchQuery)
      else if Go.eqb command "item" then Some (handleGetItem searchQuery)
      else if Go.eqb command "power" then
        Some (handlePowerAnalysis searchQuery)
      else Some (handleSearch command)
  end.

(** The statistics of [handlePowerAnalysis]. *)
Record PowerStats : Type := {
  totalPower : float;
  powerAssets : Z;
  maxPower : float;
  minPower : float
}.

(** [float64(^uint(0) >> 1)], the start value of [minPower]. *)
Definition noMinimum : float :=
  PrimFloat.of_uint63 9223372036854775807%uint63.

Definition powerStart : PowerStats :=
  {| totalPower := 0%float; powerAssets := 0; maxPower := 0%float;
     minPower := noMinimum |}.

(** The body of the loop over the items. *)
Definition powerStep (s : PowerStats) (item : DCTrackItem.t) : PowerStats :=
  let power := DCTrackItem.OriginalPower item in
  if PrimFloat.ltb 0%float power then
    {| totalPower := PrimFloat.add (totalPower s) power;
       powerAssets := Go.wrapInt (powerAssets s + 1);
       maxPower :=
         if PrimFloat.ltb (maxPower s) power then power else maxPower s;
       minPower :=
         if PrimFloat.ltb power (minPower s) then power else minPower s |}
  else s.

Definition powerStatistics (items : list DCTrackItem.t) : PowerStats :=
  fold_left powerStep items powerStart.

(** The tally of [handleList]: [vendorCounts[item.Make]++] for every item
    whose [Make] is not empty. *)
Definition vendorStep (vendorCounts : gmap string Z) (item : DCTrackItem.t)
  : gmap string Z :=
  if negb (Go.eqb (DCTrackItem.Make item) "") then
    <[DCTrackItem.Make item :=
        Go.wrapInt (default 0 (vendorCounts !! DCTrackItem.Make item) + 1)]>
      vendorCounts
  else vendorCounts.

Definition vendorCounts (items : list DCTrackItem.t) : gmap string Z :=
  fold_left vendorStep items ∅.

Section Code.
Context {rt : GoRuntime}.

Definition getEnvIntOrDefault (env : Env) (key : string) (defaultValue : Z)
  : Z :=
  let value := Getenv env key in
  if negb (Go.eqb value "") then
    match strconv_Atoi value with
    | Some i => i
    | None => defaultValue
    end
  else defaultValue.

(** [time.Duration(n) * time.Second] is a product of 64-bit integers. *)
Definition getConfigFromEnv (env : Env) : Config.t :=
  {| Config.URL := getEnvOrDefault env "DCTRACK_URL" "";
     Config.Username := getEnvOrDefault env "DCTRACK_USERNAME" "";
     Config.Password := getEnvOrDefault env "DCTRACK_PASSWORD" "";
     Config.PageSize := getEnvIntOrDefault env "DCTRACK_PAGE_SIZE" defaultPageSize;
     Config.MaxRetries := getEnvIntOrDefault env "DCTRACK_MAX_RETRIES" 3;
     Config.RetryDelay :=
       Go.wrapInt (getEnvIntOrDefault env "DCTRACK_RETRY_DELAY" 1 * Go.Second);
     Config.VerifySSL := getEnvBoolOrDefault env "DCTRACK_VERIFY_SSL" true;
     Config.RequestAllFields :=
       getEnvBoolOrDefault env "DCTRACK_ALL_FIELDS" false |}.

End Code.

End Cmd.

(** ** A runtime and a remote service for the closed examples

    The closed examples below run on [Example.runtime].  It is exact on
    what they use, plain decimal numerals such as [500.5] and strings free
    of control characters, and knows nothing else: it renders no number or
    composite value and parses no other numeral and no date.  Every theorem
    is stated for an arbitrary [GoRuntime]; this one only shows that their
    hypotheses are met by the runs the specification describes. *)

Module Example.

Fixpoint scanDigits (s : string) (acc : Z) (n : nat) : Z * nat * string :=
  match s with
  | String c s' =>
      let d := Z.of_nat (nat_of_ascii c) in
      if (48 <=? d) && (d <=? 57) then
        scanDigits s' (10 * acc + (d - 48)) (S n)
      else (acc, n, s)
  | EmptyString => (acc, n, s)
  end.

Definition ofZ (z : Z) : float := PrimFloat.of_uint63 (Uint63.of_Z z).

(** [digits] or [digits.digits], when mantissa and scale are exact in
    binary64, so that one correctly rounded division gives the nearest
    float. *)
Definition decimal (s : string) : option float :=
  let '(ip, n1, rest) := scanDigits s 0 0 in
  match n1, rest with
  | O, _ => None
  | _, EmptyString => if ip <? 2 ^ 53 then Some (ofZ ip) else None
  | _, String "." frac =>
      let '(m, n2, rest') := scanDigits frac ip 0 in
      match n2, rest' with
      | S _, EmptyString =>
          if (m <? 2 ^ 53) && (n2 <=? 22)%nat then
            Some (PrimFloat.div (ofZ m) (ofZ (10 ^ Z.of_nat n2)))
          else None
      | _, _ => None
      end
  | _, _ => None
  end.

Definition parseFloat (s : string) : option float :=
  match s with
  | String "-" s' => PrimFloat.opp <$> decimal s'
  | _ => decimal s
  end.

Definition noControlByte (c : ascii) : bool :=
  let n := nat_of_ascii c in (32 <=? n)%nat && negb (n =? 127)%nat.

Fixpoint noControlBytes (s : string) : bool :=
  match s with
  | EmptyString => true
  | String c s' => noControlByte c && noControlBytes s'
  end.

Definition runtime : GoRuntime := {|
  fmt_Sprint_other := fun _ => "";
  fmt_Sscanf_f := parseFloat;
  fmt_Sscanf_d := Json.parseInt;
  strconv_ParseFloat := parseFloat;
  strconv_Atoi := Json.parseInt;
  time_Parse := fun _ _ => None;
  time_Now := fun w n => now w + Z.of_nat n;
  url_Parse_ok := noControlBytes
|}.

(** *** The client of the examples: pages of two, three attempts, one
    second between them. *)

Definition baseURL : string := "https://dctrack.example.com/api/v2".

Definition config : Config.t :=
  {| Config.URL := baseURL;
     Config.Username := "testuser";
     Config.Password := "testpass";
     Config.PageSize := 2;
     Config.MaxRetries := 3;
     Config.RetryDelay := Go.Second;
     Config.VerifySSL := true;
     Config.RequestAllFields := true |}.

Definition client : Root.Client.t :=
  {| Root.Client.config := config; Root.Client.token := "" |}.

(** The client once [login] has stored the token of [loginOK]. *)
Definition loggedIn : Root.Client.t :=
  {| Root.Client.config := config; Root.Client.token := "mock-token-12345" |}.

Definition start : World := {| now := 0; log := [] |}.

(** The clock that starts at instant 0 and reads one nanosecond more at
    each call. *)
Definition clock : Clock := fun n => Z.of_nat n.

(** *** Wire data *)

Definition str (pairs : list (string * string)) : list (string * json) :=
  map (fun kv => (fst kv, JString (snd kv))) pairs.

(** A raw record with every field the root mapper requires. *)
Definition raw (id : string) : json :=
  JObject (str [("id", id); ("tiName", "Server " +:+ id);
                ("tiClass", "Device"); ("cmbStatus", "Installed");
                ("cmbLocation", "TEST-DC")]).

(** The same without its identifier. *)
Definition rawWithoutID : json :=
  JObject (str [("tiName", "Server ?"); ("tiClass", "Device");
                ("cmbStatus", "Installed"); ("cmbLocation", "TEST-DC")]).

(** Shape A and shape B of the page envelope. *)
Definition shapeA (records : list json) : json :=
  JObject [("records", JArray records)].

Definition shapeB (page : string) (records : list json) : json :=
  JObject [("totalRows", JNumber "4"); ("pageNumber", JNumber page);
           ("pageSize", JNumber "2");
           ("searchResults", JObject [("items", JArray records)])].

Definition ok (j : json) : RoundTrip :=
  Reply {| Response.StatusCode := 200; Response.Header := ∅;
           Response.Body := Document j false |}.

Definition status (code : Z) : RoundTrip :=
  Reply {| Response.StatusCode := code; Response.Header := ∅;
           Response.Body := InvalidJSON |}.

Definition loginOK : RoundTrip :=
  Reply {| Response.StatusCode := 200;
           Response.Header := {[ "Authorization" := "Bearer mock-token-12345" ]};
           Response.Body := InvalidJSON |}.

Definition loginPath : string := baseURL +:+ "/authentication/login".

Definition pagePath (page : string) : string :=
  baseURL +:+ "/quicksearch/items?pageNumber=" +:+ page +:+ "&pageSize=2".

Fixpoint route (table : list (string * RoundTrip)) (url : string) : RoundTrip :=
  match table with
  | [] => status 404
  | (u, trip) :: rest => if String.eqb u url then trip else route rest url
  end.

(** A service that answers by URL alone. *)
Definition serve (table : list (string * RoundTrip)) : Network :=
  fun _ req => route ((loginPath, loginOK) :: table) (Request.URL req).

(** Two full pages, [a b] then [c d], and nothing after them. *)
Definition twoPages : Network :=
  serve [ (pagePath "1", ok (shapeB "1" [raw "a"; raw "b"]));
          (pagePath "2", ok (shapeB "2" [raw "c"; raw "d"]));
          (pagePath "3", ok (shapeB "3" [])) ].

(** Two full pages that share the identifier [b]. *)
Definition overlappingPages : Network :=
  serve [ (pagePath "1", ok (shapeB "1" [raw "a"; raw "b"]));
          (pagePath "2", ok (shapeB "2" [raw "b"; raw "c"]));
          (pagePath "3", ok (shapeB "3" [])) ].

(** A first page, then a service that fails on the second. *)
Definition secondPageDown : Network :=
  serve [ (pagePath "1", ok (shapeB "1" [raw "a"; raw "b"]));
          (pagePath "2", status 503) ].

(** A page of two raw records, the second without identifier, and more
    behind it. *)
Definition oneRecordRejected : Network :=
  serve [ (pagePath "1", ok (shapeB "1" [raw "a"; rawWithoutID]));
          (pagePath "2", ok (shapeB "2" [raw "c"; raw "d"])) ].

(** A service that is down. *)
Definition down : Network := fun _ _ => Failed (transportError "connection refused").

(** The records of the mapping examples, as decoded. *)
Definition strings (pairs : list (string * string)) : record :=
  list_to_map (map (fun kv => (fst kv, VString (snd kv))) pairs).


Definition wireRecord : record :=
  strings [("id", "t1"); ("tiName", "Server1");
           ("tiItemOriginalPower", "500.5")].

Definition fullWireRecord : record :=
  strings [("id", "t1"); ("tiName", "Server1"); ("tiClass", "Device");
           ("cmbStatus", "Installed"); ("cmbLocation", "TEST-DC");
           ("tiItemOriginalPower", "500.5")].

Definition recordWithoutID : record :=
  strings [("tiName", "Server1"); ("tiClass", "Device");
           ("cmbStatus", "Installed"); ("cmbLocation", "TEST-DC")].

(** The full record, last updated on the 15th of January 2024. *)
Definition datedRecord : record :=
  <["lastUpdatedOn" := VString "2024-01-15"]> fullWireRecord.

(** The same runtime, with a [time.Parse] that reads this one date under
    the layout [2006-01-02], as nanoseconds from the first of January
    1970. *)
Definition calendar : GoRuntime := {|
  fmt_Sprint_other := fun _ => "";
  fmt_Sscanf_f := parseFloat;
  fmt_Sscanf_d := Json.parseInt;
  strconv_ParseFloat := parseFloat;
  strconv_Atoi := Json.parseInt;
  time_Parse := fun layout s =>
    if Go.eqb layout "2006-01-02" && Go.eqb s "2024-01-15"
    then Some 1705276800000000000 else None;
  time_Now := fun w n => now w + Z.of_nat n;
  url_Parse_ok := noControlBytes
|}.

(** *** Further services *)

(** The same runtime, with a [url.Parse] that accepts every string. *)
Definition lenient : GoRuntime := {|
  fmt_Sprint_other := fun _ => "";
  fmt_Sscanf_f := parseFloat;
  fmt_Sscanf_d := Json.parseInt;
  strconv_ParseFloat := parseFloat;
  strconv_Atoi := Json.parseInt;
  time_Parse := fun _ _ => None;
  time_Now := fun w n => now w + Z.of_nat n;
  url_Parse_ok := fun _ => true
|}.

(** A service that answers every request for a page, whatever its number,
    with the full page [a b]. *)
Definition endless : Network :=
  fun _ req =>
    if String.eqb (Request.URL req) loginPath then loginOK
    else ok (shapeB "1" [raw "a"; raw "b"]).

(** A service that refuses the login. *)
Definition unauthorized : Network := fun _ _ => status 401.

(** A service whose pages are not JSON. *)
Definition garbled : Network := serve [ (pagePath "1", status 200) ].

(** Whether an event is a request sent to [url]. *)
Definition sentTo (url : string) (e : event) : bool :=
  match e with
  | Sent req => String.eqb (Request.URL req) url
  | Slept _ => false
  end.

(** A service that drops the first request for each page and answers the
    next ones as [twoPages] does. *)
Definition flaky : Network :=
  fun history req =>
    if String.eqb (Request.URL req) loginPath then loginOK
    else if existsb (sentTo (Request.URL req)) history then
      twoPages history req
    else Failed (transportError "connection reset").

(** The pages of a search for [b], one item each. *)
Definition searchPath (page text : string) : string :=
  baseURL +:+ "/quicksearch/items?pageNumber=" +:+ page
  +:+ "&pageSize=1&searchText=" +:+ text.

Definition searchB : Network :=
  serve [ (searchPath "1" "b", ok (shapeB "1" [raw "ab"]));
          (searchPath "2" "b", ok (shapeB "2" [raw "b"]));
          (searchPath "3" "b", ok (shapeB "3" [])) ].

(** A client of the package under [dctrack/], and a service that answers
    it in shape A. *)
Definition subClient : Sub.Client.t := Sub.NewClient config.

Definition recordsPages : Network :=
  serve [ (pagePath "1", ok (shapeA [raw "a"; raw "b"]));
          (pagePath "2", ok (shapeA [raw "c"])) ].

(** The parameters of a caller who asks for the first page. *)
Definition firstPage : ItemsParams.t :=
  {| ItemsParams.PageNumber := 1; ItemsParams.PageSize := 0;
     ItemsParams.Location := ""; ItemsParams.Status := "";
     ItemsParams.ItemClass := ""; ItemsParams.Make := "";
     ItemsParams.Model := ""; ItemsParams.SearchText := "" |}.

End Example.

(** * The vocabulary of the properties *)


(** The error [fetchPage] keeps as [lastErr] when a round trip makes it try
    again: a failure of the transport, or a status other than 200. *)
Definition failure (trip : RoundTrip) : option error :=
  match trip with
  | Failed err => Some err
  | Reply resp =>
      if Response.StatusCode resp =? 200 then None
      else Some (errorString ("request failed with status "
                              +:+ Go.itoa (Response.StatusCode resp)))
  end.

(** An endpoint that always fails on [req]. *)
Definition alwaysFails (net : Network) (req : Request.t) : Prop :=
  forall history, failure (net history req) <> None.

(** What the operation returns for the pages it fetched and the error of
    the fetch that failed, if one did: everything, or nothing. *)
Definition outcome (allItems : list DCTrackItem.t)
    (pages : list (list DCTrackItem.t)) (err : option error)
  : list DCTrackItem.t :=
  match err with
  | None => allItems ++ concat pages
  | Some _ => []
  end.

(** An item with power data, for the power analysis of the tool: an
    original power greater than zero. *)
Definition hasPower (item : DCTrackItem.t) : bool :=
  PrimFloat.ltb 0%float (DCTrackItem.OriginalPower item).

(** The time stamps of an item: [LastUpdatedAt], [CreatedAt],
    [UpdatedAt]. *)
Definition stamps (item : DCTrackItem.t) : Time * Time * Time :=
  (DCTrackItem.LastUpdatedAt item, DCTrackItem.CreatedAt item,
   DCTrackItem.UpdatedAt item).

Section Runs.
Context {rt : GoRuntime}.
Variable net : Network.
Variables (ctx : Context) (c : Root.Client.t).

(** The world after [k] attempts at [url] that failed, each followed by the
    delay of the configuration. *)
Fixpoint afterFailures (url : string) (payload : json) (k : nat) (w : World)
  : World :=
  match k with
  | O => w
  | S k =>
      afterFailures url payload k
        (Sleep (Config.RetryDelay (Root.Client.config c))
           (snd (Do net ctx (Root.pageRequest c url payload) w)))
  end.

Variables (params : ItemsParams.t) (pageSize : Z).

(** The three tests after which the page loop is left: no item, fewer
    items than the page size, or a page number given by the caller. *)
Definition lastPage (items : list DCTrackItem.t) : bool :=
  (length items =? 0)%nat
  || (Z.of_nat (length items) <? pageSize)
  || (ItemsParams.PageNumber params >? 0).

(** [PageRun page w pages err w']: from page number [page] and world [w],
    the loop fetches one page after the other; [pages] are the pages that
    were fetched, in the order of their fetch, [err] the error of the fetch
    that failed, if one did, and [w'] the world the loop is left in. *)
Inductive PageRun
  : Z -> World -> list (list DCTrackItem.t) -> option error -> World -> Prop :=
| run_failed (page : Z) (w : World) items err w' :
    Root.fetchPage net ctx c (Root.pageURL c params page pageSize)
      (Root.buildFieldsPayload c) w = (items, Some err, w') ->
    PageRun page w [] (Some err) w'
| run_last (page : Z) (w : World) items w' :
    Root.fetchPage net ctx c (Root.pageURL c params page pageSize)
      (Root.buildFieldsPayload c) w = (items, None, w') ->
    lastPage items = true ->
    PageRun page w [items] None w'
| run_next (page : Z) (w : World) items w1 pages err w' :
    Root.fetchPage net ctx c (Root.pageURL c params page pageSize)
      (Root.buildFieldsPayload c) w = (items, None, w1) ->
    lastPage items = false ->
    PageRun (Go.wrapInt (page + 1)) w1 pages err w' ->
    PageRun page w (items :: pages) err w'.

End Runs.

(** * Properties of the pipeline *)

(** ** Strings *)

Lemma eqb_empty (s : string) : Go.eqb s "" = true <-> s = "".
Proof. unfold Go.eqb. apply String.eqb_eq. Qed.

Lemma eqb_not_empty (s : string) : Go.eqb s "" = false <-> s <> "".
Proof. unfold Go.eqb. apply String.eqb_neq. Qed.


(** ** Authentication *)



Section Login.
Context {rt : GoRuntime}.
Variable net : Network.



End Login.


(** ** One page: the retry loop *)

Section Retry.
Context {rt : GoRuntime}.
Variable net : Network.
Variables (ctx : Context) (c : Root.Client.t) (url : string) (payload : json).

#[local] Abbreviation req := (Root.pageRequest c url payload).
#[local] Abbreviation maxRetries := (Config.MaxRetries (Root.Client.config c)).
#[local] Abbreviation retryDelay := (Config.RetryDelay (Root.Client.config c)).
#[local] Abbreviation afterFailures k w :=
  (afterFailures net ctx c url payload k w).

(** An iteration whose round trip fails: sleep and go on while
    [attempt < MaxRetries], else leave the loop. *)
Lemma attempt_fails (remaining : nat) (attempt : Z) (lastErr : option error)
    (w : World) (err : error) :
  url_Parse_ok url = true ->
  failure (fst (Do net ctx req w)) = Some err ->
  Root.fetchPage_attempts net ctx c url payload (S remaining) attempt lastErr w
  = if attempt <? maxRetries then
      Root.fetchPage_attempts net ctx c url payload remaining (attempt + 1)
        (Some err) (Sleep retryDelay (snd (Do net ctx req w)))
    else (Root.allAttemptsFailed (Some err), snd (Do net ctx req w)).
Proof.
  intros Hurl Hfail. simpl. rewrite Hurl. simpl. fold req.
  destruct (Do net ctx req w) as [trip w1]. simpl in *.
  destruct trip as [e | resp]; simpl in Hfail.
  - injection Hfail as ->. reflexivity.
  - unfold Go.StatusOK.
    destruct (Response.StatusCode resp =? 200); [discriminate |].
    injection Hfail as <-. reflexivity.
Qed.

(** An iteration whose round trip brings status 200: the body decides. *)
Lemma attempt_succeeds (remaining : nat) (attempt : Z)
    (lastErr : option error) (w : World) (resp : Response.t) :
  url_Parse_ok url = true ->
  fst (Do net ctx req w) = Reply resp ->
  Response.StatusCode resp = 200 ->
  Root.fetchPage_attempts net ctx c url payload (S remaining) attempt lastErr w
  = (Root.readPage (time_Now (snd (Do net ctx req w))) resp,
     snd (Do net ctx req w)).
Proof.
  intros Hurl Htrip Hok. simpl. rewrite Hurl. simpl. fold req.
  destruct (Do net ctx req w) as [trip w1]. simpl in *. subst trip.
  unfold Go.StatusOK. rewrite Hok. reflexivity.
Qed.


Lemma Do_alwaysFails (w : World) :
  alwaysFails net req -> failure (fst (Do net ctx req w)) <> None.
Proof.
  intros Hfails. unfold Do.
  destruct (ctxErr ctx (now w)); [discriminate | apply Hfails].
Qed.

Lemma Do_world (w : World) :
  snd (Do net ctx req w) = {| now := now w; log := log w ++ [Sent req] |}.
Proof. unfold Do. destruct (ctxErr ctx (now w)); reflexivity. Qed.

Lemma afterFailures_world (k : nat) (w : World) :
  afterFailures k w =
    {| now := now w + Z.of_nat k * Z.max 0 retryDelay;
       log := log w ++ concat (replicate k [Sent req; Slept retryDelay]) |}.
Proof.
  revert w. induction k as [|k IH]; intros w.
  - simpl. rewrite Z.add_0_r, app_nil_r. now destruct w.
  - cbn [afterFailures]. rewrite IH, Do_world. unfold Sleep. cbn [now log].
    f_equal; [lia |].
    cbn [replicate concat]. rewrite <- !app_assoc. reflexivity.
Qed.

(** Against an endpoint that always fails, the loop makes every attempt
    the loop condition allows, sleeps the configured delay after each
    but the last, and reports the failure of the last. *)
Lemma attempts_all_fail (remaining : nat) (attempt : Z)
    (lastErr : option error) (w : World) :
  url_Parse_ok url = true ->
  alwaysFails net req ->
  attempt + Z.of_nat remaining = maxRetries ->
  let last := afterFailures remaining w in
  Root.fetchPage_attempts net ctx c url payload (S remaining) attempt lastErr w
  = (Root.allAttemptsFailed (failure (fst (Do net ctx req last))),
     snd (Do net ctx req last)).
Proof.
  intros Hurl Hfails. revert attempt lastErr w.
  induction remaining as [|remaining IH]; intros attempt lastErr w Hcount last.
  - subst last. cbn [afterFailures].
    destruct (failure (fst (Do net ctx req w))) as [err|] eqn:Hfail;
      [| now elim (Do_alwaysFails w Hfails)].
    rewrite (attempt_fails 0 attempt lastErr w err Hurl Hfail).
    replace (attempt <? maxRetries) with false; [reflexivity |].
    symmetry. apply Z.ltb_ge. lia.
  - destruct (failure (fst (Do net ctx req w))) as [err|] eqn:Hfail;
      [| now elim (Do_alwaysFails w Hfails)].
    rewrite (attempt_fails (S remaining) attempt lastErr w err Hurl Hfail).
    replace (attempt <? maxRetries) with true
      by (symmetry; apply Z.ltb_lt; lia).
    rewrite IH by lia. reflexivity.
Qed.

End Retry.

(** C2. With [MaxRetries = 3] and an endpoint that always fails, by a
    failure of the transport or by a status other than 200, [fetchPage]
    calls [httpClient.Do] exactly three times, sleeps the configured
    [RetryDelay] between the first and the second and between the second
    and the third call and at no other time, and returns the error
    [all retry attempts failed, last error: ...] that wraps the failure of
    the third call. *)
Theorem C2_three_attempts_fixed_delay {rt : GoRuntime} (net : Network)
    (ctx : Context) (c : Root.Client.t) (url : string) (payload : json)
    (w : World) :
  Config.MaxRetries (Root.Client.config c) = 3 ->
  url_Parse_ok url = true ->
  alwaysFails net (Root.pageRequest c url payload) ->
  let req := Root.pageRequest c url payload in
  let delay := Config.RetryDelay (Root.Client.config c) in
  let before3 :=
    {| now := now w + 2 * Z.max 0 delay;
       log := log w ++ [Sent req; Slept delay; Sent req; Slept delay] |} in
  exists last : error,
    failure (fst (Do net ctx req before3)) = Some last
    /\ Root.fetchPage net ctx c url payload w
       = ([],
          Some (wrapError "all retry attempts failed, last error: " (Some last)),
          {| now := now w + 2 * Z.max 0 delay;
             log := log w ++ [Sent req; Slept delay; Sent req; Slept delay;
                              Sent req] |}).
Proof.
  intros Hmax Hurl Hfails. cbv zeta.
  unfold Root.fetchPage. rewrite Hmax. change (Z.to_nat 3) with 3%nat.
  rewrite (attempts_all_fail net ctx c url payload 2 1 None w Hurl Hfails)
    by (rewrite Hmax; reflexivity).
  rewrite afterFailures_world, Do_world. cbn [now log concat replicate app].
  rewrite <- app_assoc. cbn [app].
  change (Z.of_nat 2) with 2.
  match goal with
  | |- context [failure (fst (Do net ctx ?r ?before))] =>
      destruct (failure (fst (Do net ctx r before))) as [last|] eqn:Hlast;
      [| now elim (Do_alwaysFails net ctx c url payload before Hfails)]
  end.
  exists last. split; reflexivity.
Qed.

(** Three attempts against a service that is down, one second apart. *)
Lemma C2_three_attempts_witness :
  let req :=
    Root.pageRequest Example.loggedIn (Example.pagePath "1") (JObject []) in
  log (snd (Root.fetchPage (rt := Example.runtime) Example.down Background
              Example.loggedIn (Example.pagePath "1") (JObject [])
              Example.start))
  = [Sent req; Slept Go.Second; Sent req; Slept Go.Second; Sent req].
Proof.
  intros req.
  destruct (C2_three_attempts_fixed_delay (rt := Example.runtime)
              Example.down Background Example.loggedIn
              (Example.pagePath "1") (JObject []) Example.start)
    as (last & _ & Hrun).
  - reflexivity.
  - vm_compute. reflexivity.
  - intros history. discriminate.
  - rewrite Hrun. reflexivity.
Defined.

(** C8. The context is cancelled half a second into the first delay of one
    second, against a service that is down.  [fetchPage] sleeps that delay
    to its end, makes the second attempt, sleeps the whole second delay,
    makes the third attempt, and returns two seconds after it started.
    The error it returns is a cancellation error: it wraps
    [context canceled]. *)
Theorem C8_cancelled_during_delay_still_retries :
  let url := Example.pagePath "1" in
  let req := Root.pageRequest Example.loggedIn url (JObject []) in
  let run :=
    Root.fetchPage (rt := Example.runtime) Example.down (Cancelled 500000000)
      Example.loggedIn url (JObject []) Example.start in
  log (snd run) = [Sent req; Slept Go.Second; Sent req; Slept Go.Second; Sent req]
  /\ now (snd run) = 2 * Go.Second
  /\ snd (fst run)
     = Some (wrapError "all retry attempts failed, last error: "
               (Some (urlError "Post" url contextCanceled)))
  /\ errors_Is_context <$> snd (fst run) = Some true.
Proof. vm_compute. repeat split; reflexivity. Qed.

(** ** Records that are not mapped *)

Section Mapping.
Context {rt : GoRuntime}.

(** Whether a record is mapped does not depend on the clock. *)
Lemma mapping_error_any_clock (timeNow timeNow' : Clock) (record : record) :
  snd (Root.mapDCTrackRecord timeNow record)
  = snd (Root.mapDCTrackRecord timeNow' record).
Proof.
  unfold Root.mapDCTrackRecord. cbv zeta.
  cbn [DCTrackItem.ID DCTrackItem.Name DCTrackItem.ItemClass
       DCTrackItem.Status DCTrackItem.Location].
  repeat match goal with
         | |- context [if ?b then _ else _] => destruct b
         end; reflexivity.
Qed.

Lemma schedule_records (timeNow : Clock) (records : list record) :
  map snd (Root.schedule timeNow records) = records.
Proof.
  revert timeNow.
  induction records as [|record records IH]; intros timeNow; [reflexivity |].
  cbn [Root.schedule map snd]. now rewrite IH.
Qed.

(** The items of a page are the records whose mapping succeeds, in the
    order of the envelope. *)
Lemma mapRecords_in_order (timeNow : Clock) (records : list record) :
  Root.mapRecords timeNow records
  = omap (fun '(timeNow, record) =>
            match Root.mapDCTrackRecord timeNow record with
            | (item, None) => Some item
            | (_, Some _) => None
            end) (Root.schedule timeNow records).
Proof.
  revert timeNow.
  induction records as [|record records IH]; intros timeNow; [reflexivity |].
  cbn [Root.mapRecords Root.schedule omap list_omap]. rewrite IH.
  now destruct (Root.mapDCTrackRecord timeNow record) as [item [err|]].
Qed.

Lemma mapRecords_length (timeNow : Clock) (records : list record) :
  (length (Root.mapRecords timeNow records) <= length records)%nat.
Proof.
  revert timeNow.
  induction records as [|record records IH]; intros timeNow;
    cbn [Root.mapRecords length]; [lia |].
  specialize (IH (later (Root.timeNowCalls record) timeNow)).
  destruct (Root.mapDCTrackRecord timeNow record) as [item [err|]];
    cbn [length]; lia.
Qed.

(** A record whose mapping fails is one item less. *)
Lemma mapRecords_rejects (timeNow : Clock) (records : list record)
    (record : record) :
  In record records ->
  snd (Root.mapDCTrackRecord timeNow record) <> None ->
  (length (Root.mapRecords timeNow records) < length records)%nat.
Proof.
  intros Hin Hrejected. revert timeNow Hrejected.
  induction records as [|first records IH]; intros timeNow Hrejected;
    [elim Hin |].
  cbn [Root.mapRecords length].
  destruct Hin as [-> | Hin].
  - pose proof (mapRecords_length
                  (later (Root.timeNowCalls record) timeNow) records).
    destruct (Root.mapDCTrackRecord timeNow record) as [item [err|]];
      [lia | now elim Hrejected].
  - specialize (IH Hin (later (Root.timeNowCalls first) timeNow)).
    rewrite (mapping_error_any_clock _ timeNow) in IH.
    specialize (IH Hrejected).
    destruct (Root.mapDCTrackRecord timeNow first) as [item [err|]];
      cbn [length]; lia.
Qed.

(** The records around a record whose mapping fails are mapped as if it
    were not there, but for the readings of the clock it used up. *)
Lemma mapRecords_skips (timeNow : Clock) (before after : list record)
    (record : record) :
  snd (Root.mapDCTrackRecord timeNow record) <> None ->
  Root.mapRecords timeNow (before ++ record :: after)
  = Root.mapRecords timeNow before
    ++ Root.mapRecords (Root.clockAfter timeNow (before ++ [record])) after.
Proof.
  intros Hrejected. revert timeNow Hrejected.
  induction before as [|first before IH]; intros timeNow Hrejected;
    cbn [Root.mapRecords Root.clockAfter app].
  - destruct (Root.mapDCTrackRecord timeNow record) as [item [err|]];
      [reflexivity | now elim Hrejected].
  - specialize (IH (later (Root.timeNowCalls first) timeNow)).
    rewrite (mapping_error_any_clock _ timeNow) in IH.
    specialize (IH Hrejected).
    destruct (Root.mapDCTrackRecord timeNow first) as [item [err|]];
      [exact IH | now rewrite IH].
Qed.

End Mapping.

(** ** The page loop *)

(** A client made by [NewClient] has a page size, a number of attempts and
    a delay that are positive. *)
Lemma NewClient_defaults (cfg : Config.t) (c : Root.Client.t) :
  Root.NewClient cfg = (Some c, None) ->
  0 < Config.PageSize (Root.Client.config c)
  /\ 0 < Config.MaxRetries (Root.Client.config c)
  /\ 0 < Config.RetryDelay (Root.Client.config c).
Proof.
  unfold Root.NewClient.
  destruct (Root.validateConfig cfg); [discriminate |].
  intros [= <-]. cbn. unfold Go.Second.
  repeat split;
    match goal with
    | |- context [?a <=? 0] => destruct (Z.leb_spec a 0); lia
    end.
Qed.

Lemma effectivePageSize_pos (c : Root.Client.t) (params : ItemsParams.t) :
  0 < Config.PageSize (Root.Client.config c) ->
  0 < Root.effectivePageSize c params.
Proof.
  intros Hpos. unfold Root.effectivePageSize.
  destruct (Z.gtb_spec (ItemsParams.PageSize params) 0); lia.
Qed.

Section Pages.
Context {rt : GoRuntime}.
Variable net : Network.
Variables (ctx : Context) (c : Root.Client.t) (params : ItemsParams.t).
Variable pageSize : Z.

#[local] Abbreviation fetch page w :=
  (Root.fetchPage net ctx c (Root.pageURL c params page pageSize)
     (Root.buildFieldsPayload c) w).
#[local] Abbreviation lastPage items := (lastPage params pageSize items).
#[local] Abbreviation PageRun page w pages err w' :=
  (PageRun net ctx c params pageSize page w pages err w').

(** One iteration of the loop. *)
Lemma pageLoop_step (fuel : nat) (page : Z) (allItems : list DCTrackItem.t)
    (w : World) :
  Root.pageLoop net (S fuel) ctx c params pageSize page allItems w
  = match fetch page w with
    | (_, Some err, w1) => Some ([], Some err, w1)
    | (items, None, w1) =>
        if lastPage items then Some (allItems ++ items, None, w1)
        else Root.pageLoop net fuel ctx c params pageSize
               (Go.wrapInt (page + 1)) (allItems ++ items) w1
    end.
Proof.
  cbn [Root.pageLoop].
  destruct (fetch page w) as [[items [err|]] w1]; [reflexivity |].
  unfold lastPage. destruct items as [|item items].
  - cbn. now rewrite app_nil_r.
  - cbn [length Nat.eqb orb].
    destruct (Z.of_nat (S (length items)) <? pageSize); [reflexivity |].
    destruct (ItemsParams.PageNumber params >? 0); reflexivity.
Qed.

(** The loop returns what the run determines, given fuel for its pages. *)
Lemma PageRun_pageLoop (page : Z) (w : World) pages err (w' : World) :
  PageRun page w pages err w' ->
  forall (fuel : nat) (allItems : list DCTrackItem.t),
    (length pages < fuel)%nat ->
    Root.pageLoop net fuel ctx c params pageSize page allItems w
    = Some (outcome allItems pages err, err, w').
Proof.
  induction 1 as [page w items err w' Hfetch
                 | page w items w' Hfetch Hlast
                 | page w items w1 pages err w' Hfetch Hmore Hrun IH];
    intros [|fuel] allItems Hfuel; try (cbn in Hfuel; lia);
    rewrite pageLoop_step, Hfetch.
  - reflexivity.
  - rewrite Hlast. cbn. now rewrite app_nil_r.
  - rewrite Hmore. rewrite IH by (cbn in Hfuel; lia).
    f_equal. f_equal. f_equal.
    destruct err; cbn; [reflexivity | now rewrite app_assoc].
Qed.

(** Every result of the loop is the outcome of a run. *)
Lemma pageLoop_PageRun (fuel : nat) (page : Z) (allItems : list DCTrackItem.t)
    (w : World) items err (w' : World) :
  Root.pageLoop net fuel ctx c params pageSize page allItems w
  = Some (items, err, w') ->
  exists pages,
    PageRun page w pages err w' /\ items = outcome allItems pages err.
Proof.
  revert page allItems w.
  induction fuel as [|fuel IH]; intros page allItems w; [discriminate |].
  rewrite pageLoop_step.
  destruct (fetch page w) as [[got [e|]] w1] eqn:Hfetch.
  - intros [= <- <- <-]. exists []. split; [econstructor; eassumption | reflexivity].
  - destruct (lastPage got) eqn:Hlast.
    + intros [= <- <- <-]. exists [got]. split; [now econstructor |].
      cbn. now rewrite app_nil_r.
    + intros Hloop. destruct (IH _ _ _ Hloop) as (pages & Hrun & ->).
      exists (got :: pages). split; [econstructor; eassumption |].
      destruct err; cbn; [reflexivity | now rewrite app_assoc].
Qed.

End Pages.

(** C5. The operation is all or nothing.  When, after any number of pages
    fetched with success, the fetch of a page fails (attempts exhausted,
    body unreadable or undecodable, request not created),
    [GetItemsWithParams] returns that error and no item: the pages
    accumulated so far are dropped. *)
Theorem C5_failed_page_returns_no_items {rt : GoRuntime} (net : Network)
    (fuel : nat) (ctx : Context) (c c1 : Root.Client.t)
    (params : ItemsParams.t) (w w1 w' : World)
    (pages : list (list DCTrackItem.t)) (err : error) :
  Root.login net ctx c w = (None, c1, w1) ->
  PageRun net ctx c1 params (Root.effectivePageSize c1 params)
    (Root.startPage params) w1 pages (Some err) w' ->
  (length pages < fuel)%nat ->
  Root.GetItemsWithParams net fuel ctx c params w
  = Some ([], Some err, c1, w').
Proof.
  intros Hlogin Hrun Hfuel. unfold Root.GetItemsWithParams. rewrite Hlogin.
  now rewrite (PageRun_pageLoop _ _ _ _ _ _ _ _ _ _ Hrun fuel [] Hfuel).
Qed.

(** The first page brings [a] and [b], the second cannot be fetched: the
    operation returns the error and neither [a] nor [b]. *)
Lemma C5_failed_page_witness :
  exists w',
    Root.GetItemsWithParams (rt := Example.runtime) Example.secondPageDown 2
      Background Example.client ItemsParams.zero Example.start
    = Some ([],
            Some (wrapError "all retry attempts failed, last error: "
                    (Some (errorString "request failed with status 503"))),
            Example.loggedIn, w').
Proof.
  eexists.
  eapply (C5_failed_page_returns_no_items (rt := Example.runtime)).
  - vm_compute. reflexivity.
  - eapply run_next; [vm_compute; reflexivity | vm_compute; reflexivity |].
    eapply run_failed. vm_compute. reflexivity.
  - cbn. lia.
Defined.

(** Whatever the run, an error comes with no item. *)
Lemma error_comes_with_no_item {rt : GoRuntime} (net : Network) (fuel : nat)
    (ctx : Context) (c c' : Root.Client.t) (params : ItemsParams.t)
    (w w' : World) (items : list DCTrackItem.t) (err : error) :
  Root.GetItemsWithParams net fuel ctx c params w
  = Some (items, Some err, c', w') ->
  items = [].
Proof.
  unfold Root.GetItemsWithParams.
  destruct (Root.login net ctx c w) as [[[e|] c1] w1]; [now intros [= <- _ _ _] |].
  destruct (Root.pageLoop net fuel ctx c1 params
              (Root.effectivePageSize c1 params) (Root.startPage params) [] w1)
    as [[[got e] w2]|] eqn:Hloop; [| discriminate].
  intros [= -> -> _ _].
  destruct (pageLoop_PageRun _ _ _ _ _ _ _ _ _ _ _ _ Hloop) as (pages & _ & ->).
  reflexivity.
Qed.

(** C9. On success, [GetItemsWithParams] returns the items of the pages it
    fetched, page after page in the order of their fetch: the
    concatenation of the pages, from which nothing is removed, whatever
    the identifiers.  Within a page, the items are the records whose
    mapping succeeds, in the order of the envelope, each mapped on the
    readings of the clock that the records before it have left. *)
Theorem C9_items_in_page_fetch_order {rt : GoRuntime} (net : Network)
    (fuel : nat) (ctx : Context) (c c1 : Root.Client.t)
    (params : ItemsParams.t) (w w1 w' : World)
    (pages : list (list DCTrackItem.t)) :
  Root.login net ctx c w = (None, c1, w1) ->
  PageRun net ctx c1 params (Root.effectivePageSize c1 params)
    (Root.startPage params) w1 pages None w' ->
  (length pages < fuel)%nat ->
  Root.GetItemsWithParams net fuel ctx c params w
  = Some (concat pages, None, c1, w')
  /\ (forall timeNow records,
        Root.mapRecords timeNow records
        = omap (fun '(timeNow, record) =>
                  match Root.mapDCTrackRecord timeNow record with
                  | (item, None) => Some item
                  | (_, Some _) => None
                  end) (Root.schedule timeNow records)
        /\ map snd (Root.schedule timeNow records) = records).
Proof.
  intros Hlogin Hrun Hfuel.
  split; [| split; [apply mapRecords_in_order | apply schedule_records]].
  unfold Root.GetItemsWithParams. rewrite Hlogin.
  now rewrite (PageRun_pageLoop _ _ _ _ _ _ _ _ _ _ Hrun fuel [] Hfuel).
Qed.

(** Two pages of size 2, [a b] then [c d]: the result is [a b c d]. *)
Lemma C9_two_pages_witness :
  exists items w',
    Root.GetItemsWithParams (rt := Example.runtime) Example.twoPages 4
      Background Example.client ItemsParams.zero Example.start
    = Some (items, None, Example.loggedIn, w')
    /\ map DCTrackItem.ID items = ["a"; "b"; "c"; "d"].
Proof.
  pose (w1 := snd (Root.login (rt := Example.runtime) Example.twoPages
                     Background Example.client Example.start)).
  assert (Hlogin : Root.login (rt := Example.runtime) Example.twoPages
                     Background Example.client Example.start
                   = (None, Example.loggedIn, w1))
    by (vm_compute; reflexivity).
  eexists. eexists. split.
  - refine (proj1 (C9_items_in_page_fetch_order (rt := Example.runtime)
                     Example.twoPages 4 Background Example.client
                     Example.loggedIn ItemsParams.zero Example.start w1 _ _
                     Hlogin _ _)).
    + eapply run_next; [vm_compute; reflexivity | vm_compute; reflexivity |].
      eapply run_next; [vm_compute; reflexivity | vm_compute; reflexivity |].
      eapply run_last; vm_compute; reflexivity.
    + cbn. lia.
  - vm_compute. reflexivity.
Defined.

(** Pages that overlap are concatenated as they are: [b] comes twice. *)
Lemma overlapping_pages_keep_duplicates :
  exists items w',
    Root.GetItemsWithParams (rt := Example.runtime) Example.overlappingPages 4
      Background Example.client ItemsParams.zero Example.start
    = Some (items, None, Example.loggedIn, w')
    /\ map DCTrackItem.ID items = ["a"; "b"; "b"; "c"].
Proof. eexists. eexists. split; vm_compute; reflexivity. Qed.

(** ** What the loop asks of the network *)

Section Requests.
Context {rt : GoRuntime}.
Variable net : Network.
Variables (ctx : Context) (c : Root.Client.t).

(** [fetchPage] only adds to the log. *)
Lemma fetchPage_attempts_log (url : string) (payload : json)
    (remaining : nat) (attempt : Z) (lastErr : option error) (w : World) :
  exists rest,
    log (snd (Root.fetchPage_attempts net ctx c url payload remaining attempt
                lastErr w))
    = log w ++ rest.
Proof.
  revert attempt lastErr w.
  induction remaining as [|remaining IH]; intros attempt lastErr w.
  - exists []. cbn. now rewrite app_nil_r.
  - cbn [Root.fetchPage_attempts].
    destruct (url_Parse_ok url); cbn [negb];
      [| exists []; cbn; now rewrite app_nil_r].
    pose proof (Do_world net ctx c url payload w) as Hworld.
    destruct (Do net ctx (Root.pageRequest c url payload) w) as [trip w1].
    cbn [snd] in Hworld. subst w1.
    set (w1 := {| now := now w;
                  log := log w ++ [Sent (Root.pageRequest c url payload)] |}).
    assert (Hretry : forall e,
              exists rest,
                log (snd (if attempt <? Config.MaxRetries (Root.Client.config c)
                          then Root.fetchPage_attempts net ctx c url payload
                                 remaining (attempt + 1) e
                                 (Sleep (Config.RetryDelay (Root.Client.config c)) w1)
                          else (Root.allAttemptsFailed e, w1)))
                = log w ++ rest).
    { intros e. destruct (attempt <? Config.MaxRetries (Root.Client.config c)).
      - destruct (IH (attempt + 1) e
                    (Sleep (Config.RetryDelay (Root.Client.config c)) w1))
          as [rest Hrest].
        rewrite Hrest. cbn [Sleep log w1]. rewrite <- !app_assoc. eauto.
      - cbn. eauto. }
    destruct trip as [err | resp]; [apply Hretry |].
    destruct (negb (Response.StatusCode resp =? Go.StatusOK));
      [apply Hretry | cbn; eauto].
Qed.

(** With a URL that parses and at least one attempt allowed, the first
    thing [fetchPage] does is to send the request for its page. *)
Lemma fetchPage_first_request (url : string) (payload : json) (w : World) :
  url_Parse_ok url = true ->
  0 < Config.MaxRetries (Root.Client.config c) ->
  exists rest,
    log (snd (Root.fetchPage net ctx c url payload w))
    = log w ++ Sent (Root.pageRequest c url payload) :: rest.
Proof.
  intros Hurl Hmax. unfold Root.fetchPage.
  destruct (Z.to_nat (Config.MaxRetries (Root.Client.config c)))
    as [|remaining] eqn:Hn; [lia |].
  cbn [Root.fetchPage_attempts]. rewrite Hurl. cbn [negb].
  pose proof (Do_world net ctx c url payload w) as Hworld.
  destruct (Do net ctx (Root.pageRequest c url payload) w) as [trip w1].
  cbn [snd] in Hworld. subst w1.
  set (w1 := {| now := now w;
                log := log w ++ [Sent (Root.pageRequest c url payload)] |}).
  assert (Hretry : forall e,
            exists rest,
              log (snd (if 1 <? Config.MaxRetries (Root.Client.config c)
                        then Root.fetchPage_attempts net ctx c url payload
                               remaining (1 + 1) e
                               (Sleep (Config.RetryDelay (Root.Client.config c)) w1)
                        else (Root.allAttemptsFailed e, w1)))
              = log w ++ Sent (Root.pageRequest c url payload) :: rest).
  { intros e. destruct (1 <? Config.MaxRetries (Root.Client.config c)).
    - destruct (fetchPage_attempts_log url payload remaining (1 + 1) e
                  (Sleep (Config.RetryDelay (Root.Client.config c)) w1))
        as [rest Hrest].
      rewrite Hrest. cbn [Sleep log w1]. rewrite <- !app_assoc. cbn. eauto.
    - cbn. eauto. }
  destruct trip as [err | resp]; [apply Hretry |].
  destruct (negb (Response.StatusCode resp =? Go.StatusOK));
    [apply Hretry | cbn; eauto].
Qed.

Variables (params : ItemsParams.t) (pageSize : Z).

(** The loop only adds to the log. *)
Lemma pageLoop_log (fuel : nat) (page : Z) (allItems : list DCTrackItem.t)
    (w : World) result :
  Root.pageLoop net fuel ctx c params pageSize page allItems w = Some result ->
  exists rest, log (snd result) = log w ++ rest.
Proof.
  revert page allItems w.
  induction fuel as [|fuel IH]; intros page allItems w; [discriminate |].
  rewrite pageLoop_step.
  destruct (fetchPage_attempts_log (Root.pageURL c params page pageSize)
              (Root.buildFieldsPayload c)
              (Z.to_nat (Config.MaxRetries (Root.Client.config c))) 1 None w)
    as [rest Hrest].
  fold (Root.fetchPage net ctx c (Root.pageURL c params page pageSize)
          (Root.buildFieldsPayload c) w) in Hrest.
  destruct (Root.fetchPage net ctx c (Root.pageURL c params page pageSize)
              (Root.buildFieldsPayload c) w) as [[items [e|]] w1];
    cbn [snd] in Hrest.
  - intros [= <-]. cbn. eauto.
  - destruct (lastPage params pageSize items).
    + intros [= <-]. cbn. eauto.
    + intros Hloop. destruct (IH _ _ _ Hloop) as [rest' ->].
      rewrite Hrest, <- app_assoc. eauto.
Qed.

(** A loop that returns has begun by the request for the page it is at. *)
Lemma pageLoop_first_request (fuel : nat) (page : Z)
    (allItems : list DCTrackItem.t) (w : World) result :
  url_Parse_ok (Root.pageURL c params page pageSize) = true ->
  0 < Config.MaxRetries (Root.Client.config c) ->
  Root.pageLoop net fuel ctx c params pageSize page allItems w = Some result ->
  exists rest,
    log (snd result)
    = log w
      ++ Sent (Root.pageRequest c (Root.pageURL c params page pageSize)
                 (Root.buildFieldsPayload c)) :: rest.
Proof.
  intros Hurl Hmax. destruct fuel as [|fuel]; [discriminate |].
  rewrite pageLoop_step.
  destruct (fetchPage_first_request (Root.pageURL c params page pageSize)
              (Root.buildFieldsPayload c) w Hurl Hmax) as [rest Hrest].
  destruct (Root.fetchPage net ctx c (Root.pageURL c params page pageSize)
              (Root.buildFieldsPayload c) w) as [[items [e|]] w1];
    cbn [snd] in Hrest.
  - intros [= <-]. cbn. eauto.
  - destruct (lastPage params pageSize items).
    + intros [= <-]. cbn. eauto.
    + intros Hloop. destruct (pageLoop_log _ _ _ _ _ Hloop) as [rest' ->].
      rewrite Hrest, <- app_assoc. cbn. eauto.
Qed.

End Requests.

Lemma wrapInt_small (z : Z) : Go.minInt <= z <= Go.maxInt -> Go.wrapInt z = z.
Proof.
  unfold Go.minInt, Go.maxInt, Go.wrapInt. intros Hz.
  rewrite Z.mod_small by lia. lia.
Qed.

(** Strings under [+]. *)
Lemma string_app_assoc (a b c : string) : (a +:+ b) +:+ c = a +:+ b +:+ c.
Proof.
  induction a as [|x a IH]; [reflexivity |].
  change (String x ((a +:+ b) +:+ c) = String x (a +:+ b +:+ c)).
  now rewrite IH.
Qed.

Lemma string_app_nil_r (a : string) : a +:+ EmptyString = a.
Proof.
  induction a as [|x a IH]; [reflexivity |].
  change (String x (a +:+ EmptyString) = String x a). now rewrite IH.
Qed.

(** The URL of a page, written out: the numbers of the page and of its
    size, then the filters that are set. *)
Lemma pageURL_written_out (c : Root.Client.t) (params : ItemsParams.t)
    (page pageSize : Z) :
  let filter key value := if Go.eqb value "" then "" else key +:+ value in
  Root.pageURL c params page pageSize
  = Config.URL (Root.Client.config c) +:+ "/quicksearch/items?pageNumber="
    +:+ Go.itoa page +:+ "&pageSize=" +:+ Go.itoa pageSize
    +:+ filter "&location=" (ItemsParams.Location params)
    +:+ filter "&status=" (ItemsParams.Status params)
    +:+ filter "&searchText=" (ItemsParams.SearchText params).
Proof.
  intros filter. subst filter. unfold Root.pageURL. cbv beta zeta.
  destruct (Go.eqb (ItemsParams.Location params) "");
    destruct (Go.eqb (ItemsParams.Status params) "");
    destruct (Go.eqb (ItemsParams.SearchText params) "");
    cbv beta iota delta [negb];
    rewrite ?string_app_assoc, ?string_app_nil_r; reflexivity.
Qed.

(** C1. For a client made by [NewClient] and the fetch of a page with
    page size [N]: (a) if the page has fewer than [N] items, none
    included, the loop returns with the world as this fetch left it, so no
    further page is requested; (b) if the caller gave a page number
    ([PageNumber > 0]) the loop returns after this one fetch whatever the
    page holds, and also when the fetch fails; (c) otherwise, after a page
    of at least [N] items, the loop goes on with page number [page + 1]:
    its next iteration fetches the URL that carries [pageNumber=] and the
    decimal digits of [page + 1], with the same page size and filters, and
    this fetch, whatever comes of it and whether or not the loop returns
    later, begins by sending the [POST] request for that URL in the world
    this fetch left. *)
Theorem C1_pagination_stops_or_advances {rt : GoRuntime} (net : Network)
    (ctx : Context) (cfg : Config.t) (c0 c : Root.Client.t)
    (params : ItemsParams.t) (fuel : nat) (page : Z)
    (allItems items : list DCTrackItem.t) (err : option error)
    (w w1 : World) :
  Root.NewClient cfg = (Some c0, None) ->
  Root.Client.config c = Root.Client.config c0 ->
  let N := Root.effectivePageSize c params in
  let payload := Root.buildFieldsPayload c in
  Root.fetchPage net ctx c (Root.pageURL c params page N) payload w
  = (items, err, w1) ->
  (err = None -> Z.of_nat (length items) < N ->
   Root.pageLoop net (S fuel) ctx c params N page allItems w
   = Some (allItems ++ items, None, w1))
  /\ (0 < ItemsParams.PageNumber params ->
      Root.pageLoop net (S fuel) ctx c params N page allItems w
      = Some (match err with None => allItems ++ items | Some _ => [] end,
              err, w1))
  /\ (err = None ->
      ItemsParams.PageNumber params <= 0 ->
      N <= Z.of_nat (length items) ->
      Go.minInt <= page < Go.maxInt ->
      let filter key value := if Go.eqb value "" then "" else key +:+ value in
      let next :=
        Config.URL (Root.Client.config c) +:+ "/quicksearch/items?pageNumber="
        +:+ Go.itoa (page + 1) +:+ "&pageSize=" +:+ Go.itoa N
        +:+ filter "&location=" (ItemsParams.Location params)
        +:+ filter "&status=" (ItemsParams.Status params)
        +:+ filter "&searchText=" (ItemsParams.SearchText params) in
      let req := Root.pageRequest c next payload in
      (Request.Method req = "POST" /\ Request.URL req = next)
      /\ Root.pageLoop net (S fuel) ctx c params N page allItems w
         = Root.pageLoop net fuel ctx c params N (page + 1) (allItems ++ items)
             w1
      /\ (url_Parse_ok next = true ->
          (exists rest,
              log (snd (Root.fetchPage net ctx c next payload w1))
              = log w1 ++ Sent req :: rest)
          /\ Root.pageLoop net (S (S fuel)) ctx c params N page allItems w
             = match Root.fetchPage net ctx c next payload w1 with
               | (_, Some e, w2) => Some ([], Some e, w2)
               | (items', None, w2) =>
                   if lastPage params N items' then
                     Some ((allItems ++ items) ++ items', None, w2)
                   else
                     Root.pageLoop net fuel ctx c params N
                       (Go.wrapInt (page + 1 + 1))
                       ((allItems ++ items) ++ items') w2
               end
          /\ (forall result,
                 Root.pageLoop net fuel ctx c params N (page + 1)
                   (allItems ++ items) w1 = Some result ->
                 exists rest,
                   log (snd result) = log w1 ++ Sent req :: rest))).
Proof.
  intros Hnew Hcfg N payload Hfetch.
  destruct (NewClient_defaults cfg c0 Hnew) as (Hsize & Hmax & _).
  rewrite <- Hcfg in Hsize, Hmax.
  pose proof (effectivePageSize_pos c params Hsize) as HN. fold N in HN.
  assert (Hstep : forall fuel,
             Root.pageLoop net (S fuel) ctx c params N page allItems w
             = match err with
               | Some e => Some ([], Some e, w1)
               | None =>
                   if lastPage params N items then
                     Some (allItems ++ items, None, w1)
                   else
                     Root.pageLoop net fuel ctx c params N
                       (Go.wrapInt (page + 1)) (allItems ++ items) w1
               end).
  { intros fuel'. rewrite pageLoop_step. fold payload. now rewrite Hfetch. }
  unfold lastPage in Hstep.
  split_and!.
  - intros -> Hshort. rewrite Hstep.
    replace (Z.of_nat (length items) <? N) with true
      by (symmetry; apply Z.ltb_lt; lia).
    now rewrite orb_true_r.
  - intros Hsingle. rewrite Hstep. destruct err; [reflexivity |].
    replace (ItemsParams.PageNumber params >? 0) with true
      by (symmetry; apply Z.gtb_lt; lia).
    now rewrite orb_true_r.
  - intros -> Hall Hfull Hpage filter next req.
    assert (Hnext : Root.pageURL c params (page + 1) N = next)
      by apply pageURL_written_out.
    assert (Hmore : (length items =? 0)%nat
                    || (Z.of_nat (length items) <? N)
                    || (ItemsParams.PageNumber params >? 0) = false).
    { rewrite !orb_false_iff. split_and!.
      - apply Nat.eqb_neq. lia.
      - apply Z.ltb_ge. lia.
      - destruct (Z.gtb_spec (ItemsParams.PageNumber params) 0);
          [lia | reflexivity]. }
    rewrite Hmore in Hstep.
    rewrite wrapInt_small in Hstep by (unfold Go.minInt, Go.maxInt in *; lia).
    split; [split; reflexivity |].
    split; [apply Hstep |].
    intros Hurl. split_and!.
    + exact (fetchPage_first_request net ctx c next payload w1 Hurl Hmax).
    + rewrite Hstep, pageLoop_step, Hnext. reflexivity.
    + intros result Hloop. subst req. rewrite <- Hnext in Hurl |- *.
      exact (pageLoop_first_request net ctx c params N fuel (page + 1)
               (allItems ++ items) w1 result Hurl Hmax Hloop).
Qed.

(** The first of the two pages is full: the loop goes on with the fetch of
    [...pageNumber=2&pageSize=2], which sends its request and brings the
    second page. *)
Lemma C1_full_page_witness :
  let next :=
    "https://dctrack.example.com/api/v2/quicksearch/items?pageNumber=2&pageSize=2"
  in
  let w := snd (Root.login (rt := Example.runtime) Example.twoPages Background
                  Example.client Example.start) in
  exists items w1 second w2,
    map DCTrackItem.ID items = ["a"; "b"]
    /\ Root.pageLoop (rt := Example.runtime) Example.twoPages 4 Background
         Example.loggedIn ItemsParams.zero 2 1 [] w
       = Root.pageLoop (rt := Example.runtime) Example.twoPages 3 Background
           Example.loggedIn ItemsParams.zero 2 2 items w1
    /\ Root.fetchPage (rt := Example.runtime) Example.twoPages Background
         Example.loggedIn next (JObject []) w1 = (second, None, w2)
    /\ map DCTrackItem.ID second = ["c"; "d"]
    /\ log w2
       = log w1 ++ [Sent (Root.pageRequest Example.loggedIn next (JObject []))]
    /\ (exists all w',
          Root.pageLoop (rt := Example.runtime) Example.twoPages 4 Background
            Example.loggedIn ItemsParams.zero 2 1 [] w
          = Some (all, None, w')
          /\ map DCTrackItem.ID all = ["a"; "b"; "c"; "d"]).
Proof.
  intros next w.
  pose (first := Root.fetchPage (rt := Example.runtime) Example.twoPages
                   Background Example.loggedIn
                   (Root.pageURL Example.loggedIn ItemsParams.zero 1 2)
                   (JObject []) w).
  pose (run := Root.fetchPage (rt := Example.runtime) Example.twoPages
                 Background Example.loggedIn next (JObject []) (snd first)).
  assert (Hfirst : first = (fst (fst first), None, snd first))
    by (vm_compute; reflexivity).
  assert (Hrun : run = (fst (fst run), None, snd run))
    by (vm_compute; reflexivity).
  destruct (proj2 (proj2
              (C1_pagination_stops_or_advances (rt := Example.runtime)
                 Example.twoPages Background Example.config Example.client
                 Example.loggedIn ItemsParams.zero 3 1 []
                 (fst (fst first)) None w (snd first) eq_refl eq_refl Hfirst))
              eq_refl) as (_ & Hgoes & Hrequest).
  - vm_compute. discriminate.
  - vm_compute. discriminate.
  - vm_compute. split; [discriminate | reflexivity].
  - destruct Hrequest as ((rest & Hlog) & _ & Hreturned);
      [vm_compute; reflexivity |].
    exists (fst (fst first)), (snd first), (fst (fst run)), (snd run).
    split_and!.
    + vm_compute. reflexivity.
    + exact Hgoes.
    + exact Hrun.
    + vm_compute. reflexivity.
    + vm_compute. reflexivity.
    + eexists. eexists. split; vm_compute; reflexivity.
Defined.


(** C10. The loop counts the items that were mapped, not the raw records
    of the envelope.  When the envelope of a page carries exactly [N] raw
    records, [N] the page size, and the mapping of one of them fails, the
    page has fewer than [N] items: the loop returns after this page with
    no error, the world as this one request left it, and the items
    accumulated so far followed by those of this page that were mapped. *)
Theorem C10_rejected_record_ends_pagination {rt : GoRuntime} (net : Network)
    (ctx : Context) (cfg : Config.t) (c0 c : Root.Client.t)
    (params : ItemsParams.t) (fuel : nat) (page : Z)
    (allItems : list DCTrackItem.t) (w : World)
    (resp : Response.t) (j : json) (envelope : Root.DCTrackResponse.t) :
  Root.NewClient cfg = (Some c0, None) ->
  Root.Client.config c = Root.Client.config c0 ->
  let N := Root.effectivePageSize c params in
  let url := Root.pageURL c params page N in
  let req := Root.pageRequest c url (Root.buildFieldsPayload c) in
  let w' := {| now := now w; log := log w ++ [Sent req] |} in
  url_Parse_ok url = true ->
  ctxErr ctx (now w) = None ->
  net (log w) req = Reply resp ->
  Response.StatusCode resp = 200 ->
  Response.Body resp = Document j false ->
  Root.Unmarshal j = Some envelope ->
  Z.of_nat (length (Root.DCTrackResponse.Items envelope)) = N ->
  (exists record timeNow,
      In record (Root.DCTrackResponse.Items envelope)
      /\ snd (Root.mapDCTrackRecord timeNow record) <> None) ->
  let items :=
    Root.mapRecords (time_Now w') (Root.DCTrackResponse.Items envelope) in
  Z.of_nat (length items) < N
  /\ Root.pageLoop net (S fuel) ctx c params N page allItems w
     = Some (allItems ++ items, None, w').
Proof.
  intros Hnew Hcfg N url req w' Hurl Hctx Hnet Hok Hbody Hdecode Hcount
    (record & timeNow & Hin & Hrejected) items.
  destruct (NewClient_defaults cfg c0 Hnew) as (_ & Hmax & _).
  rewrite <- Hcfg in Hmax.
  rewrite (mapping_error_any_clock timeNow (time_Now w')) in Hrejected.
  assert (Hshort : Z.of_nat (length items) < N).
  { rewrite <- Hcount. apply Nat2Z.inj_lt.
    exact (mapRecords_rejects (time_Now w') _ record Hin Hrejected). }
  split; [exact Hshort |].
  assert (Hfetch : Root.fetchPage net ctx c url (Root.buildFieldsPayload c) w
                   = (items, None, w')).
  { unfold Root.fetchPage.
    destruct (Z.to_nat (Config.MaxRetries (Root.Client.config c)))
      as [|remaining] eqn:Hn; [lia |].
    assert (Hdo : Do net ctx req w
                  = (Reply resp, {| now := now w; log := log w ++ [Sent req] |})).
    { unfold Do. now rewrite Hctx, Hnet. }
    assert (Hfst : fst (Do net ctx req w) = Reply resp) by now rewrite Hdo.
    rewrite (attempt_succeeds net ctx c url (Root.buildFieldsPayload c)
               remaining 1 None w resp Hurl Hfst Hok).
    fold req. rewrite Hdo. cbn [snd]. f_equal.
    unfold Root.readPage. now rewrite Hbody, Hdecode. }
  rewrite pageLoop_step. fold N url. rewrite Hfetch. unfold lastPage.
  replace (Z.of_nat (length items) <? N) with true
    by (symmetry; apply Z.ltb_lt; lia).
  now rewrite orb_true_r.
Qed.

(** A page of two raw records for a page size of two; the second has no
    identifier.  The loop returns [a] and does not ask for page 2, which
    the service would have served. *)
Lemma C10_rejected_record_witness :
  exists items w',
    Root.pageLoop (rt := Example.runtime) Example.oneRecordRejected 1
      Background Example.loggedIn ItemsParams.zero 2 1 [] Example.start
    = Some (items, None, w')
    /\ map DCTrackItem.ID items = ["a"]
    /\ length (log w') = 1%nat.
Proof.
  eexists. eexists. split.
  - refine (proj2
              (C10_rejected_record_ends_pagination (rt := Example.runtime)
                 Example.oneRecordRejected Background Example.config
                 Example.client Example.loggedIn ItemsParams.zero 0 1 []
                 Example.start _
                 (Example.shapeB "1" [Example.raw "a"; Example.rawWithoutID])
                 _ _ _ _ _ _ _ _ _ _ _)).
    + reflexivity.
    + reflexivity.
    + vm_compute. reflexivity.
    + reflexivity.
    + vm_compute. reflexivity.
    + reflexivity.
    + reflexivity.
    + vm_compute. reflexivity.
    + vm_compute. reflexivity.
    + eexists. exists (time_Now (GoRuntime := Example.runtime) Example.start).
      split.
      * vm_compute. right. left. reflexivity.
      * vm_compute. discriminate.
  - split; vm_compute; reflexivity.
Defined.

(** ** The two envelopes *)

(** C3. Each package decodes one shape of the envelope and passes over the
    other without an error.  The root package reads
    [searchResults.items] and finds no record in a response of shape A;
    the package under [dctrack/] reads [records] and finds no record in a
    response of shape B.  Whatever records the response carries, the page
    comes out empty. *)
Theorem C3_each_decoder_reads_one_shape {rt : GoRuntime} (timeNow : Clock)
    (header : gmap string string) (records : list json)
    (totalRows pageNumber pageSize : string) :
  let reply j :=
    {| Response.StatusCode := 200; Response.Header := header;
       Response.Body := Document j false |} in
  let shapeA := JObject [("records", JArray records)] in
  let shapeB :=
    JObject [("totalRows", JNumber totalRows);
             ("pageNumber", JNumber pageNumber);
             ("pageSize", JNumber pageSize);
             ("searchResults", JObject [("items", JArray records)])] in
  Root.readPage timeNow (reply shapeA) = ([], None)
  /\ Sub.readPage timeNow (reply shapeB) = ([], None).
Proof. split; reflexivity. Qed.

(** The envelope of the integration test of the root package, with the
    wire names of the fields: no item in shape A, one in shape B. *)
Lemma shape_A_against_shape_B :
  let reply j :=
    {| Response.StatusCode := 200; Response.Header := ∅;
       Response.Body := Document j false |} in
  map DCTrackItem.ID
    (fst (Root.readPage (rt := Example.runtime) Example.clock
            (reply (Example.shapeA [Example.raw "test-001"])))) = []
  /\ map DCTrackItem.ID
       (fst (Root.readPage (rt := Example.runtime) Example.clock
               (reply (Example.shapeB "1" [Example.raw "test-001"]))))
     = ["test-001"]
  /\ map DCTrackItem.ID
       (fst (Sub.readPage (rt := Example.runtime) Example.clock
               (reply (Example.shapeA [Example.raw "test-001"]))))
     = ["test-001"]
  /\ map DCTrackItem.ID
       (fst (Sub.readPage (rt := Example.runtime) Example.clock
               (reply (Example.shapeB "1" [Example.raw "test-001"])))) = [].
Proof. vm_compute. repeat split; reflexivity. Qed.

(** ** The mappers *)

Section Mappers.
Context {rt : GoRuntime}.

Lemma Root_getString_missing (record : record) (key : string) :
  record !! key = None \/ record !! key = Some VNil ->
  Root.getString record key = "".
Proof. unfold Root.getString. now intros [-> | ->]. Qed.


Lemma Sub_getString_missing (record : record) (key : string) :
  record !! key = None \/ record !! key = Some VNil ->
  Sub.getString record key = "".
Proof. unfold Sub.getString. now intros [-> | ->]. Qed.


(** The error of the root mapper: the first required field that is empty. *)
Lemma Root_required_fields (timeNow : Clock) (record : record) :
  snd (Root.mapDCTrackRecord timeNow record)
  = if Go.eqb (Root.getString record "id") "" then
      Some (errorString "missing required field: id")
    else if Go.eqb (Root.getString record "tiName") "" then
      Some (errorString "missing required field: tiName")
    else if Go.eqb (Root.getString record "tiClass") "" then
      Some (errorString "missing required field: tiClass")
    else if Go.eqb (Root.getString record "cmbStatus") "" then
      Some (errorString "missing required field: cmbStatus")
    else if Go.eqb (Root.getString record "cmbLocation") "" then
      Some (errorString "missing required field: cmbLocation")
    else None.
Proof.
  unfold Root.mapDCTrackRecord. cbv zeta.
  cbn [DCTrackItem.ID DCTrackItem.Name DCTrackItem.ItemClass
       DCTrackItem.Status DCTrackItem.Location].
  repeat match goal with
         | |- context [Go.eqb ?a ""] => destruct (Go.eqb a "")
         end; reflexivity.
Qed.

(** The mapper of [dctrack/] returns no error. *)
Lemma Sub_accepts (timeNow : Clock) (record : record) :
  snd (Sub.mapDCTrackRecord timeNow record) = None.
Proof. reflexivity. Qed.

(** The loop of [dctrack/] keeps every record. *)
Lemma Sub_mapRecords_all (timeNow : Clock) (records : list record) :
  Sub.mapRecords timeNow records
  = map (fun '(timeNow, record) => fst (Sub.mapDCTrackRecord timeNow record))
      (Sub.schedule timeNow records).
Proof.
  revert timeNow.
  induction records as [|record records IH]; intros timeNow; [reflexivity |].
  cbn [Sub.mapRecords Sub.schedule map]. rewrite <- IH. reflexivity.
Qed.

Lemma Sub_mapRecords_app (timeNow : Clock) (before after : list record) :
  Sub.mapRecords timeNow (before ++ after)
  = Sub.mapRecords timeNow before
    ++ Sub.mapRecords (Sub.clockAfter timeNow before) after.
Proof.
  revert timeNow.
  induction before as [|record before IH]; intros timeNow; [reflexivity |].
  change (Sub.mapRecords timeNow ((record :: before) ++ after))
    with (fst (Sub.mapDCTrackRecord timeNow record)
          :: Sub.mapRecords (later (Sub.timeNowCalls record) timeNow)
               (before ++ after)).
  rewrite IH. reflexivity.
Qed.

Lemma Sub_clockAfter_app (timeNow : Clock) (before after : list record) :
  Sub.clockAfter timeNow (before ++ after)
  = Sub.clockAfter (Sub.clockAfter timeNow before) after.
Proof.
  revert timeNow.
  induction before as [|record before IH]; intros timeNow; [reflexivity |].
  cbn [Sub.clockAfter app]. apply IH.
Qed.







End Mappers.

(** The same record without identifier under the two mappers: the root
    package rejects it, the package under [dctrack/] accepts it with an
    empty identifier.  The repository does not follow one policy. *)
Lemma C6_two_policies_counterexample :
  snd (Root.mapDCTrackRecord (rt := Example.runtime) Example.clock Example.recordWithoutID)
  = Some (errorString "missing required field: id")
  /\ snd (Sub.mapDCTrackRecord (rt := Example.runtime) Example.clock
            Example.recordWithoutID) = None
  /\ DCTrackItem.ID
       (fst (Sub.mapDCTrackRecord (rt := Example.runtime) Example.clock
               Example.recordWithoutID)) = "".
Proof. vm_compute. repeat split; reflexivity. Qed.

(** C6, amended. Each package follows one policy for a record whose
    identifier is absent or [null], and the two policies differ.  The
    root package always rejects it with the error
    [missing required field: id], and its [fetchPage] passes over the
    record and maps the records before and after it.  The package under
    [dctrack/] always accepts it: the mapping returns no error and an item
    whose identifier is empty, which stays in the page. *)
Theorem C6_missing_id_policy_per_package {rt : GoRuntime} (timeNow : Clock)
    (before after : list record) (record : record) :
  record !! "id" = None \/ record !! "id" = Some VNil ->
  snd (Root.mapDCTrackRecord timeNow record)
  = Some (errorString "missing required field: id")
  /\ Root.mapRecords timeNow (before ++ record :: after)
     = Root.mapRecords timeNow before
       ++ Root.mapRecords (Root.clockAfter timeNow (before ++ [record])) after
  /\ snd (Sub.mapDCTrackRecord timeNow record) = None
  /\ DCTrackItem.ID (fst (Sub.mapDCTrackRecord timeNow record)) = ""
  /\ Sub.mapRecords timeNow (before ++ record :: after)
     = Sub.mapRecords timeNow before
       ++ fst (Sub.mapDCTrackRecord (Sub.clockAfter timeNow before) record)
          :: Sub.mapRecords (Sub.clockAfter timeNow (before ++ [record]))
               after.
Proof.
  intros Hid.
  assert (Hrejected : snd (Root.mapDCTrackRecord timeNow record)
                      = Some (errorString "missing required field: id")).
  { rewrite Root_required_fields, (Root_getString_missing _ _ Hid).
    reflexivity. }
  split_and!.
  - exact Hrejected.
  - apply mapRecords_skips. rewrite Hrejected. discriminate.
  - reflexivity.
  - change (Sub.getString record "id" = "").
    now apply Sub_getString_missing.
  - rewrite Sub_mapRecords_app, Sub_clockAfter_app. reflexivity.
Qed.

(** A page of three raw records, the second without identifier: the root
    package returns the first and the third. *)
Lemma C6_missing_id_witness :
  map DCTrackItem.ID
    (Root.mapRecords (rt := Example.runtime) Example.clock
       ([Example.fullWireRecord] ++ Example.recordWithoutID
          :: [Example.fullWireRecord]))
  = ["t1"; "t1"].
Proof.
  rewrite (proj1 (proj2
             (C6_missing_id_policy_per_package (rt := Example.runtime)
                Example.clock
                [Example.fullWireRecord] [Example.fullWireRecord]
                Example.recordWithoutID (or_introl eq_refl)))).
  vm_compute. reflexivity.
Defined.




(** * Further properties of the code *)

(** ** Making a client *)

(** X1. [New] fails on the first of URL, user name and password that is
    empty, and otherwise returns the client of the defaults it writes down:
    [NewClient] finds nothing to replace in them. *)
Theorem Root_New_outcome (url username password : string) :
  Root.New url username password
  = if Go.eqb url "" then
      (None, Some (wrapError "invalid configuration: "
                     (Some (errorString "URL is required"))))
    else if Go.eqb username "" then
      (None, Some (wrapError "invalid configuration: "
                     (Some (errorString "Username is required"))))
    else if Go.eqb password "" then
      (None, Some (wrapError "invalid configuration: "
                     (Some (errorString "Password is required"))))
    else
      (Some {| Root.Client.config :=
                 {| Config.URL := url; Config.Username := username;
                    Config.Password := password; Config.PageSize := 1000;
                    Config.MaxRetries := 3; Config.RetryDelay := Go.Second;
                    Config.VerifySSL := true;
                    Config.RequestAllFields := true |};
               Root.Client.token := "" |}, None).
Proof.
  unfold Root.New, Root.NewClient, Root.validateConfig, Go.eqb. cbn.
  destruct (String.eqb url ""); [reflexivity |].
  destruct (String.eqb username ""); [reflexivity |].
  destruct (String.eqb password ""); reflexivity.
Qed.

(** [NewClient] succeeds exactly on a configuration whose URL, user name
    and password are not empty. *)
Lemma NewClient_succeeds (cfg : Config.t) :
  (exists c, Root.NewClient cfg = (Some c, None))
  <-> Config.URL cfg <> "" /\ Config.Username cfg <> ""
      /\ Config.Password cfg <> "".
Proof.
  unfold Root.NewClient, Root.validateConfig.
  destruct (Go.eqb (Config.URL cfg) "") eqn:Hurl.
  { apply eqb_empty in Hurl. split; [intros [c [=]] | tauto]. }
  destruct (Go.eqb (Config.Username cfg) "") eqn:Huser.
  { apply eqb_empty in Huser. split; [intros [c [=]] | tauto]. }
  destruct (Go.eqb (Config.Password cfg) "") eqn:Hpass.
  { apply eqb_empty in Hpass. split; [intros [c [=]] | tauto]. }
  apply eqb_not_empty in Hurl, Huser, Hpass. split; [tauto | eauto].
Qed.

(** X2. The client [NewClient] returns is in normal form: its page size,
    number of attempts and delay are positive, those of the caller where
    these were positive; and [NewClient] on its configuration returns the
    same client. *)
Theorem NewClient_normal_form (cfg : Config.t) (c : Root.Client.t) :
  Root.NewClient cfg = (Some c, None) ->
  let config := Root.Client.config c in
  (0 < Config.PageSize config /\ 0 < Config.MaxRetries config
   /\ 0 < Config.RetryDelay config)
  /\ (0 < Config.PageSize cfg -> Config.PageSize config = Config.PageSize cfg)
  /\ (0 < Config.MaxRetries cfg ->
      Config.MaxRetries config = Config.MaxRetries cfg)
  /\ (0 < Config.RetryDelay cfg ->
      Config.RetryDelay config = Config.RetryDelay cfg)
  /\ Root.Client.token c = ""
  /\ Root.NewClient config = (Some c, None).
Proof.
  intros Hnew config.
  pose proof (NewClient_defaults cfg c Hnew) as (Hsize & Hmax & Hdelay).
  fold config in Hsize, Hmax, Hdelay.
  revert Hnew. unfold Root.NewClient.
  destruct (Root.validateConfig cfg) eqn:Hvalid; [discriminate |].
  intros [= Hc].
  assert (Hvalid' : Root.validateConfig config = None).
  { subst config. rewrite <- Hc. exact Hvalid. }
  split_and!; try tauto.
  - intros Hpos. subst config. rewrite <- Hc. cbn.
    destruct (Z.leb_spec (Config.PageSize cfg) 0); [lia | reflexivity].
  - intros Hpos. subst config. rewrite <- Hc. cbn.
    destruct (Z.leb_spec (Config.MaxRetries cfg) 0); [lia | reflexivity].
  - intros Hpos. subst config. rewrite <- Hc. cbn.
    destruct (Z.leb_spec (Config.RetryDelay cfg) 0); [lia | reflexivity].
  - now rewrite <- Hc.
  - rewrite Hvalid'.
    destruct (Z.leb_spec (Config.PageSize config) 0); [lia |].
    destruct (Z.leb_spec (Config.MaxRetries config) 0); [lia |].
    destruct (Z.leb_spec (Config.RetryDelay config) 0); [lia |].
    subst config. rewrite <- Hc. reflexivity.
Qed.

(** A configuration without page size, attempts or delay. *)
Lemma NewClient_normal_form_witness :
  let cfg :=
    {| Config.URL := "https://dctrack.example.com/api/v2";
       Config.Username := "testuser"; Config.Password := "testpass";
       Config.PageSize := 0; Config.MaxRetries := 0; Config.RetryDelay := 0;
       Config.VerifySSL := false; Config.RequestAllFields := false |} in
  let c :=
    {| Root.Client.config :=
         {| Config.URL := "https://dctrack.example.com/api/v2";
            Config.Username := "testuser"; Config.Password := "testpass";
            Config.PageSize := 1000; Config.MaxRetries := 3;
            Config.RetryDelay := Go.Second;
            Config.VerifySSL := false; Config.RequestAllFields := false |};
       Root.Client.token := "" |} in
  Root.NewClient cfg = (Some c, None)
  /\ Root.NewClient (Root.Client.config c) = (Some c, None).
Proof.
  intros cfg c.
  pose proof (NewClient_normal_form cfg c eq_refl)
    as (_ & _ & _ & _ & _ & Hagain).
  split; [reflexivity | exact Hagain].
Defined.

(** ** Making a client, under [dctrack/] *)

Lemma Validate_outcome (cfg cfg' : Config.t) :
  Sub.Validate cfg = (None, cfg') ->
  (Config.URL cfg <> "" /\ Config.Username cfg <> ""
   /\ Config.Password cfg <> "")
  /\ Config.URL cfg' = Config.URL cfg
  /\ Config.Username cfg' = Config.Username cfg
  /\ Config.Password cfg' = Config.Password cfg
  /\ Config.PageSize cfg'
     = (if Config.PageSize cfg <=? 0 then 1000 else Config.PageSize cfg)
  /\ Config.MaxRetries cfg'
     = (if Config.MaxRetries cfg <? 0 then 3 else Config.MaxRetries cfg)
  /\ Config.RetryDelay cfg'
     = (if Config.RetryDelay cfg <=? 0 then Go.Second
        else Config.RetryDelay cfg).
Proof.
  unfold Sub.Validate.
  destruct (Go.eqb (Config.URL cfg) "") eqn:Hurl; [discriminate |].
  destruct (Go.eqb (Config.Username cfg) "") eqn:Huser; [discriminate |].
  destruct (Go.eqb (Config.Password cfg) "") eqn:Hpass; [discriminate |].
  apply eqb_not_empty in Hurl, Huser, Hpass.
  intros [= <-]. cbn. tauto.
Qed.

(** X3. Whatever the options, the client [New] returns has a positive page
    size and delay and a number of attempts that is not negative, and
    [Validate] leaves its configuration as it is.  The number of attempts
    may be zero: [Validate] replaces a negative number only. *)
Theorem Sub_New_configuration (url username password : string)
    (opts : list Sub.Option) (c : Sub.Client.t) :
  Sub.New url username password opts = (Some c, None) ->
  let config := Sub.Client.config c in
  0 < Config.PageSize config
  /\ 0 <= Config.MaxRetries config
  /\ 0 < Config.RetryDelay config
  /\ Sub.Client.token c = ""
  /\ Sub.Validate config = (None, config).
Proof.
  intros Hnew config. unfold Sub.New in Hnew. cbv zeta in Hnew.
  destruct (Sub.Validate
              (Sub.applyOptions opts (Sub.DefaultConfig url username password)))
    as [[err|] cfg'] eqn:Hvalid; [discriminate |].
  injection Hnew as <-. subst config. cbn [Sub.NewClient Sub.Client.config
                                           Sub.Client.token].
  destruct (Validate_outcome _ _ Hvalid)
    as ((Hurl & Huser & Hpass) & Hu & Hn & Hp & Hsize & Hmax & Hdelay).
  assert (Hsize' : 0 < Config.PageSize cfg').
  { rewrite Hsize. destruct (Z.leb_spec (Config.PageSize
      (Sub.applyOptions opts (Sub.DefaultConfig url username password))) 0);
      lia. }
  assert (Hmax' : 0 <= Config.MaxRetries cfg').
  { rewrite Hmax. destruct (Z.ltb_spec (Config.MaxRetries
      (Sub.applyOptions opts (Sub.DefaultConfig url username password))) 0);
      lia. }
  assert (Hdelay' : 0 < Config.RetryDelay cfg').
  { rewrite Hdelay. unfold Go.Second. destruct (Z.leb_spec (Config.RetryDelay
      (Sub.applyOptions opts (Sub.DefaultConfig url username password))) 0);
      lia. }
  split_and!; try assumption; try reflexivity.
  unfold Sub.Validate.
  rewrite <- Hu in Hurl. rewrite <- Hn in Huser. rewrite <- Hp in Hpass.
  apply eqb_not_empty in Hurl, Huser, Hpass. rewrite Hurl, Huser, Hpass.
  destruct (Z.leb_spec (Config.PageSize cfg') 0); [lia |].
  destruct (Z.ltb_spec (Config.MaxRetries cfg') 0); [lia |].
  destruct (Z.leb_spec (Config.RetryDelay cfg') 0); [lia |].
  now destruct cfg'.
Qed.

(** The options of the second program of [examples/basic_usage]. *)
Lemma Sub_New_configuration_witness :
  exists c,
    Sub.New "https://dctrack.example.com/api/v2" "testuser" "testpass"
      [Sub.WithPageSize 500; Sub.WithMaxRetries 5; Sub.WithLimitedFields]
    = (Some c, None)
    /\ Sub.Validate (Sub.Client.config c) = (None, Sub.Client.config c).
Proof.
  eexists. split; [reflexivity |].
  refine (proj2 (proj2 (proj2 (proj2
            (Sub_New_configuration
               "https://dctrack.example.com/api/v2" "testuser" "testpass"
               [Sub.WithPageSize 500; Sub.WithMaxRetries 5;
                Sub.WithLimitedFields] _ _))))).
  reflexivity.
Defined.

Section NoAttempt.
Context {rt : GoRuntime}.
Variable net : Network.

(** Without an attempt allowed, [fetchPage] of [dctrack/] returns its
    last statement: no request, and an error that wraps [nil]. *)
Lemma Sub_fetchPage_no_attempt (ctx : Context) (c : Sub.Client.t)
    (url : string) (payload : json) (w : World) :
  Config.MaxRetries (Sub.Client.config c) <= 0 ->
  Sub.fetchPage net ctx c url payload w
  = ([], Some (wrapError "all retry attempts failed, last error: " None), w).
Proof.
  intros Hmax. unfold Sub.fetchPage.
  replace (Z.to_nat (Config.MaxRetries (Sub.Client.config c))) with 0%nat
    by lia.
  reflexivity.
Qed.

Lemma Sub_login_config (ctx : Context) (c : Sub.Client.t) (w : World) :
  Sub.Client.config (snd (fst (Sub.login net ctx c w))) = Sub.Client.config c.
Proof.
  unfold Sub.login.
  destruct (negb (url_Parse_ok _)); [reflexivity |].
  destruct (Do net ctx (Sub.loginRequest c) w) as [[err | resp] w1];
    [reflexivity |].
  destruct (negb (Response.StatusCode resp =? Go.StatusOK)); [reflexivity |].
  cbv zeta. destruct (Go.eqb (Response.Get resp "Authorization") "");
    [reflexivity |].
  destruct ((Go.len (Response.Get resp "Authorization") >? 7)
            && Go.eqb (Go.slice_to 7 (Response.Get resp "Authorization"))
                 "Bearer "); reflexivity.
Qed.

End NoAttempt.

(** X4. [WithMaxRetries(0)] is accepted by [New].  The client it gives never
    requests a page: once logged in, [GetItemsWithParams] fails with
    [all retry attempts failed, last error: ] around a [nil] error, and the
    world is as [login] left it. *)
Theorem Sub_zero_retries_never_requests_a_page {rt : GoRuntime}
    (url username password : string) :
  url <> "" -> username <> "" -> password <> "" ->
  exists c,
    Sub.New url username password [Sub.WithMaxRetries 0] = (Some c, None)
    /\ Config.MaxRetries (Sub.Client.config c) = 0
    /\ forall (net : Network) (fuel : nat) (ctx : Context)
         (params : ItemsParams.t) (w w1 : World) (c1 : Sub.Client.t),
         Sub.login net ctx c w = (None, c1, w1) ->
         Sub.GetItemsWithParams net (S fuel) ctx c params w
         = Some ([],
                 Some (wrapError "all retry attempts failed, last error: "
                         None),
                 c1, w1).
Proof.
  intros Hurl Huser Hpass.
  apply eqb_not_empty in Hurl, Huser, Hpass.
  unfold Go.eqb in Hurl, Huser, Hpass.
  unfold Sub.New, Sub.Validate, Go.eqb. cbn. rewrite Hurl, Huser, Hpass.
  eexists. split; [reflexivity |]. split; [reflexivity |].
  intros net fuel ctx params w w1 c1 Hlogin.
  match type of Hlogin with
  | Sub.login _ _ ?c _ = _ =>
      pose proof (Sub_login_config net ctx c w) as Hconfig
  end.
  unfold Sub.GetItemsWithParams. rewrite Hlogin in Hconfig |- *.
  cbn [fst snd] in Hconfig. cbn [Sub.pageLoop].
  rewrite Sub_fetchPage_no_attempt by (rewrite Hconfig; cbn; lia).
  reflexivity.
Qed.

(** Against the service of the examples, whose login succeeds: no page
    is requested. *)
Lemma Sub_zero_retries_witness :
  exists c c1 w1,
    Sub.New Example.baseURL "testuser" "testpass" [Sub.WithMaxRetries 0]
    = (Some c, None)
    /\ Sub.GetItemsWithParams (rt := Example.runtime) Example.twoPages 1
         Background c ItemsParams.zero Example.start
       = Some ([],
               Some (wrapError "all retry attempts failed, last error: " None),
               c1, w1)
    /\ log w1 = [Sent (Sub.loginRequest c)].
Proof.
  destruct (Sub_zero_retries_never_requests_a_page (rt := Example.runtime)
              Example.baseURL "testuser" "testpass")
    as (c & Hnew & Hmax & Hrun); [discriminate | discriminate | discriminate |].
  exists c. injection Hnew as <-.
  eexists. eexists. split; [reflexivity |]. split.
  - apply Hrun. vm_compute. reflexivity.
  - reflexivity.
Defined.

(** ** Searching *)

(** X5. The root package refuses an empty query before it contacts the
    service: no login, the world and the client as they were.  The package
    under [dctrack/] does not test the query: an empty one is [GetItems].
    A query that is not empty is appended to the URL of each page as it
    is. *)
Theorem SearchItems_empty_query {rt : GoRuntime} (net : Network) (fuel : nat)
    (ctx : Context) (w : World) :
  (forall c : Root.Client.t,
      Root.SearchItems net fuel ctx c "" w
      = Some ([], Some (errorString "search query cannot be empty"), c, w))
  /\ (forall c : Sub.Client.t,
         Sub.SearchItems net fuel ctx c "" w = Sub.GetItems net fuel ctx c w)
  /\ (forall (c : Root.Client.t) (query : string) (page pageSize : Z),
         query <> "" ->
         Root.SearchItems net fuel ctx c query w
         = Root.GetItemsWithParams net fuel ctx c (Root.searchParams query) w
         /\ Root.pageURL c (Root.searchParams query) page pageSize
            = Config.URL (Root.Client.config c)
              +:+ "/quicksearch/items?pageNumber=" +:+ Go.itoa page
              +:+ "&pageSize=" +:+ Go.itoa pageSize
              +:+ "&searchText=" +:+ query).
Proof.
  split_and!; [reflexivity | reflexivity |].
  intros c query page pageSize Hquery. apply eqb_not_empty in Hquery.
  unfold Root.SearchItems, Root.pageURL. cbn. unfold Go.eqb in *.
  rewrite Hquery. cbn. split; [reflexivity |].
  now rewrite !string_app_assoc.
Qed.

(** ** Filters that reach no request *)

Section UnusedFilters.
Context {rt : GoRuntime}.
Variable net : Network.

(** The loop reads its parameters through the URL of the page and the
    test of the page number. *)
Lemma Root_pageLoop_params (fuel : nat) (ctx : Context) (c : Root.Client.t)
    (params1 params2 : ItemsParams.t) (pageSize page : Z)
    (allItems : list DCTrackItem.t) (w : World) :
  (forall page, Root.pageURL c params1 page pageSize
                = Root.pageURL c params2 page pageSize) ->
  ItemsParams.PageNumber params1 = ItemsParams.PageNumber params2 ->
  Root.pageLoop net fuel ctx c params1 pageSize page allItems w
  = Root.pageLoop net fuel ctx c params2 pageSize page allItems w.
Proof.
  intros Hurl Hnumber. revert page allItems w.
  induction fuel as [|fuel IH]; intros page allItems w; [reflexivity |].
  cbn [Root.pageLoop]. rewrite Hurl, Hnumber.
  destruct (Root.fetchPage net ctx c (Root.pageURL c params2 page pageSize)
              (Root.buildFieldsPayload c) w) as [[items [err|]] w1];
    [reflexivity |].
  destruct (length items =? 0)%nat; [reflexivity |].
  destruct (Z.of_nat (length items) <? pageSize); [reflexivity |].
  destruct (ItemsParams.PageNumber params2 >? 0); [reflexivity |].
  apply IH.
Qed.

Lemma Sub_pageLoop_params (fuel : nat) (ctx : Context) (c : Sub.Client.t)
    (params1 params2 : ItemsParams.t) (pageSize page : Z)
    (allItems : list DCTrackItem.t) (w : World) :
  (forall page, Sub.pageURL c params1 page pageSize
                = Sub.pageURL c params2 page pageSize) ->
  ItemsParams.PageNumber params1 = ItemsParams.PageNumber params2 ->
  Sub.pageLoop net fuel ctx c params1 pageSize page allItems w
  = Sub.pageLoop net fuel ctx c params2 pageSize page allItems w.
Proof.
  intros Hurl Hnumber. revert page allItems w.
  induction fuel as [|fuel IH]; intros page allItems w; [reflexivity |].
  cbn [Sub.pageLoop]. rewrite Hurl, Hnumber.
  destruct (Sub.fetchPage net ctx c (Sub.pageURL c params2 page pageSize)
              (Sub.buildStandardFieldsPayload c) w) as [[items [err|]] w1];
    [reflexivity |].
  destruct (length items =? 0)%nat; [reflexivity |].
  destruct (Z.of_nat (length items) <? pageSize); [reflexivity |].
  cbv zeta. destruct (ItemsParams.PageNumber params2 >? 0); [reflexivity |].
  apply IH.
Qed.

End UnusedFilters.

(** X6. [GetItemsWithParams] does not read the filters [ItemClass], [Make]
    and [Model], in either package: whatever they are set to, the
    operation sends the same requests and returns the same result.  So
    the preset [ByVendor] fetches what [InstalledOnly] fetches. *)
Theorem ItemClass_Make_Model_reach_no_request {rt : GoRuntime} (net : Network)
    (fuel : nat) (ctx : Context) (params : ItemsParams.t)
    (itemClass make model : string) (w : World) :
  let params' :=
    {| ItemsParams.PageNumber := ItemsParams.PageNumber params;
       ItemsParams.PageSize := ItemsParams.PageSize params;
       ItemsParams.Location := ItemsParams.Location params;
       ItemsParams.Status := ItemsParams.Status params;
       ItemsParams.ItemClass := itemClass;
       ItemsParams.Make := make;
       ItemsParams.Model := model;
       ItemsParams.SearchText := ItemsParams.SearchText params |} in
  (forall c : Root.Client.t,
      Root.GetItemsWithParams net fuel ctx c params' w
      = Root.GetItemsWithParams net fuel ctx c params w)
  /\ (forall c : Sub.Client.t,
         Sub.GetItemsWithParams net fuel ctx c params' w
         = Sub.GetItemsWithParams net fuel ctx c params w)
  /\ (forall c : Root.Client.t,
         Root.GetItemsWithParams net fuel ctx c (ByVendor make) w
         = Root.GetItemsWithParams net fuel ctx c InstalledOnly w)
  /\ (forall c : Sub.Client.t,
         Sub.GetItemsWithParams net fuel ctx c (ByVendor make) w
         = Sub.GetItemsWithParams net fuel ctx c InstalledOnly w).
Proof.
  intros params'.
  assert (Hroot : forall (c : Root.Client.t) p1 p2,
             ItemsParams.PageNumber p1 = ItemsParams.PageNumber p2 ->
             ItemsParams.PageSize p1 = ItemsParams.PageSize p2 ->
             ItemsParams.Location p1 = ItemsParams.Location p2 ->
             ItemsParams.Status p1 = ItemsParams.Status p2 ->
             ItemsParams.SearchText p1 = ItemsParams.SearchText p2 ->
             Root.GetItemsWithParams net fuel ctx c p1 w
             = Root.GetItemsWithParams net fuel ctx c p2 w).
  { intros c p1 p2 Hnumber Hsize Hlocation Hstatus Htext.
    unfold Root.GetItemsWithParams.
    destruct (Root.login net ctx c w) as [[[err|] c1] w1]; [reflexivity |].
    unfold Root.startPage, Root.effectivePageSize. rewrite Hnumber, Hsize.
    rewrite (Root_pageLoop_params net fuel ctx c1 p1 p2); [reflexivity | |
      exact Hnumber].
    intros page. unfold Root.pageURL. now rewrite Hlocation, Hstatus, Htext. }
  assert (Hsub : forall (c : Sub.Client.t) p1 p2,
             ItemsParams.PageNumber p1 = ItemsParams.PageNumber p2 ->
             ItemsParams.PageSize p1 = ItemsParams.PageSize p2 ->
             ItemsParams.Location p1 = ItemsParams.Location p2 ->
             ItemsParams.Status p1 = ItemsParams.Status p2 ->
             ItemsParams.SearchText p1 = ItemsParams.SearchText p2 ->
             Sub.GetItemsWithParams net fuel ctx c p1 w
             = Sub.GetItemsWithParams net fuel ctx c p2 w).
  { intros c p1 p2 Hnumber Hsize Hlocation Hstatus Htext.
    unfold Sub.GetItemsWithParams.
    destruct (Sub.login net ctx c w) as [[[err|] c1] w1]; [reflexivity |].
    cbv zeta. rewrite Hnumber, Hsize.
    rewrite (Sub_pageLoop_params net fuel ctx c1 p1 p2); [reflexivity | |
      exact Hnumber].
    intros page. unfold Sub.pageURL. now rewrite Hlocation, Hstatus, Htext. }
  split_and!; intros c; first [now apply Hroot | now apply Hsub].
Qed.

(** ** Looking an item up by its identifier *)

Lemma firstByID_found (id : string) (items : list DCTrackItem.t)
    (item : DCTrackItem.t) :
  Root.firstByID id items = Some item
  <-> exists before after,
        items = before ++ item :: after
        /\ DCTrackItem.ID item = id
        /\ Forall (fun other => DCTrackItem.ID other <> id) before.
Proof.
  induction items as [|first items IH]; cbn [Root.firstByID].
  - split; [discriminate |]. intros (before & after & Heq & _).
    now destruct before.
  - unfold Go.eqb. destruct (String.eqb_spec (DCTrackItem.ID first) id)
      as [Hid | Hid].
    + split.
      * intros [= <-]. exists [], items. now split_and!.
      * intros (before & after & Heq & Hitem & Hbefore).
        destruct before as [|other before]; [now injection Heq as -> |].
        injection Heq as <- _. inversion Hbefore; contradiction.
    + rewrite IH. split.
      * intros (before & after & -> & Hitem & Hbefore).
        exists (first :: before), after. split_and!; [reflexivity | assumption |].
        now constructor.
      * intros (before & after & Heq & Hitem & Hbefore).
        destruct before as [|other before].
        -- injection Heq as -> _. contradiction.
        -- injection Heq as _ ->. exists before, after.
           inversion Hbefore. now split_and!.
Qed.

Lemma firstByID_none (id : string) (items : list DCTrackItem.t) :
  Root.firstByID id items = None
  <-> Forall (fun other => DCTrackItem.ID other <> id) items.
Proof.
  induction items as [|first items IH]; cbn [Root.firstByID].
  - split; [constructor | reflexivity].
  - unfold Go.eqb. destruct (String.eqb_spec (DCTrackItem.ID first) id)
      as [Hid | Hid].
    + split; [discriminate |]. inversion 1; contradiction.
    + rewrite IH. split; [now constructor | now inversion 1].
Qed.

(** X7. When the search for [id] brings [items], [GetItemByID] returns the
    first of them whose identifier is [id], compared byte for byte, and
    the error [item with ID ... not found] exactly when none has it. *)
Theorem GetItemByID_first_match {rt : GoRuntime} (net : Network) (fuel : nat)
    (ctx : Context) (c c' : Root.Client.t) (id : string) (w w' : World)
    (items : list DCTrackItem.t) :
  Root.GetItemsWithParams net fuel ctx c (Root.byIDParams id) w
  = Some (items, None, c', w') ->
  (forall item,
      Root.GetItemByID net fuel ctx c id w = Some (Some item, None, c', w')
      <-> exists before after,
            items = before ++ item :: after
            /\ DCTrackItem.ID item = id
            /\ Forall (fun other => DCTrackItem.ID other <> id) before)
  /\ (Root.GetItemByID net fuel ctx c id w
      = Some (None,
              Some (errorString ("item with ID " +:+ id +:+ " not found")),
              c', w')
      <-> Forall (fun other => DCTrackItem.ID other <> id) items).
Proof.
  intros Hitems. unfold Root.GetItemByID. rewrite Hitems. split.
  - intros item. rewrite <- firstByID_found.
    destruct (Root.firstByID id items) as [found|]; split; congruence.
  - rewrite <- firstByID_none.
    destruct (Root.firstByID id items) as [found|]; split; congruence.
Qed.

(** The search for [b] brings [ab] and then [b]: [GetItemByID] returns
    the second. *)
Lemma GetItemByID_first_match_witness :
  exists item w',
    Root.GetItemByID (rt := Example.runtime) Example.searchB 4 Background
      Example.client "b" Example.start
    = Some (Some item, None, Example.loggedIn, w')
    /\ DCTrackItem.Name item = "Server b".
Proof.
  pose (run := Root.GetItemsWithParams (rt := Example.runtime) Example.searchB
                 4 Background Example.client (Root.byIDParams "b")
                 Example.start).
  pose (items := default [] (fst <$> (fst <$> (fst <$> run)))).
  pose (w' := default Example.start (snd <$> run)).
  assert (Hrun : run = Some (items, None, Example.loggedIn, w'))
    by (vm_compute; reflexivity).
  pose (item := default (fst (Root.mapDCTrackRecord (rt := Example.runtime) Example.clock
                                 Example.fullWireRecord))
                  (last items)).
  exists item, w'. split; [| vm_compute; reflexivity].
  apply (proj1 (GetItemByID_first_match (rt := Example.runtime)
                  Example.searchB 4 Background Example.client Example.loggedIn
                  "b" Example.start w' items Hrun)).
  exists (take 1 items), []. split_and!.
  - vm_compute. reflexivity.
  - vm_compute. reflexivity.
  - repeat constructor. vm_compute. discriminate.
Defined.

(** ** A loop without a bound *)

Section Endless.
Context {rt : GoRuntime}.
Variable net : Network.
Variables (ctx : Context) (c : Root.Client.t) (params : ItemsParams.t).
Variable pageSize : Z.

(** X8. The page loop has no limit of its own.  Against a service that
    answers every page number with a page after which the loop goes on (a
    page that is full, for a caller who gave no page number), no number of
    iterations brings a result: the operation does not return. *)
Theorem pagination_has_no_bound :
  (forall page w, exists items w1,
      Root.fetchPage net ctx c (Root.pageURL c params page pageSize)
        (Root.buildFieldsPayload c) w = (items, None, w1)
      /\ lastPage params pageSize items = false) ->
  forall fuel page allItems w,
    Root.pageLoop net fuel ctx c params pageSize page allItems w = None.
Proof.
  intros Hfull fuel.
  induction fuel as [|fuel IH]; intros page allItems w; [reflexivity |].
  rewrite pageLoop_step.
  destruct (Hfull page w) as (items & w1 & -> & ->). apply IH.
Qed.

(** X9. [GetItemByID] asks for pages of one item and no page number, so that
    a page that holds an item, the one looked for or another, does not end
    its loop: it requests the next page. *)
Theorem GetItemByID_goes_on_after_a_match (id : string) (fuel : nat)
    (page : Z) (allItems items : list DCTrackItem.t) (w w1 : World) :
  Root.fetchPage net ctx c
    (Root.pageURL c (Root.byIDParams id) page
       (Root.effectivePageSize c (Root.byIDParams id)))
    (Root.buildFieldsPayload c) w = (items, None, w1) ->
  items <> [] ->
  Root.effectivePageSize c (Root.byIDParams id) = 1
  /\ Root.startPage (Root.byIDParams id) = 1
  /\ Root.pageLoop net (S fuel) ctx c (Root.byIDParams id)
       (Root.effectivePageSize c (Root.byIDParams id)) page allItems w
     = Root.pageLoop net fuel ctx c (Root.byIDParams id)
         (Root.effectivePageSize c (Root.byIDParams id))
         (Go.wrapInt (page + 1)) (allItems ++ items) w1.
Proof.
  intros Hfetch Hitems. split; [reflexivity |]. split; [reflexivity |].
  rewrite pageLoop_step, Hfetch.
  replace (lastPage (Root.byIDParams id)
             (Root.effectivePageSize c (Root.byIDParams id)) items)
    with false; [reflexivity |].
  destruct items as [|item items]; [contradiction |].
  unfold lastPage. cbn [length Nat.eqb orb Root.byIDParams
                        ItemsParams.PageNumber].
  change (Root.effectivePageSize c (Root.byIDParams id)) with 1.
  symmetry. apply orb_false_intro; [apply Z.ltb_ge; lia | reflexivity].
Qed.

End Endless.

(** The service that answers every page number with the page [a b]:
    a thousand iterations bring no result. *)
Lemma pagination_has_no_bound_witness :
  Root.pageLoop (rt := Example.lenient) Example.endless 1000 Background
    Example.loggedIn ItemsParams.zero 2 1 [] Example.start = None.
Proof.
  apply (pagination_has_no_bound (rt := Example.lenient)).
  intros page w.
  pose (resp := {| Response.StatusCode := 200; Response.Header := ∅;
                   Response.Body :=
                     Document (Example.shapeB "1"
                                 [Example.raw "a"; Example.raw "b"]) false |}).
  pose (req := Root.pageRequest Example.loggedIn
                 (Root.pageURL Example.loggedIn ItemsParams.zero page 2)
                 (Root.buildFieldsPayload Example.loggedIn)).
  exists (fst (Root.readPage (rt := Example.lenient)
                 (time_Now (GoRuntime := Example.lenient)
                    (snd (Do Example.endless Background req w))) resp)).
  eexists. split.
  - unfold Root.fetchPage.
    change (Z.to_nat (Config.MaxRetries (Root.Client.config Example.loggedIn)))
      with 3%nat.
    rewrite (attempt_succeeds (rt := Example.lenient) Example.endless
               Background Example.loggedIn _ _ 2 1 None w resp);
      reflexivity.
  - vm_compute. reflexivity.
Defined.

(** The first page of the search for [b] holds [ab]: the loop goes on to
    the page of number 2. *)
Lemma GetItemByID_goes_on_witness :
  exists items w1,
    Root.pageLoop (rt := Example.runtime) Example.searchB 3 Background
      Example.loggedIn (Root.byIDParams "b") 1 1 [] Example.start
    = Root.pageLoop (rt := Example.runtime) Example.searchB 2 Background
        Example.loggedIn (Root.byIDParams "b") 1 2 items w1
    /\ map DCTrackItem.ID items = ["ab"].
Proof.
  pose (run := Root.fetchPage (rt := Example.runtime) Example.searchB
                 Background Example.loggedIn
                 (Root.pageURL Example.loggedIn (Root.byIDParams "b") 1 1)
                 (Root.buildFieldsPayload Example.loggedIn) Example.start).
  exists (fst (fst run)), (snd run). split; [| vm_compute; reflexivity].
  refine (proj2 (proj2
            (GetItemByID_goes_on_after_a_match (rt := Example.runtime)
               Example.searchB Background Example.loggedIn "b" 2 1 []
               (fst (fst run)) Example.start (snd run) _ _))).
  - vm_compute. reflexivity.
  - vm_compute. discriminate.
Defined.

(** ** The attempts of one page *)

Section Attempts.
Context {rt : GoRuntime}.
Variable net : Network.
Variables (ctx : Context) (c : Root.Client.t) (url : string) (payload : json).

#[local] Abbreviation req := (Root.pageRequest c url payload).
#[local] Abbreviation maxRetries := (Config.MaxRetries (Root.Client.config c)).
#[local] Abbreviation retryDelay := (Config.RetryDelay (Root.Client.config c)).
#[local] Abbreviation afterFailures k w :=
  (afterFailures net ctx c url payload k w).

(** A round trip that is no failure is a response of status 200. *)
Lemma failure_none (trip : RoundTrip) :
  failure trip = None ->
  exists resp, trip = Reply resp /\ Response.StatusCode resp = 200.
Proof.
  destruct trip as [err | resp]; cbn; [discriminate |].
  destruct (Z.eqb_spec (Response.StatusCode resp) 200); [eauto | discriminate].
Qed.

(** Whatever the service answers, the loop ends on an attempt, after [k]
    attempts that failed and were each followed by the delay. *)
Lemma fetchPage_attempts_shape (remaining : nat) (attempt : Z)
    (lastErr : option error) (w : World) :
  url_Parse_ok url = true ->
  attempt + Z.of_nat remaining = maxRetries ->
  exists k : nat,
    (k <= remaining)%nat
    /\ snd (Root.fetchPage_attempts net ctx c url payload (S remaining)
              attempt lastErr w)
       = snd (Do net ctx req (afterFailures k w)).
Proof.
  intros Hurl. revert attempt lastErr w.
  induction remaining as [|remaining IH]; intros attempt lastErr w Hcount.
  - exists 0%nat. split; [lia |]. cbn [afterFailures].
    destruct (failure (fst (Do net ctx req w))) as [err|] eqn:Hfail.
    + rewrite (attempt_fails net ctx c url payload 0 attempt lastErr w err
                 Hurl Hfail).
      replace (attempt <? maxRetries) with false; [reflexivity |].
      symmetry. apply Z.ltb_ge. lia.
    + destruct (failure_none _ Hfail) as (resp & Htrip & Hok).
      now rewrite (attempt_succeeds net ctx c url payload 0 attempt lastErr w
                     resp Hurl Htrip Hok).
  - destruct (failure (fst (Do net ctx req w))) as [err|] eqn:Hfail.
    + rewrite (attempt_fails net ctx c url payload (S remaining) attempt
                 lastErr w err Hurl Hfail).
      replace (attempt <? maxRetries) with true
        by (symmetry; apply Z.ltb_lt; lia).
      destruct (IH (attempt + 1) (Some err)
                  (Sleep retryDelay (snd (Do net ctx req w))))
        as (k & Hk & Hworld); [lia |].
      exists (S k). split; [lia |]. rewrite Hworld. reflexivity.
    + exists 0%nat. split; [lia |]. cbn [afterFailures].
      destruct (failure_none _ Hfail) as (resp & Htrip & Hok).
      now rewrite (attempt_succeeds net ctx c url payload (S remaining)
                     attempt lastErr w resp Hurl Htrip Hok).
Qed.

(** Attempts that fail, then one that brings status 200. *)
Lemma fetchPage_attempts_recover (k remaining : nat) (attempt : Z)
    (lastErr : option error) (w : World) (resp : Response.t) :
  url_Parse_ok url = true ->
  attempt + Z.of_nat remaining = maxRetries ->
  (k <= remaining)%nat ->
  (forall i, (i < k)%nat ->
             failure (fst (Do net ctx req (afterFailures i w))) <> None) ->
  fst (Do net ctx req (afterFailures k w)) = Reply resp ->
  Response.StatusCode resp = 200 ->
  Root.fetchPage_attempts net ctx c url payload (S remaining) attempt lastErr w
  = (Root.readPage (time_Now (snd (Do net ctx req (afterFailures k w)))) resp,
     snd (Do net ctx req (afterFailures k w))).
Proof.
  intros Hurl. revert remaining attempt lastErr w.
  induction k as [|k IH]; intros remaining attempt lastErr w Hcount Hk Hfails
    Htrip Hok.
  - cbn [afterFailures] in *. now apply attempt_succeeds.
  - destruct (failure (fst (Do net ctx req w))) as [err|] eqn:Hfail;
      [| now elim (Hfails 0%nat ltac:(lia))].
    rewrite (attempt_fails net ctx c url payload remaining attempt lastErr w
               err Hurl Hfail).
    replace (attempt <? maxRetries) with true
      by (symmetry; apply Z.ltb_lt; lia).
    destruct remaining as [|remaining]; [lia |].
    apply IH; [lia | lia | | exact Htrip | exact Hok].
    intros i Hi. apply (Hfails (S i)). lia.
Qed.

End Attempts.

(** X10. Whatever the service answers, [fetchPage] makes at least one and at
    most [MaxRetries] attempts, sleeps [RetryDelay] between two attempts
    and at no other time, and returns on an attempt: its log is [k] times
    request and delay, then one request, with [k < MaxRetries], and it
    takes [k] delays. *)
Theorem fetchPage_attempts_and_delays {rt : GoRuntime} (net : Network)
    (ctx : Context) (c : Root.Client.t) (url : string) (payload : json)
    (w : World) :
  url_Parse_ok url = true ->
  0 < Config.MaxRetries (Root.Client.config c) ->
  let req := Root.pageRequest c url payload in
  let delay := Config.RetryDelay (Root.Client.config c) in
  exists k : nat,
    Z.of_nat k < Config.MaxRetries (Root.Client.config c)
    /\ snd (Root.fetchPage net ctx c url payload w)
       = {| now := now w + Z.of_nat k * Z.max 0 delay;
            log := log w ++ concat (replicate k [Sent req; Slept delay])
                         ++ [Sent req] |}.
Proof.
  intros Hurl Hmax req delay. unfold Root.fetchPage.
  destruct (Z.to_nat (Config.MaxRetries (Root.Client.config c)))
    as [|remaining] eqn:Hn; [lia |].
  destruct (fetchPage_attempts_shape net ctx c url payload remaining 1 None w
              Hurl ltac:(lia)) as (k & Hk & ->).
  exists k. split; [lia |].
  rewrite Do_world, afterFailures_world. cbn [now log].
  now rewrite <- app_assoc.
Qed.

(** Against the service that is down: three requests, two delays. *)
Lemma fetchPage_attempts_and_delays_witness :
  exists k : nat,
    Z.of_nat k < 3
    /\ log (snd (Root.fetchPage (rt := Example.runtime) Example.down
                   Background Example.loggedIn (Example.pagePath "1")
                   (JObject []) Example.start))
       = concat (replicate k
                   [Sent (Root.pageRequest Example.loggedIn
                            (Example.pagePath "1") (JObject []));
                    Slept Go.Second])
         ++ [Sent (Root.pageRequest Example.loggedIn (Example.pagePath "1")
                     (JObject []))].
Proof.
  destruct (fetchPage_attempts_and_delays (rt := Example.runtime) Example.down
              Background Example.loggedIn (Example.pagePath "1") (JObject [])
              Example.start) as (k & Hk & Hworld).
  - vm_compute. reflexivity.
  - reflexivity.
  - exists k. split; [exact Hk |]. rewrite Hworld. reflexivity.
Defined.

(** X11. [fetchPage] recovers: when [k] attempts fail, with [k < MaxRetries],
    and the next one brings status 200, it returns what it reads in that
    response, after [k] delays and [k + 1] requests. *)
Theorem fetchPage_recovers {rt : GoRuntime} (net : Network) (ctx : Context)
    (c : Root.Client.t) (url : string) (payload : json) (w : World)
    (k : nat) (resp : Response.t) :
  url_Parse_ok url = true ->
  Z.of_nat k < Config.MaxRetries (Root.Client.config c) ->
  let req := Root.pageRequest c url payload in
  let delay := Config.RetryDelay (Root.Client.config c) in
  let before i :=
    {| now := now w + Z.of_nat i * Z.max 0 delay;
       log := log w ++ concat (replicate i [Sent req; Slept delay]) |} in
  let w' :=
    {| now := now w + Z.of_nat k * Z.max 0 delay;
       log := log w ++ concat (replicate k [Sent req; Slept delay])
                    ++ [Sent req] |} in
  (forall i, (i < k)%nat -> failure (fst (Do net ctx req (before i))) <> None) ->
  fst (Do net ctx req (before k)) = Reply resp ->
  Response.StatusCode resp = 200 ->
  Root.fetchPage net ctx c url payload w
  = (Root.readPage (time_Now w') resp, w').
Proof.
  intros Hurl Hk req delay before w' Hfails Htrip Hok. subst w'.
  assert (Hbefore : forall i, afterFailures net ctx c url payload i w = before i)
    by (intros i; apply afterFailures_world).
  unfold Root.fetchPage.
  destruct (Z.to_nat (Config.MaxRetries (Root.Client.config c)))
    as [|remaining] eqn:Hn; [lia |].
  rewrite (fetchPage_attempts_recover net ctx c url payload k remaining 1 None
             w resp Hurl); try lia.
  - rewrite Do_world, afterFailures_world. cbn [now log].
    now rewrite <- app_assoc.
  - intros i Hi. rewrite Hbefore. now apply Hfails.
  - now rewrite Hbefore.
Qed.

(** The service that drops the first request for a page: the second
    attempt brings the page [a b], one delay after the first. *)
Lemma fetchPage_recovers_witness :
  let req :=
    Root.pageRequest Example.loggedIn (Example.pagePath "1") (JObject []) in
  exists items,
    Root.fetchPage (rt := Example.runtime) Example.flaky Background
      Example.loggedIn (Example.pagePath "1") (JObject []) Example.start
    = (items, None,
       {| now := Go.Second; log := [Sent req; Slept Go.Second; Sent req] |})
    /\ map DCTrackItem.ID items = ["a"; "b"].
Proof.
  intros req.
  pose (resp := {| Response.StatusCode := 200; Response.Header := ∅;
                   Response.Body :=
                     Document (Example.shapeB "1"
                                 [Example.raw "a"; Example.raw "b"]) false |}).
  exists (fst (Root.readPage (rt := Example.runtime)
                 (time_Now (GoRuntime := Example.runtime)
                    {| now := Go.Second;
                       log := [Sent req; Slept Go.Second; Sent req] |})
                 resp)).
  split; [| vm_compute; reflexivity].
  rewrite (fetchPage_recovers (rt := Example.runtime) Example.flaky Background
             Example.loggedIn (Example.pagePath "1") (JObject [])
             Example.start 1 resp).
  - reflexivity.
  - vm_compute. reflexivity.
  - reflexivity.
  - intros [|i] Hi; [| lia]. vm_compute. discriminate.
  - vm_compute. reflexivity.
  - reflexivity.
Defined.

(** X12. A response of status 200 ends [fetchPage], whatever its body: a body
    that cannot be read or decoded is an error that is not tried again,
    however many attempts are left. *)
Theorem undecodable_page_is_not_retried {rt : GoRuntime} (net : Network)
    (ctx : Context) (c : Root.Client.t) (url : string) (payload : json)
    (w : World) (resp : Response.t) :
  url_Parse_ok url = true ->
  0 < Config.MaxRetries (Root.Client.config c) ->
  fst (Do net ctx (Root.pageRequest c url payload) w) = Reply resp ->
  Response.StatusCode resp = 200 ->
  let w' :=
    {| now := now w;
       log := log w ++ [Sent (Root.pageRequest c url payload)] |} in
  Root.fetchPage net ctx c url payload w
  = (Root.readPage (time_Now w') resp, w')
  /\ (Response.Body resp = InvalidJSON ->
      Root.readPage (time_Now w') resp
      = ([], Some (wrapError "error decoding response: " (Some jsonError))))
  /\ (forall j, Response.Body resp = Document j true ->
      Root.readPage (time_Now w') resp
      = ([], Some (wrapError "error decoding response: " (Some jsonError))))
  /\ (forall detail, Response.Body resp = BrokenBody detail ->
      Root.readPage (time_Now w') resp
      = ([], Some (wrapError "error reading response body: "
                     (Some (readError detail))))).
Proof.
  intros Hurl Hmax Htrip Hok w'. subst w'. split_and!.
  - unfold Root.fetchPage.
    destruct (Z.to_nat (Config.MaxRetries (Root.Client.config c)))
      as [|remaining] eqn:Hn; [lia |].
    rewrite (attempt_succeeds net ctx c url payload remaining 1 None w resp
               Hurl Htrip Hok).
    now rewrite Do_world.
  - unfold Root.readPage. now intros ->.
  - unfold Root.readPage. now intros j ->.
  - unfold Root.readPage. now intros detail ->.
Qed.

(** A page of status 200 that is not JSON: one request, no delay. *)
Lemma undecodable_page_witness :
  Root.fetchPage (rt := Example.runtime) Example.garbled Background
    Example.loggedIn (Example.pagePath "1") (JObject []) Example.start
  = ([], Some (wrapError "error decoding response: " (Some jsonError)),
     {| now := 0;
        log := [Sent (Root.pageRequest Example.loggedIn (Example.pagePath "1")
                        (JObject []))] |}).
Proof.
  pose (resp := {| Response.StatusCode := 200; Response.Header := ∅;
                   Response.Body := InvalidJSON |}).
  destruct (undecodable_page_is_not_retried (rt := Example.runtime)
              Example.garbled Background Example.loggedIn
              (Example.pagePath "1") (JObject []) Example.start resp)
    as (Hfetch & Hbody & _).
  - vm_compute. reflexivity.
  - reflexivity.
  - vm_compute. reflexivity.
  - reflexivity.
  - rewrite Hfetch, (Hbody eq_refl). reflexivity.
Defined.

(** ** Credentials and token *)

Section Credentials.
Context {rt : GoRuntime}.
Variable net : Network.
Variable ctx : Context.

(** [login] sends at most its one request, sleeps no delay, and changes
    nothing of the client but the token, which it changes on success
    only. *)
Lemma login_effects (c : Root.Client.t) (w : World) :
  let '(err, c', w') := Root.login net ctx c w in
  now w' = now w
  /\ (log w' = log w \/ log w' = log w ++ [Sent (Root.loginRequest c)])
  /\ Root.Client.config c' = Root.Client.config c
  /\ (err <> None -> c' = c)
  /\ (err = None -> log w' = log w ++ [Sent (Root.loginRequest c)]).
Proof.
  unfold Root.login.
  destruct (url_Parse_ok _) eqn:Hurl; cbn [negb];
    [| split_and!; try tauto; discriminate].
  unfold Do.
  assert (Hshape : forall err : error,
             let w' := {| now := now w;
                          log := log w ++ [Sent (Root.loginRequest c)] |} in
             now w' = now w
             /\ (log w' = log w
                 \/ log w' = log w ++ [Sent (Root.loginRequest c)])
             /\ Root.Client.config c = Root.Client.config c
             /\ (Some err <> None -> c = c)
             /\ (Some err = None
                 -> log w' = log w ++ [Sent (Root.loginRequest c)])).
  { intros err w'. cbn [now log w']. split_and!; try tauto; try discriminate. }
  destruct (ctxErr ctx (now w)) as [e|]; [apply Hshape |].
  destruct (net (log w) (Root.loginRequest c)) as [e | resp]; [apply Hshape |].
  destruct (negb (Response.StatusCode resp =? Go.StatusOK)); [apply Hshape |].
  cbv zeta. destruct (Go.eqb (Response.Get resp "Authorization") "");
    [apply Hshape |].
  destruct ((Go.len (Response.Get resp "Authorization") >? 7)
            && Go.eqb (Go.slice_to 7 (Response.Get resp "Authorization"))
                 "Bearer "); [| apply Hshape].
  cbn [now log Root.Client.config]. split_and!; tauto.
Qed.



End Credentials.

(** X13. A login that fails ends [GetItemsWithParams]: the error is
    [authentication failed: ] around the error of [login], no page is
    requested, the login is not tried again (the log holds its one
    request, or nothing when the request could not be created), no delay
    is slept and the client keeps the token it had. *)
Theorem failed_login_requests_no_page {rt : GoRuntime} (net : Network)
    (fuel : nat) (ctx : Context) (c c' : Root.Client.t)
    (params : ItemsParams.t) (w w' : World) (err : error) :
  Root.login net ctx c w = (Some err, c', w') ->
  Root.GetItemsWithParams net fuel ctx c params w
  = Some ([], Some (wrapError "authentication failed: " (Some err)), c, w')
  /\ c' = c
  /\ (log w' = log w \/ log w' = log w ++ [Sent (Root.loginRequest c)]).
Proof.
  intros Hlogin. pose proof (login_effects net ctx c w) as Heffects.
  unfold Root.GetItemsWithParams. rewrite Hlogin in Heffects |- *.
  destruct Heffects as (Hnow & Hlog & _ & Hfailed & _).
  rewrite (Hfailed ltac:(discriminate)). now split_and!.
Qed.

(** The service that refuses the login with status 401. *)
Lemma failed_login_witness :
  Root.GetItemsWithParams (rt := Example.runtime) Example.unauthorized 4
    Background Example.client ItemsParams.zero Example.start
  = Some ([],
          Some (wrapError "authentication failed: "
                  (Some (errorString "login failed with status 401"))),
          Example.client,
          {| now := 0; log := [Sent (Root.loginRequest Example.client)] |}).
Proof.
  refine (proj1 (failed_login_requests_no_page (rt := Example.runtime)
                   Example.unauthorized 4 Background Example.client
                   Example.client ItemsParams.zero Example.start _ _ _)).
  vm_compute. reflexivity.
Defined.



(** ** The required fields of the root mapper *)

(** X15. The root mapper accepts a record exactly when [id], [tiName],
    [tiClass], [cmbStatus] and [cmbLocation] each render to a string that
    is not empty; otherwise its error names the first of them, in this
    order, that is empty.  A key that is absent, [null] or the empty string
    is such a field. *)
Theorem Root_mapper_required_fields {rt : GoRuntime} (timeNow : Clock)
    (record : record) :
  let required := ["id"; "tiName"; "tiClass"; "cmbStatus"; "cmbLocation"] in
  (snd (Root.mapDCTrackRecord timeNow record) = None
   <-> Forall (fun key => Root.getString record key <> "") required)
  /\ (forall before key after,
         required = before ++ key :: after ->
         Forall (fun key => Root.getString record key <> "") before ->
         Root.getString record key = "" ->
         snd (Root.mapDCTrackRecord timeNow record)
         = Some (errorString ("missing required field: " +:+ key)))
  /\ (forall key,
         record !! key = None \/ record !! key = Some VNil
         \/ record !! key = Some (VString "") ->
         Root.getString record key = "").
Proof.
  intros required. subst required. rewrite Root_required_fields.
  split_and!.
  - rewrite !Forall_cons, Forall_nil.
    destruct (Go.eqb (Root.getString record "id") "") eqn:H1;
      [apply eqb_empty in H1; split; [discriminate | tauto] |].
    destruct (Go.eqb (Root.getString record "tiName") "") eqn:H2;
      [apply eqb_empty in H2; split; [discriminate | tauto] |].
    destruct (Go.eqb (Root.getString record "tiClass") "") eqn:H3;
      [apply eqb_empty in H3; split; [discriminate | tauto] |].
    destruct (Go.eqb (Root.getString record "cmbStatus") "") eqn:H4;
      [apply eqb_empty in H4; split; [discriminate | tauto] |].
    destruct (Go.eqb (Root.getString record "cmbLocation") "") eqn:H5;
      [apply eqb_empty in H5; split; [discriminate | tauto] |].
    apply eqb_not_empty in H1, H2, H3, H4, H5. tauto.
  - intros before key after Heq Hbefore Hkey.
    repeat (destruct before as [|? before];
            [injection Heq as <- <-; cbn [app] in *;
             repeat match goal with
                    | H : Forall _ (_ :: _) |- _ =>
                        apply Forall_cons in H as [?%eqb_not_empty ?]
                    end;
             apply eqb_empty in Hkey;
             repeat match goal with
                    | H : Go.eqb _ _ = _ |- _ => rewrite H
                    end; reflexivity
            | injection Heq as <- Heq]).
    now destruct before.
  - intros key [Hkey | [Hkey | Hkey]]; unfold Root.getString;
      now rewrite Hkey.
Qed.

(** ** Counts of the envelope that are not integers *)

Lemma decodeObject_fails {A : Type} (field : A -> string -> json -> option A)
    (members : list (string * json)) (k : string) (x : json) :
  In (k, x) members ->
  (forall a, field a k x = None) ->
  forall a, Json.decodeObject field members a = None.
Proof.
  intros Hin Hfails.
  induction members as [|[k' x'] members IH]; [elim Hin |].
  intros a. cbn [Json.decodeObject].
  destruct Hin as [[= -> ->] | Hin]; [now rewrite Hfails |].
  destruct (field a k' x') as [a'|]; [now apply IH | reflexivity].
Qed.

(** X16. The root package rejects a whole page when [totalRows], [pageNumber]
    or [pageSize] of its envelope is not [null] or an integer that fits
    an [int], under any spelling of the key that differs by case only:
    [fetchPage] returns [error decoding response] and none of the
    records, however well formed these are. *)
Theorem page_with_a_count_that_is_no_int_is_rejected {rt : GoRuntime}
    (timeNow : Clock) (header : gmap string string)
    (members : list (string * json)) (k : string) (x : json) :
  In (k, x) members ->
  Json.isField "totalRows" k || Json.isField "pageNumber" k
  || Json.isField "pageSize" k = true ->
  Json.decodeInt x 0 = None ->
  Root.readPage timeNow
    {| Response.StatusCode := 200; Response.Header := header;
       Response.Body := Document (JObject members) false |}
  = ([], Some (wrapError "error decoding response: " (Some jsonError))).
Proof.
  intros Hin Hkey Hint. unfold Root.readPage. cbn [Response.Body].
  unfold Root.Unmarshal.
  rewrite (decodeObject_fails Root.decodeField members k x Hin);
    [reflexivity |].
  intros resp. unfold Root.decodeField.
  assert (Hnone : forall old, Json.decodeInt x old = None).
  { intros old. destruct x; cbn in *; congruence. }
  destruct (Json.isField "totalRows" k); [now rewrite Hnone |].
  destruct (Json.isField "pageNumber" k); [now rewrite Hnone |].
  destruct (Json.isField "pageSize" k); [now rewrite Hnone | discriminate].
Qed.

(** An envelope whose [totalRows] is the string [4]. *)
Lemma page_with_a_count_that_is_no_int_witness :
  Root.readPage (rt := Example.runtime) Example.clock
    {| Response.StatusCode := 200; Response.Header := ∅;
       Response.Body :=
         Document
           (JObject [("totalRows", JString "4");
                     ("searchResults",
                      JObject [("items", JArray [Example.raw "a"])])])
           false |}
  = ([], Some (wrapError "error decoding response: " (Some jsonError))).
Proof.
  apply (page_with_a_count_that_is_no_int_is_rejected (rt := Example.runtime)
           Example.clock ∅ _ "totalRows" (JString "4")).
  - now left.
  - vm_compute. reflexivity.
  - reflexivity.
Defined.

(** ** The page loop under [dctrack/] *)

Section SubPages.
Context {rt : GoRuntime}.
Variable net : Network.

(** Under [dctrack/] too an error comes with no item. *)
Lemma Sub_pageLoop_error (fuel : nat) (ctx : Context) (c : Sub.Client.t)
    (params : ItemsParams.t) (pageSize page : Z)
    (allItems items : list DCTrackItem.t) (err : error) (w w' : World) :
  Sub.pageLoop net fuel ctx c params pageSize page allItems w
  = Some (items, Some err, w') ->
  items = [].
Proof.
  revert page allItems w.
  induction fuel as [|fuel IH]; intros page allItems w; [discriminate |].
  cbn [Sub.pageLoop].
  destruct (Sub.fetchPage net ctx c (Sub.pageURL c params page pageSize)
              (Sub.buildStandardFieldsPayload c) w) as [[got [e|]] w1].
  - now intros [= <- _ _].
  - destruct (length got =? 0)%nat; [discriminate |].
    destruct (Z.of_nat (length got) <? pageSize); [discriminate |].
    cbv zeta. destruct (ItemsParams.PageNumber params >? 0); [discriminate |].
    apply IH.
Qed.

End SubPages.

(** X17. [GetItemsWithParams] of [dctrack/]: with a page number given by the
    caller it fetches that one page, whatever the page holds, and returns
    its items or the error of the fetch; and whatever the parameters, an
    error comes with no item. *)
Theorem Sub_one_page_for_a_page_number {rt : GoRuntime} (net : Network)
    (fuel : nat) (ctx : Context) (c c1 : Sub.Client.t)
    (params : ItemsParams.t) (w w1 : World) :
  (0 < ItemsParams.PageNumber params ->
   Sub.login net ctx c w = (None, c1, w1) ->
   let pageSize :=
     if ItemsParams.PageSize params >? 0 then ItemsParams.PageSize params
     else Config.PageSize (Sub.Client.config c1) in
   Sub.GetItemsWithParams net (S fuel) ctx c params w
   = match
       Sub.fetchPage net ctx c1
         (Sub.pageURL c1 params (ItemsParams.PageNumber params) pageSize)
         (Sub.buildStandardFieldsPayload c1) w1
     with
     | (_, Some err, w') => Some ([], Some err, c1, w')
     | (items, None, w') => Some (items, None, c1, w')
     end)
  /\ (forall items err c' w',
         Sub.GetItemsWithParams net fuel ctx c params w
         = Some (items, Some err, c', w') ->
         items = []).
Proof.
  split.
  - intros Hnumber Hlogin pageSize. unfold Sub.GetItemsWithParams.
    rewrite Hlogin. cbv zeta. fold pageSize.
    replace (ItemsParams.PageNumber params >? 0) with true
      by (symmetry; apply Z.gtb_lt; lia).
    cbn [Sub.pageLoop].
    destruct (Sub.fetchPage net ctx c1
                (Sub.pageURL c1 params (ItemsParams.PageNumber params) pageSize)
                (Sub.buildStandardFieldsPayload c1) w1) as [[items [e|]] w'];
      [reflexivity |].
    destruct items as [|item items]; [reflexivity |].
    cbn [length Nat.eqb app].
    destruct (Z.of_nat (S (length items)) <? pageSize); [reflexivity |].
    replace (ItemsParams.PageNumber params >? 0) with true
      by (symmetry; apply Z.gtb_lt; lia).
    reflexivity.
  - intros items err c' w'. unfold Sub.GetItemsWithParams.
    destruct (Sub.login net ctx c w) as [[[e|] c2] w2];
      [now intros [= <- _ _ _] |].
    cbv zeta.
    match goal with
    | |- context [Sub.pageLoop ?n ?f ?x ?cl ?p ?s ?pg ?a ?wd] =>
        destruct (Sub.pageLoop n f x cl p s pg a wd) as [[[got e] w3]|]
          eqn:Hloop; [| discriminate]
    end.
    intros [= -> -> _ _]. now apply Sub_pageLoop_error in Hloop.
Qed.

(** The caller asks for page 1 of the service that answers in shape A:
    one fetch, the items [a] and [b]. *)
Lemma Sub_one_page_witness :
  exists items c1 w',
    Sub.GetItemsWithParams (rt := Example.runtime) Example.recordsPages 1
      Background Example.subClient Example.firstPage Example.start
    = Some (items, None, c1, w')
    /\ map DCTrackItem.ID items = ["a"; "b"]
    /\ (length (log w') = 2)%nat.
Proof.
  pose (login := Sub.login (rt := Example.runtime) Example.recordsPages
                   Background Example.subClient Example.start).
  assert (Hlogin : login = (None, snd (fst login), snd login))
    by (vm_compute; reflexivity).
  assert (Hnumber : 0 < ItemsParams.PageNumber Example.firstPage)
    by (cbn; lia).
  pose proof (proj1 (Sub_one_page_for_a_page_number (rt := Example.runtime)
                       Example.recordsPages 0 Background Example.subClient
                       (snd (fst login)) Example.firstPage Example.start
                       (snd login)) Hnumber Hlogin) as Hrun.
  cbv zeta in Hrun. rewrite Hrun.
  eexists. eexists. eexists. split; [vm_compute; reflexivity |].
  split; vm_compute; reflexivity.
Defined.

(** ** The filter builder *)

Lemma assign_frame (h : FilterBuilder.Heap) (f g : FilterBuilder.ptr)
    (params : ItemsParams.t) (set : ItemsParams.t -> ItemsParams.t) :
  h !! f = Some params ->
  g <> f ->
  exists h',
    FilterBuilder.assign f set h = Some (f, h')
    /\ FilterBuilder.Build g h' = FilterBuilder.Build g h
    /\ FilterBuilder.Build f h' = Some (set params).
Proof.
  intros Hf Hg. unfold FilterBuilder.assign, FilterBuilder.Build.
  rewrite Hf. cbn. eexists. split; [reflexivity |].
  split; [now apply lookup_insert_ne | apply lookup_insert_eq].
Qed.

(** X18. [NewFilterBuilder] returns a builder of its own, whose [Build] is
    [ItemsParams{}], and leaves the other builders as they are.  Every
    setter returns the builder it was called on, so that a chain of calls
    works on one builder; it overwrites the fields it names, keeps what
    the earlier calls wrote in the others, and leaves every other builder
    as it is.  [Build] reads the parameters and changes nothing. *)
Theorem FilterBuilder_set_and_build (h : FilterBuilder.Heap)
    (f g : FilterBuilder.ptr) (params : ItemsParams.t) :
  h !! f = Some params ->
  g <> f ->
  let kept h' := FilterBuilder.Build g h' = FilterBuilder.Build g h in
  (let '(new, h0) := FilterBuilder.NewFilterBuilder h in
   h !! new = None
   /\ FilterBuilder.Build new h0 = Some ItemsParams.zero
   /\ FilterBuilder.Build f h0 = Some params)
  /\ (forall location, exists h',
         FilterBuilder.Location f location h = Some (f, h') /\ kept h'
         /\ FilterBuilder.Build f h'
            = Some {| ItemsParams.PageNumber := ItemsParams.PageNumber params;
                      ItemsParams.PageSize := ItemsParams.PageSize params;
                      ItemsParams.Location := location;
                      ItemsParams.Status := ItemsParams.Status params;
                      ItemsParams.ItemClass := ItemsParams.ItemClass params;
                      ItemsParams.Make := ItemsParams.Make params;
                      ItemsParams.Model := ItemsParams.Model params;
                      ItemsParams.SearchText := ItemsParams.SearchText params |})
  /\ (forall status, exists h',
         FilterBuilder.Status f status h = Some (f, h') /\ kept h'
         /\ FilterBuilder.Build f h'
            = Some {| ItemsParams.PageNumber := ItemsParams.PageNumber params;
                      ItemsParams.PageSize := ItemsParams.PageSize params;
                      ItemsParams.Location := ItemsParams.Location params;
                      ItemsParams.Status := status;
                      ItemsParams.ItemClass := ItemsParams.ItemClass params;
                      ItemsParams.Make := ItemsParams.Make params;
                      ItemsParams.Model := ItemsParams.Model params;
                      ItemsParams.SearchText := ItemsParams.SearchText params |})
  /\ (forall itemClass, exists h',
         FilterBuilder.ItemClass f itemClass h = Some (f, h') /\ kept h'
         /\ FilterBuilder.Build f h'
            = Some {| ItemsParams.PageNumber := ItemsParams.PageNumber params;
                      ItemsParams.PageSize := ItemsParams.PageSize params;
                      ItemsParams.Location := ItemsParams.Location params;
                      ItemsParams.Status := ItemsParams.Status params;
                      ItemsParams.ItemClass := itemClass;
                      ItemsParams.Make := ItemsParams.Make params;
                      ItemsParams.Model := ItemsParams.Model params;
                      ItemsParams.SearchText := ItemsParams.SearchText params |})
  /\ (forall make, exists h',
         FilterBuilder.Make f make h = Some (f, h') /\ kept h'
         /\ FilterBuilder.Build f h'
            = Some {| ItemsParams.PageNumber := ItemsParams.PageNumber params;
                      ItemsParams.PageSize := ItemsParams.PageSize params;
                      ItemsParams.Location := ItemsParams.Location params;
                      ItemsParams.Status := ItemsParams.Status params;
                      ItemsParams.ItemClass := ItemsParams.ItemClass params;
                      ItemsParams.Make := make;
                      ItemsParams.Model := ItemsParams.Model params;
                      ItemsParams.SearchText := ItemsParams.SearchText params |})
  /\ (forall model, exists h',
         FilterBuilder.Model f model h = Some (f, h') /\ kept h'
         /\ FilterBuilder.Build f h'
            = Some {| ItemsParams.PageNumber := ItemsParams.PageNumber params;
                      ItemsParams.PageSize := ItemsParams.PageSize params;
                      ItemsParams.Location := ItemsParams.Location params;
                      ItemsParams.Status := ItemsParams.Status params;
                      ItemsParams.ItemClass := ItemsParams.ItemClass params;
                      ItemsParams.Make := ItemsParams.Make params;
                      ItemsParams.Model := model;
                      ItemsParams.SearchText := ItemsParams.SearchText params |})
  /\ (forall text, exists h',
         FilterBuilder.SearchText f text h = Some (f, h') /\ kept h'
         /\ FilterBuilder.Build f h'
            = Some {| ItemsParams.PageNumber := ItemsParams.PageNumber params;
                      ItemsParams.PageSize := ItemsParams.PageSize params;
                      ItemsParams.Location := ItemsParams.Location params;
                      ItemsParams.Status := ItemsParams.Status params;
                      ItemsParams.ItemClass := ItemsParams.ItemClass params;
                      ItemsParams.Make := ItemsParams.Make params;
                      ItemsParams.Model := ItemsParams.Model params;
                      ItemsParams.SearchText := text |})
  /\ (forall page size, exists h',
         FilterBuilder.WithPagination f page size h = Some (f, h') /\ kept h'
         /\ FilterBuilder.Build f h'
            = Some {| ItemsParams.PageNumber := page;
                      ItemsParams.PageSize := size;
                      ItemsParams.Location := ItemsParams.Location params;
                      ItemsParams.Status := ItemsParams.Status params;
                      ItemsParams.ItemClass := ItemsParams.ItemClass params;
                      ItemsParams.Make := ItemsParams.Make params;
                      ItemsParams.Model := ItemsParams.Model params;
                      ItemsParams.SearchText := ItemsParams.SearchText params |}).
Proof.
  intros Hf Hg kept. split.
  - unfold FilterBuilder.NewFilterBuilder, FilterBuilder.Build.
    cbv beta iota zeta.
    assert (Hnew : h !! fresh (dom h) = None).
    { apply not_elem_of_dom. apply is_fresh. }
    split; [exact Hnew |]. split; [apply lookup_insert_eq |].
    etrans; [apply lookup_insert_ne | exact Hf].
    intros Heq. subst f.
    assert (Habsurd : Some params = None)
      by (etrans; [symmetry; exact Hf | exact Hnew]).
    discriminate Habsurd.
  - unfold FilterBuilder.Location, FilterBuilder.Status,
      FilterBuilder.ItemClass, FilterBuilder.Make, FilterBuilder.Model,
      FilterBuilder.SearchText, FilterBuilder.WithPagination, kept.
    split_and!; intros;
      match goal with
      | |- context [FilterBuilder.assign f ?set h] =>
          exact (assign_frame h f g params set Hf Hg)
      end.
Qed.

(** A new builder, then [Location("RDU2")]. *)
Lemma FilterBuilder_set_and_build_witness :
  exists f h h',
    FilterBuilder.NewFilterBuilder ∅ = (f, h)
    /\ FilterBuilder.Location f "RDU2" h = Some (f, h')
    /\ FilterBuilder.Build f h'
       = Some {| ItemsParams.PageNumber := 0; ItemsParams.PageSize := 0;
                 ItemsParams.Location := "RDU2"; ItemsParams.Status := "";
                 ItemsParams.ItemClass := ""; ItemsParams.Make := "";
                 ItemsParams.Model := ""; ItemsParams.SearchText := "" |}.
Proof.
  pose (new := FilterBuilder.NewFilterBuilder ∅).
  assert (Hf : snd new !! fst new = Some ItemsParams.zero)
    by (vm_compute; reflexivity).
  assert (Hg : S (fst new) <> fst new) by lia.
  destruct (proj1 (proj2 (FilterBuilder_set_and_build (snd new) (fst new)
                            (S (fst new)) ItemsParams.zero Hf Hg)) "RDU2")
    as (h' & Hcall & _ & Hbuilt).
  exists (fst new), (snd new), h'. split_and!;
    [reflexivity | exact Hcall | exact Hbuilt].
Defined.

(** ** The command-line tool *)

(** X19. What [main] does with its arguments.  Without an argument it prints
    the usage.  With one argument it searches for it, also when the
    argument is the name of a command.  With two or more, the first is the
    command and the second its argument, the others are not read; a first
    argument that is no command is itself searched for, and the second is
    dropped. *)
Theorem dispatch_of_arguments (program : string) :
  Cmd.dispatch [] = None
  /\ Cmd.dispatch [program] = None
  /\ (forall arg, Cmd.dispatch [program; arg] = Some (Cmd.handleSearch arg))
  /\ (forall arg rest,
         Cmd.dispatch (program :: "search" :: arg :: rest)
         = Some (Cmd.handleSearch arg)
         /\ Cmd.dispatch (program :: "list" :: arg :: rest)
            = Some (Cmd.handleList arg)
         /\ Cmd.dispatch (program :: "item" :: arg :: rest)
            = Some (Cmd.handleGetItem arg)
         /\ Cmd.dispatch (program :: "power" :: arg :: rest)
            = Some (Cmd.handlePowerAnalysis arg))
  /\ (forall word arg rest,
         word <> "search" -> word <> "list" -> word <> "item" ->
         word <> "power" ->
         Cmd.dispatch (program :: word :: arg :: rest)
         = Some (Cmd.handleSearch word)).
Proof.
  split_and!; try reflexivity.
  - intros arg rest. split_and!; reflexivity.
  - intros word arg rest H1 H2 H3 H4. unfold Cmd.dispatch, Go.eqb.
    apply String.eqb_neq in H1, H2, H3, H4. now rewrite H1, H2, H3, H4.
Qed.

Section Environment.
Context {rt : GoRuntime}.

Lemma getEnvOrDefault_empty (env : Cmd.Env) (key : string) :
  Cmd.getEnvOrDefault env key "" <> ""
  <-> exists value, env !! key = Some value /\ value <> "".
Proof.
  unfold Cmd.getEnvOrDefault, Cmd.Getenv. cbv zeta.
  destruct (env !! key) as [value|]; cbn [from_option id].
  - destruct (Go.eqb value "") eqn:Hempty; cbn [negb].
    + apply eqb_empty in Hempty. split; [intros Hne; now elim Hne |].
      intros (v & [= <-] & Hne). contradiction.
    + apply eqb_not_empty in Hempty. split; [eauto |]. tauto.
  - change (Go.eqb "" "") with true. cbn [negb].
    split; [intros Hne; now elim Hne |]. intros (v & [=] & _).
Qed.

(** X20. The tool starts exactly when [DCTRACK_URL], [DCTRACK_USERNAME] and
    [DCTRACK_PASSWORD] are set to values that are not empty: then its own
    validation passes and [NewClient] returns a client, whatever the other
    variables hold.  A page size, a number of attempts or a delay that is
    not set, not a number or not positive does not stop it: the client has
    positive ones. *)
Theorem tool_starts_on_three_variables (env : Cmd.Env) :
  let config := Cmd.getConfigFromEnv env in
  let set key := exists value, env !! key = Some value /\ value <> "" in
  (Cmd.validateConfig config = None
   <-> set "DCTRACK_URL" /\ set "DCTRACK_USERNAME" /\ set "DCTRACK_PASSWORD")
  /\ (Cmd.validateConfig config = None
      <-> exists c, Root.NewClient config = (Some c, None))
  /\ (forall c, Root.NewClient config = (Some c, None) ->
         0 < Config.PageSize (Root.Client.config c)
         /\ 0 < Config.MaxRetries (Root.Client.config c)
         /\ 0 < Config.RetryDelay (Root.Client.config c))
  /\ (forall value,
         env !! "DCTRACK_PAGE_SIZE" = None
         \/ env !! "DCTRACK_PAGE_SIZE" = Some value
            /\ strconv_Atoi value = None ->
         Config.PageSize config = 100).
Proof.
  intros config set.
  assert (Hvalid : Cmd.validateConfig config = None
                   <-> Config.URL config <> "" /\ Config.Username config <> ""
                       /\ Config.Password config <> "").
  { unfold Cmd.validateConfig.
    destruct (Go.eqb (Config.URL config) "") eqn:Hurl;
      [apply eqb_empty in Hurl; split; [discriminate | tauto] |].
    destruct (Go.eqb (Config.Username config) "") eqn:Huser;
      [apply eqb_empty in Huser; split; [discriminate | tauto] |].
    destruct (Go.eqb (Config.Password config) "") eqn:Hpass;
      [apply eqb_empty in Hpass; split; [discriminate | tauto] |].
    apply eqb_not_empty in Hurl, Huser, Hpass. tauto. }
  split_and!.
  - rewrite Hvalid. subst config set. cbn [Cmd.getConfigFromEnv Config.URL
      Config.Username Config.Password].
    now rewrite !getEnvOrDefault_empty.
  - rewrite Hvalid. symmetry. apply NewClient_succeeds.
  - intros c. apply NewClient_defaults.
  - intros value Hsize. subst config.
    cbn [Cmd.getConfigFromEnv Config.PageSize].
    unfold Cmd.getEnvIntOrDefault, Cmd.Getenv. cbv zeta.
    destruct Hsize as [-> | [-> Hparse]]; [reflexivity |].
    cbn [from_option id]. rewrite Hparse.
    now destruct (negb (Go.eqb value "")).
Qed.

End Environment.

(** The statistics of the power analysis. *)

Lemma powerStatistics_from (items : list DCTrackItem.t) (s : Cmd.PowerStats) :
  0 <= Cmd.powerAssets s ->
  Cmd.powerAssets s + Z.of_nat (length items) <= Go.maxInt ->
  let s' := fold_left Cmd.powerStep items s in
  Cmd.powerAssets s'
  = Cmd.powerAssets s + Z.of_nat (length (List.filter hasPower items))
  /\ (List.filter hasPower items = [] -> s' = s)
  /\ (Cmd.maxPower s = 0%float ->
      List.filter hasPower items <> [] ->
      exists item, In item (List.filter hasPower items)
                   /\ Cmd.maxPower s' = DCTrackItem.OriginalPower item)
  /\ ((exists item, In item (List.filter hasPower items)
                    /\ Cmd.maxPower s' = DCTrackItem.OriginalPower item)
      \/ Cmd.maxPower s' = Cmd.maxPower s).
Proof.
  revert s. induction items as [|item items IH]; intros s Hpos Hbound s'.
  - subst s'. cbn. split_and!; [lia | reflexivity | tauto | now right].
  - subst s'. cbn [fold_left List.filter length] in *.
    assert (Hstep : Cmd.powerStep s item
                    = if hasPower item then
                        {| Cmd.totalPower :=
                             PrimFloat.add (Cmd.totalPower s)
                               (DCTrackItem.OriginalPower item);
                           Cmd.powerAssets := Go.wrapInt (Cmd.powerAssets s + 1);
                           Cmd.maxPower :=
                             if PrimFloat.ltb (Cmd.maxPower s)
                                  (DCTrackItem.OriginalPower item)
                             then DCTrackItem.OriginalPower item
                             else Cmd.maxPower s;
                           Cmd.minPower :=
                             if PrimFloat.ltb (DCTrackItem.OriginalPower item)
                                  (Cmd.minPower s)
                             then DCTrackItem.OriginalPower item
                             else Cmd.minPower s |}
                      else s) by reflexivity.
    rewrite Hstep. clear Hstep.
    destruct (hasPower item) eqn:Hitem.
    + set (s1 := {| Cmd.totalPower := _ |}).
      assert (Hcount : Cmd.powerAssets s1 = Cmd.powerAssets s + 1).
      { subst s1. cbn. apply wrapInt_small. unfold Go.minInt, Go.maxInt in *.
        lia. }
      destruct (IH s1) as (Hn & _ & _ & Hmax); [lia | lia |].
      cbn zeta in Hn, Hmax. split_and!.
      * rewrite Hn, Hcount. cbn [length]. lia.
      * discriminate.
      * intros Hzero _. destruct Hmax as [(other & Hin & Hmax) | Hmax].
        -- exists other. split; [now right | exact Hmax].
        -- exists item. split; [now left |]. rewrite Hmax. subst s1. cbn.
           rewrite Hzero. unfold hasPower in Hitem. now rewrite Hitem.
      * destruct Hmax as [(other & Hin & Hmax) | Hmax].
        -- left. exists other. split; [now right | exact Hmax].
        -- rewrite Hmax. subst s1. cbn.
           destruct (PrimFloat.ltb (Cmd.maxPower s)
                       (DCTrackItem.OriginalPower item));
             [left; exists item; split; [now left | reflexivity] | now right].
    + destruct (IH s) as (Hn & Hsame & Hfirst & Hmax); [lia | lia |].
      cbn zeta in Hn, Hsame, Hfirst, Hmax. now split_and!.
Qed.

(** X21. The power analysis counts as assets with power data the items whose
    original power is greater than zero.  When there is none, the total
    and the maximum stay at zero and the minimum at its start value, which
    the tool does not print.  When there is one, the maximum it prints is
    the original power of one of these items. *)
Theorem powerStatistics_of_items (items : list DCTrackItem.t) :
  Z.of_nat (length items) <= Go.maxInt ->
  let s := Cmd.powerStatistics items in
  let withPower :=
    List.filter
      (fun item => PrimFloat.ltb 0%float (DCTrackItem.OriginalPower item))
      items in
  Cmd.powerAssets s = Z.of_nat (length withPower)
  /\ (withPower = [] -> s = Cmd.powerStart)
  /\ (withPower <> [] ->
      exists item, In item withPower
                   /\ Cmd.maxPower s = DCTrackItem.OriginalPower item).
Proof.
  intros Hbound s withPower.
  destruct (powerStatistics_from items Cmd.powerStart)
    as (Hn & Hsame & Hmax & _); [cbn; lia | cbn; lia |].
  cbn zeta in Hn, Hsame, Hmax. split_and!.
  - exact Hn.
  - exact Hsame.
  - now apply Hmax.
Qed.

(** Two items, one with an original power of 500.5 W. *)
Lemma powerStatistics_of_items_witness :
  let a := fst (Sub.mapDCTrackRecord (rt := Example.runtime) Example.clock
                  Example.wireRecord) in
  let b := fst (Sub.mapDCTrackRecord (rt := Example.runtime) Example.clock
                  Example.recordWithoutID) in
  Cmd.powerAssets (Cmd.powerStatistics [a; b]) = 1
  /\ Cmd.maxPower (Cmd.powerStatistics [a; b]) = 500.5%float.
Proof.
  intros a b.
  destruct (powerStatistics_of_items [a; b]) as (Hcount & _ & _).
  - vm_compute. discriminate.
  - rewrite Hcount. split; vm_compute; reflexivity.
Defined.

(** The tally of the vendors. *)

Lemma vendorCounts_from (items : list DCTrackItem.t) (m : gmap string Z)
    (vendor : string) :
  0 <= default 0 (m !! vendor) ->
  default 0 (m !! vendor) + Z.of_nat (length items) <= Go.maxInt ->
  let n :=
    Z.of_nat (length (List.filter
                        (fun item => Go.eqb (DCTrackItem.Make item) vendor)
                        items)) in
  fold_left Cmd.vendorStep items m !! vendor
  = if Go.eqb vendor "" || (n =? 0) then m !! vendor
    else Some (default 0 (m !! vendor) + n).
Proof.
  revert m. induction items as [|item items IH]; intros m Hpos Hbound n.
  - subst n. cbn. now rewrite orb_true_r.
  - subst n. cbn [fold_left List.filter length] in *.
    unfold Cmd.vendorStep at 2.
    destruct (Go.eqb (DCTrackItem.Make item) "") eqn:Hempty; cbn [negb].
    + apply eqb_empty in Hempty.
      destruct (Go.eqb (DCTrackItem.Make item) vendor) eqn:Hvendor.
      * unfold Go.eqb in Hvendor. apply String.eqb_eq in Hvendor.
        rewrite <- Hvendor, Hempty in *. cbn [Go.eqb String.eqb orb].
        rewrite IH by lia. reflexivity.
      * rewrite IH by lia. reflexivity.
    + destruct (Go.eqb (DCTrackItem.Make item) vendor) eqn:Hvendor.
      * unfold Go.eqb in Hvendor. apply String.eqb_eq in Hvendor.
        subst vendor. rewrite Hempty. cbn [orb length].
        rewrite !Nat2Z.inj_succ.
        set (k := Z.of_nat
                    (length (List.filter
                               (fun item0 =>
                                  Go.eqb (DCTrackItem.Make item0)
                                    (DCTrackItem.Make item)) items))).
        assert (Hk : 0 <= k <= Z.of_nat (length items)).
        { subst k. split; [lia |]. apply Nat2Z.inj_le, List.filter_length_le. }
        assert (Hwrap : Go.wrapInt (default 0 (m !! DCTrackItem.Make item) + 1)
                        = default 0 (m !! DCTrackItem.Make item) + 1).
        { apply wrapInt_small. unfold Go.minInt, Go.maxInt in *. lia. }
        rewrite IH; rewrite lookup_insert_eq; cbn [from_option id];
          rewrite Hwrap; [| lia | lia].
        fold k. rewrite Hempty. cbn [orb].
        replace (Z.succ k =? 0) with false by (symmetry; apply Z.eqb_neq; lia).
        destruct (Z.eqb_spec k 0) as [-> | _]; f_equal; lia.
      * assert (Hne : DCTrackItem.Make item <> vendor).
        { unfold Go.eqb in Hvendor. now apply String.eqb_neq in Hvendor. }
        rewrite IH; rewrite lookup_insert_ne by exact Hne;
          [reflexivity | lia | lia].
Qed.

(** X22. After the loop of [handleList], the tally holds, for every vendor
    that is the [Make] of an item, the number of the items of this
    [Make]; the empty [Make] and the vendors of no item are not in it. *)
Theorem vendorCounts_of_items (items : list DCTrackItem.t) (vendor : string) :
  Z.of_nat (length items) <= Go.maxInt ->
  let n :=
    Z.of_nat (length (List.filter
                        (fun item => Go.eqb (DCTrackItem.Make item) vendor)
                        items)) in
  Cmd.vendorCounts items !! vendor
  = if Go.eqb vendor "" || (n =? 0) then None else Some n.
Proof.
  intros Hbound n. unfold Cmd.vendorCounts.
  rewrite (vendorCounts_from items ∅ vendor);
    rewrite lookup_empty; cbn [from_option id]; [| lia | lia].
  fold n. now destruct (Go.eqb vendor "" || (n =? 0)).
Qed.

(** Two items of the vendor [Dell], one of [HPE], one without. *)
Lemma vendorCounts_of_items_witness :
  let item make :=
    fst (Sub.mapDCTrackRecord (rt := Example.runtime) Example.clock
           (Example.strings [("id", "x"); ("cmbMake", make)])) in
  Cmd.vendorCounts [item "Dell"; item ""; item "HPE"; item "Dell"] !! "Dell"
  = Some 2.
Proof.
  intros item. rewrite vendorCounts_of_items.
  - vm_compute. reflexivity.
  - vm_compute. discriminate.
Defined.

(** The switches of the environment. *)

Lemma ParseBool_false (value : string) :
  Cmd.ParseBool value = Some false
  <-> In value ["0"; "f"; "F"; "FALSE"; "false"; "False"].
Proof.
  unfold Cmd.ParseBool, Go.eqb. cbn [In].
  repeat match goal with
         | |- context [String.eqb value ?lit] =>
             destruct (String.eqb_spec value lit) as [-> | ?]
         end; cbn [orb]; split; intros H; try discriminate H;
    try reflexivity; intuition congruence.
Qed.

Lemma ParseBool_true (value : string) :
  Cmd.ParseBool value = Some true
  <-> In value ["1"; "t"; "T"; "TRUE"; "true"; "True"].
Proof.
  unfold Cmd.ParseBool, Go.eqb. cbn [In].
  repeat match goal with
         | |- context [String.eqb value ?lit] =>
             destruct (String.eqb_spec value lit) as [-> | ?]
         end; cbn [orb]; split; intros H; try discriminate H;
    try reflexivity; intuition congruence.
Qed.

(** X23. The tool verifies certificates unless [DCTRACK_VERIFY_SSL] is one of
    [0], [f], [F], [FALSE], [false], [False]: any other value, [no] or
    [off] among them, leaves the verification on.  It requests all fields
    only when [DCTRACK_ALL_FIELDS] is one of [1], [t], [T], [TRUE],
    [true], [True]. *)
Theorem switches_of_the_environment {rt : GoRuntime} (env : Cmd.Env) :
  (Config.VerifySSL (Cmd.getConfigFromEnv env) = false
   <-> exists value,
         env !! "DCTRACK_VERIFY_SSL" = Some value
         /\ In value ["0"; "f"; "F"; "FALSE"; "false"; "False"])
  /\ (Config.RequestAllFields (Cmd.getConfigFromEnv env) = true
      <-> exists value,
            env !! "DCTRACK_ALL_FIELDS" = Some value
            /\ In value ["1"; "t"; "T"; "TRUE"; "true"; "True"]).
Proof.
  cbn [Cmd.getConfigFromEnv Config.VerifySSL Config.RequestAllFields].
  unfold Cmd.getEnvBoolOrDefault, Cmd.Getenv. cbv zeta. split.
  - destruct (env !! "DCTRACK_VERIFY_SSL") as [value|]; cbn [from_option id].
    + destruct (Go.eqb value "") eqn:Hempty; cbn [negb].
      * apply eqb_empty in Hempty. subst value. split; [discriminate |].
        intros (v & [= <-] & Hin). apply ParseBool_false in Hin.
        discriminate Hin.
      * destruct (Cmd.ParseBool value) as [[|]|] eqn:Hparse; split;
          try discriminate;
          try (intros (v & [= <-] & Hin%ParseBool_false); congruence).
        intros _. exists value. split; [reflexivity |].
        now apply ParseBool_false.
    + change (Go.eqb "" "") with true. cbn [negb].
      split; [discriminate | intros (v & [=] & _)].
  - destruct (env !! "DCTRACK_ALL_FIELDS") as [value|]; cbn [from_option id].
    + destruct (Go.eqb value "") eqn:Hempty; cbn [negb].
      * apply eqb_empty in Hempty. subst value. split; [discriminate |].
        intros (v & [= <-] & Hin). apply ParseBool_true in Hin.
        discriminate Hin.
      * destruct (Cmd.ParseBool value) as [[|]|] eqn:Hparse; split;
          try discriminate;
          try (intros (v & [= <-] & Hin%ParseBool_true); congruence).
        intros _. exists value. split; [reflexivity |].
        now apply ParseBool_true.
    + change (Go.eqb "" "") with true. cbn [negb].
      split; [discriminate | intros (v & [=] & _)].
Qed.

(** ** Time stamps *)

Lemma tryFormats_first {rt : GoRuntime} (before after : list string)
    (layout str : string) (t : Time) :
  Forall (fun earlier => time_Parse earlier str = None) before ->
  time_Parse layout str = Some t ->
  Root.tryFormats (before ++ layout :: after) str = Some t.
Proof.
  intros Hbefore Hparse.
  induction Hbefore as [|earlier before Hearlier _ IH]; cbn.
  - now rewrite Hparse.
  - now rewrite Hearlier.
Qed.

Lemma tryFormats_none {rt : GoRuntime} (layouts : list string) (str : string) :
  Forall (fun layout => time_Parse layout str = None) layouts ->
  Root.tryFormats layouts str = None.
Proof.
  induction 1 as [|layout layouts Hlayout _ IH]; cbn; [reflexivity |].
  now rewrite Hlayout.
Qed.

(** The three time stamps of an item. *)
Lemma Root_time_stamps {rt : GoRuntime} (timeNow : Clock) (record : record) :
  stamps (fst (Root.mapDCTrackRecord timeNow record))
  = match Root.getTime record "lastUpdatedOn" with
    | Some lastUpdated => (lastUpdated, timeNow 0%nat, timeNow 1%nat)
    | None => (timeNow 0%nat, timeNow 1%nat, timeNow 2%nat)
    end.
Proof.
  unfold Root.mapDCTrackRecord. cbv zeta.
  repeat match goal with
         | |- context [if ?b then _ else _] => destruct b
         end;
    cbn [fst stamps DCTrackItem.LastUpdatedAt DCTrackItem.CreatedAt
         DCTrackItem.UpdatedAt];
    now destruct (Root.getTime record "lastUpdatedOn").
Qed.

Lemma Sub_time_stamps {rt : GoRuntime} (timeNow : Clock) (record : record) :
  stamps (fst (Sub.mapDCTrackRecord timeNow record))
  = match Sub.getTime record "lastUpdatedOn" with
    | Some lastUpdated => (lastUpdated, timeNow 0%nat, timeNow 1%nat)
    | None => (timeNow 0%nat, timeNow 1%nat, timeNow 2%nat)
    end.
Proof.
  unfold Sub.mapDCTrackRecord. cbv zeta.
  cbn [fst stamps DCTrackItem.LastUpdatedAt DCTrackItem.CreatedAt
       DCTrackItem.UpdatedAt].
  now destruct (Sub.getTime record "lastUpdatedOn").
Qed.

Lemma Root_clockAfter_calls {rt : GoRuntime} (records : list record)
    (timeNow : Clock) (n : nat) :
  Root.clockAfter timeNow records n
  = timeNow (sum_list (map Root.timeNowCalls records) + n)%nat.
Proof.
  revert timeNow.
  induction records as [|record records IH]; intros timeNow; [reflexivity |].
  cbn [Root.clockAfter map sum_list]. rewrite IH. unfold later, id.
  f_equal. lia.
Qed.

(** X24. The time stamps of an item, under both mappers, which agree.
    Each stamp that is not read in the record comes from a call of its
    own of [time.Now()], in the order [LastUpdatedAt], [CreatedAt],
    [UpdatedAt].  When [lastUpdatedOn] is absent or [null], when it
    renders to the empty string or to [null], and when none of the four
    layouts reads it, the mapping makes three calls and the stamps are
    their three readings.  When a layout reads it, [LastUpdatedAt] is the
    time that the first such layout gives, the mapping makes two calls,
    and [CreatedAt] and [UpdatedAt] are their readings.  In a page, a
    record is mapped on the readings that the calls of the records before
    it have left. *)
Theorem time_stamps_of_an_item {rt : GoRuntime} (timeNow : Clock)
    (record : record) :
  let root := stamps (fst (Root.mapDCTrackRecord timeNow record)) in
  let sub := stamps (fst (Sub.mapDCTrackRecord timeNow record)) in
  let calls := Root.timeNowCalls record in
  (sub = root /\ Sub.timeNowCalls record = calls)
  /\ (record !! "lastUpdatedOn" = None \/ record !! "lastUpdatedOn" = Some VNil ->
      root = (timeNow 0%nat, timeNow 1%nat, timeNow 2%nat) /\ calls = 3%nat)
  /\ (forall val,
         record !! "lastUpdatedOn" = Some val ->
         Sprint val = "" \/ Sprint val = "null"
         \/ Forall (fun layout => time_Parse layout (Sprint val) = None)
              Root.formats ->
         root = (timeNow 0%nat, timeNow 1%nat, timeNow 2%nat)
         /\ calls = 3%nat)
  /\ (forall val before layout after t,
         record !! "lastUpdatedOn" = Some val ->
         val <> VNil -> Sprint val <> "" -> Sprint val <> "null" ->
         Root.formats = before ++ layout :: after ->
         Forall (fun earlier => time_Parse earlier (Sprint val) = None) before ->
         time_Parse layout (Sprint val) = Some t ->
         root = (t, timeNow 0%nat, timeNow 1%nat) /\ calls = 2%nat)
  /\ (forall before after,
         Sub.mapRecords timeNow (before ++ record :: after)
         = Sub.mapRecords timeNow before
           ++ fst (Sub.mapDCTrackRecord (Sub.clockAfter timeNow before) record)
              :: Sub.mapRecords (Sub.clockAfter timeNow (before ++ [record]))
                   after)
  /\ (forall records n,
         Sub.clockAfter timeNow records n = Root.clockAfter timeNow records n
         /\ Root.clockAfter timeNow records n
            = timeNow (sum_list (map Root.timeNowCalls records) + n)%nat).
Proof.
  intros root sub calls. subst root sub calls.
  rewrite Root_time_stamps, Sub_time_stamps.
  unfold Root.timeNowCalls.
  split_and!.
  - reflexivity.
  - reflexivity.
  - unfold Root.getTime. now intros [-> | ->].
  - intros val Hval Hcases. unfold Root.getTime. rewrite Hval.
    destruct (is_nil val); [now split |]. cbv zeta.
    destruct Hcases as [-> | [-> | Hnone]]; [now split | now split |].
    rewrite (tryFormats_none _ _ Hnone).
    now destruct (negb (Go.eqb (Sprint val) "")
                  && negb (Go.eqb (Sprint val) "null")).
  - intros val before layout after t Hval Hnil Hempty Hnull Hformats Hbefore
      Hparse.
    unfold Root.getTime. rewrite Hval.
    destruct (is_nil val) eqn:Hisnil;
      [destruct val; try discriminate Hisnil; now elim Hnil |].
    apply eqb_not_empty in Hempty.
    assert (Hnull' : Go.eqb (Sprint val) "null" = false)
      by (unfold Go.eqb; now apply String.eqb_neq).
    cbv zeta. rewrite Hempty, Hnull'. cbn [negb andb].
    now rewrite Hformats, (tryFormats_first _ _ _ _ _ Hbefore Hparse).
  - intros before after.
    rewrite Sub_mapRecords_app, Sub_clockAfter_app. reflexivity.
  - intros records n. split; [| apply Root_clockAfter_calls].
    revert timeNow.
    induction records as [|first records IH]; intros timeNow; [reflexivity |].
    apply (IH (later (Root.timeNowCalls first) timeNow)).
Qed.

(** On the clock that reads 0, 1, 2 and so on: a record without
    [lastUpdatedOn] takes the three readings; the record of the 15th of
    January 2024 takes that date from the record and two readings; in a
    page of the two, the second is mapped from reading 3 on. *)
Lemma time_stamps_of_an_item_witness :
  stamps (fst (Root.mapDCTrackRecord (rt := Example.runtime) Example.clock
                 Example.fullWireRecord)) = (0, 1, 2)
  /\ stamps (fst (Sub.mapDCTrackRecord (rt := Example.calendar) Example.clock
                    Example.datedRecord)) = (1705276800000000000, 0, 1)
  /\ map stamps
       (Sub.mapRecords (rt := Example.calendar) Example.clock
          ([Example.fullWireRecord] ++ Example.datedRecord :: []))
     = [(0, 1, 2); (1705276800000000000, 3, 4)].
Proof.
  pose proof (time_stamps_of_an_item (rt := Example.runtime) Example.clock
                Example.fullWireRecord) as (_ & Hplain & _).
  pose proof (time_stamps_of_an_item (rt := Example.calendar) Example.clock
                Example.datedRecord)
    as ((Hsub & _) & _ & _ & Hdated & Hpage & _).
  cbv zeta in Hplain, Hsub, Hdated.
  split_and!.
  - refine (proj1 (Hplain (or_introl _))). vm_compute. reflexivity.
  - rewrite Hsub.
    refine (proj1 (Hdated (VString "2024-01-15")
                     ["2006-01-02 15:04:05-07"; "2006-01-02T15:04:05Z"]
                     "2006-01-02" ["2006-01-02T15:04:05Z07:00"]
                     1705276800000000000 _ _ _ _ _ _ _));
      try reflexivity; try discriminate.
    repeat constructor.
  - rewrite Hpage. vm_compute. reflexivity.
Defined.

(** ** The login of the two packages *)

(** The four parts of the comparison, once both logins are computed. *)
Ltac same_outcome :=
  cbn; split_and!;
  [ split; intros H; (discriminate H || reflexivity)
  | intros H; (discriminate H || reflexivity)
  | intros msg; split; intros H; (discriminate H || exact H)
  | intros err; split; intros H;
    (discriminate H || (injection H as <-; reflexivity)) ].

(** X25. The two packages log in alike.  For clients of the same
    configuration and a service that answers their two login requests
    alike (they differ by the header [User-Agent] only), [login] succeeds
    in the one package exactly when it does in the other, and stores the
    same token; when it fails on the response, the error is the same.
    The packages differ in the message around a failure of the transport:
    [login request failed: ] at the root, [error making login request: ]
    under [dctrack/]. *)
Theorem logins_agree {rt : GoRuntime} (net : Network) (ctx : Context)
    (root : Root.Client.t) (sub : Sub.Client.t) (w : World) :
  Root.Client.config root = Sub.Client.config sub ->
  net (log w) (Root.loginRequest root) = net (log w) (Sub.loginRequest sub) ->
  let atRoot := Root.login net ctx root w in
  let atSub := Sub.login net ctx sub w in
  (fst (fst atRoot) = None <-> fst (fst atSub) = None)
  /\ (fst (fst atRoot) = None ->
      Root.Client.token (snd (fst atRoot)) = Sub.Client.token (snd (fst atSub)))
  /\ (forall msg,
         fst (fst atRoot) = Some (errorString msg)
         <-> fst (fst atSub) = Some (errorString msg))
  /\ (forall err,
         fst (fst atRoot) = Some (wrapError "login request failed: " (Some err))
         <-> fst (fst atSub)
             = Some (wrapError "error making login request: " (Some err))).
Proof.
  intros Hconfig Hanswer atRoot atSub. subst atRoot atSub.
  unfold Root.login, Sub.login. rewrite <- Hconfig.
  assert (Hurl : Request.URL (Sub.loginRequest sub)
                 = Request.URL (Root.loginRequest root))
    by (cbn; now rewrite Hconfig).
  destruct (url_Parse_ok _); cbn [negb]; [| same_outcome].
  unfold Do. rewrite Hurl.
  destruct (ctxErr ctx (now w)) as [e|]; [same_outcome |].
  rewrite <- Hanswer.
  destruct (net (log w) (Root.loginRequest root)) as [e | resp];
    [same_outcome |].
  destruct (negb (Response.StatusCode resp =? Go.StatusOK)); [same_outcome |].
  cbv zeta. destruct (Go.eqb (Response.Get resp "Authorization") "");
    [same_outcome |].
  destruct ((Go.len (Response.Get resp "Authorization") >? 7)
            && Go.eqb (Go.slice_to 7 (Response.Get resp "Authorization"))
                 "Bearer "); same_outcome.
Qed.

(** The service of the examples answers by the URL alone. *)
Lemma logins_agree_witness :
  Root.Client.token
    (snd (fst (Root.login (rt := Example.runtime) Example.twoPages Background
                 Example.client Example.start)))
  = Sub.Client.token
      (snd (fst (Sub.login (rt := Example.runtime) Example.twoPages Background
                   Example.subClient Example.start))).
Proof.
  apply (logins_agree (rt := Example.runtime) Example.twoPages Background
           Example.client Example.subClient Example.start).
  - reflexivity.
  - reflexivity.
  - vm_compute. reflexivity.
Defined.
